(** * Complaint-handling backend: a shallow embedding of the scoring,
    authentication, retrieval and orchestration code, with the properties
    its specification states.

  Python [float] is IEEE-754 binary64 and is modelled by Rocq's primitive
  [float]; dictionaries with run-time keys are [gmap string value];
  dictionary literals used as lookup tables are association lists;
  [try]/[except] is an explicit exception monad. *)

From Stdlib Require Import ZArith QArith Uint63 Floats Ascii String List.
From Stdlib Require Import Bool Lia.
From stdpp Require Import base option list sorting gmap strings.

Set Warnings "-inexact-float,-register-all".
#[local] Open Scope string_scope.
#[local] Open Scope list_scope.

(** ** Python values and exceptions *)

Module Py.

(** The JSON-like values that flow through the complaint state. *)
Inductive value : Type :=
| VNone
| VBool (b : bool)
| VInt (z : Z)
| VFloat (f : float)
| VStr (s : string)
| VList (l : list value)
| VDict (d : gmap string value).

Abbreviation dict := (gmap string value).

Inductive exn : Type :=
| TypeError (msg : string)
| ValueError (msg : string)
| NameError (name : string)
| AttributeError (msg : string)
| OverflowError (msg : string)
| MultipleResultsFound
| UnknownHashError
| HTTPException (status_code : nat) (detail : string)
                (headers : list (string * string))
| OtherError (msg : string).

(** Result of a computation that may raise. *)
Inductive exc (A : Type) : Type :=
| Ok (a : A)
| Raise (e : exn).
Arguments Ok {A} a.
Arguments Raise {A} e.

Definition bind {A B} (m : exc A) (k : A → exc B) : exc B :=
  match m with
  | Ok a => k a
  | Raise e => Raise e
  end.

(** [try: m except Exception: h] *)
Definition try_except {A} (m : exc A) (h : exn → A) : A :=
  match m with
  | Ok a => a
  | Raise e => h e
  end.

#[export] Instance exc_ret : MRet exc := fun _ a => Ok a.
#[export] Instance exc_bind : MBind exc := fun _ _ k m => bind m k.

(** [d.get(k)] and [d.get(k, dflt)] *)
Definition get (d : dict) (k : string) : value := default VNone (d !! k).
Definition get_or (d : dict) (k : string) (dflt : value) : value :=
  default dflt (d !! k).

(** [v == "s"] for a string literal [s]: only a [str] can be equal to it. *)
Definition eq_str (v : value) (s : string) : bool :=
  match v with
  | VStr t => bool_decide (t = s)
  | _ => false
  end.

(** [v in [s1, ..., sn]] for a list of string literals. *)
Definition in_strs (v : value) (l : list string) : bool :=
  existsb (eq_str v) l.


Fixpoint assoc {A} (tbl : list (string * A)) (s : string) : option A :=
  match tbl with
  | [] => None
  | (k, a) :: tbl' => if bool_decide (k = s) then Some a else assoc tbl' s
  end.

(** [tbl.get(key, dflt)] on a dict literal with string keys: hashing an
    unhashable key raises [TypeError]. *)
Definition table_get {A} (tbl : list (string * A)) (key : value) (dflt : A)
  : exc A :=
  match key with
  | VStr s => Ok (default dflt (assoc tbl s))
  | VList _ | VDict _ => Raise (TypeError "unhashable type")
  | _ => Ok dflt
  end.

(** truth value of an object, as tested by [if v:] *)
Definition truthy (v : value) : bool :=
  match v with
  | VNone => false
  | VBool b => b
  | VInt z => negb (z =? 0)%Z
  | VFloat f => negb (PrimFloat.eqb f 0%float)
  | VStr s => negb (bool_decide (s = ""))
  | VList l => negb (bool_decide (length l = 0))
  | VDict d => negb (bool_decide (size d = 0))
  end.

(** Comparisons and [min]/[max] on floats.  [min(a, b)] keeps [a] unless
    [b < a]; [max(a, b)] keeps [a] unless [b > a]. *)
Definition lt (a b : float) : bool := PrimFloat.ltb a b.
Definition gt (a b : float) : bool := PrimFloat.ltb b a.
Definition ge (a b : float) : bool := PrimFloat.leb b a.
Definition le (a b : float) : bool := PrimFloat.leb a b.
Definition min (a b : float) : float := if lt b a then b else a.
Definition max (a b : float) : float := if gt b a then b else a.
Definition is_nan (a : float) : bool := PrimFloat.is_nan a.

(** Specification-level predicates on binary64 values: [has_sign s a] says
    that [a] is a zero, a finite number or an infinity of sign [s];
    [sf_nonneg a] that [0 <= a]. *)
Definition has_sign (s : bool) (a : spec_float) : Prop :=
  match a with
  | S754_nan => False
  | S754_zero s' | S754_infinity s' | S754_finite s' _ _ => s' = s
  end.

Definition sf_nonneg (a : spec_float) : Prop :=
  SFleb (S754_zero false) a = true.

(** [sf_finite k a]: [a] is a zero or a finite number [m * 2^e] with
    [e <= k]; [finite_below k x] says so of the binary64 value [x]. *)
Definition sf_finite (k : Z) (a : spec_float) : bool :=
  match a with
  | S754_zero _ => true
  | S754_finite _ _ e => (e <=? k)%Z
  | _ => false
  end.

Definition finite_below (k : Z) (x : float) : bool :=
  sf_finite k (Prim2SF x).

End Py.

Import Py.

(** ** Risk Model Service ([services/risk_model.py]) *)

Module RiskModel.

Definition model_version : string := "1.0.0".

(** [features: Dict[str, float]] *)
Abbreviation features := (gmap string float).

Definition fget (fs : features) (k : string) : float :=
  default 0%float (fs !! k).

Definition urgency_weights : list (string * float) :=
  [("low", 0.0); ("medium", 0.1); ("high", 0.2); ("critical", 0.3)]%float.

Definition high_risk_issues : list string :=
  ["unauthorized_charges"; "fraud"; "discrimination"].

(** [_calculate_rule_based_risk] *)
Definition _calculate_rule_based_risk
    (fs : features) (sentiment classification : dict) : exc float :=
  let risk_score := 0.3%float in
  w ← table_get urgency_weights
        (get_or classification "urgency_level" (VStr "medium")) 0.1%float;
  let risk_score := (risk_score + w)%float in
  let risk_score :=
    if eq_str (get sentiment "sentiment") "negative"
    then (risk_score + 0.2)%float else risk_score in
  let risk_score :=
    if eq_str (get sentiment "emotion") "angry"
    then (risk_score + 0.15)%float else risk_score in
  let risk_score :=
    if in_strs (get classification "issue_category") high_risk_issues
    then (risk_score + 0.2)%float else risk_score in
  let risk_score :=
    if gt (fget fs "historical_complaints") 2%float
    then (risk_score + 0.1)%float else risk_score in
  let risk_score :=
    if gt (fget fs "amount_mentioned") 0%float
    then (risk_score + 0.1)%float else risk_score in
  Ok (Py.min risk_score 1.0%float).

(** The fields of the returned assessment that the properties below speak
    about ([factors] is explanatory text). *)
Record assessment := {
  risk_score : float;
  risk_category : string;
  confidence : float;
  assessment_version : string
}.

Definition _default_risk_assessment : assessment :=
  {| risk_score := 0.5; risk_category := "medium"; confidence := 0.5;
     assessment_version := model_version |}.

(** The category branch of [predict_risk]. *)
Definition categorize (risk_score : float) : string :=
  if ge risk_score 0.7%float then "high"
  else if ge risk_score 0.4%float then "medium"
  else "low".

(** [predict_risk], given the dictionary [extract_features] returned
    (empty when extraction failed). *)
Definition predict_risk
    (fs : features) (sentiment classification : dict) : assessment :=
  try_except
    (if bool_decide (fs = ∅) then Ok _default_risk_assessment
     else
       s ← _calculate_rule_based_risk fs sentiment classification;
       Ok {| risk_score := s; risk_category := categorize s;
             confidence := 0.85; assessment_version := model_version |})
    (fun _ => _default_risk_assessment).

(** The same rule and thresholds over exact decimals, for comparison with
    the binary64 computation above. *)
Definition exact_weight (v : value) : Q :=
  match v with
  | VStr u =>
      if bool_decide ("low" = u) then 0
      else if bool_decide ("medium" = u) then 1 # 10
      else if bool_decide ("high" = u) then 2 # 10
      else if bool_decide ("critical" = u) then 3 # 10
      else 1 # 10
  | _ => 1 # 10
  end.

Definition exact_rule_based_risk
    (fs : features) (sentiment classification : dict) : Q :=
  let s :=
    ((3 # 10) + exact_weight
                  (get_or classification "urgency_level" (VStr "medium")))%Q in
  let s := if eq_str (get sentiment "sentiment") "negative"
           then (s + (2 # 10))%Q else s in
  let s := if eq_str (get sentiment "emotion") "angry"
           then (s + (15 # 100))%Q else s in
  let s := if in_strs (get classification "issue_category") high_risk_issues
           then (s + (2 # 10))%Q else s in
  let s := if gt (fget fs "historical_complaints") 2%float
           then (s + (1 # 10))%Q else s in
  let s := if gt (fget fs "amount_mentioned") 0%float
           then (s + (1 # 10))%Q else s in
  if Qle_bool 1 s then 1%Q else s.

Definition exact_categorize (s : Q) : string :=
  if Qle_bool (7 # 10) s then "high"
  else if Qle_bool (4 # 10) s then "medium"
  else "low".

(** Statement helpers: the classification with its urgency level replaced,
    and an input on which the cap of the rule is reached. *)
Definition with_urgency (classification : dict) (u : string) : dict :=
  <["urgency_level" := VStr u]> classification.

Definition risk_at (fs : features) (sentiment classification : dict)
    (u : string) : exc float :=
  _calculate_rule_based_risk fs sentiment (with_urgency classification u).

Definition saturating_features : features :=
  <["historical_complaints" := 3%float]>
    (<["amount_mentioned" := 1%float]> ∅).
Definition saturating_sentiment : dict :=
  <["sentiment" := VStr "negative"]> (<["emotion" := VStr "angry"]> ∅).
Definition saturating_classification : dict :=
  <["issue_category" := VStr "fraud"]> ∅.

End RiskModel.

(** ** Builtins the scoring code calls on entity values *)

Module Builtins.

(** [str(v)] for a value that is not already a string, and [float(s)]
    ([None] when it raises [ValueError]) are taken as given. *)
Class t := {
  repr : value → string;
  float_of_str : string → option float
}.

(** [str(v)] *)
Definition str `{t} (v : value) : string :=
  match v with
  | VStr s => s
  | _ => repr v
  end.

(** [s.replace(c, "")] for a one-character [c] *)
Fixpoint remove_char (c : ascii) (s : string) : string :=
  match s with
  | EmptyString => EmptyString
  | String a s' =>
      if bool_decide (a = c) then remove_char c s'
      else String a (remove_char c s')
  end.


(** [float(str(v).replace("$", "").replace(",", ""))], [None] on
    [ValueError] *)
Definition parse_amount `{t} (v : value) : option float :=
  float_of_str (remove_char "," (remove_char "$" (str v))).

(** Conversion of an [int] operand of a float operation: round to nearest,
    [OverflowError] beyond the largest finite binary64. *)
Definition float_of_int (z : Z) : exc float :=
  let f := SF2Prim (binary_normalize prec emax z 0 false) in
  if PrimFloat.is_infinity f
  then Raise (OverflowError "int too large to convert to float")
  else Ok f.

(** The float operand of [v * m] for a float [m]. *)
Definition as_float (v : value) : exc float :=
  match v with
  | VFloat f => Ok f
  | VInt z => float_of_int z
  | VBool b => Ok (if b then 1 else 0)%float
  | _ => Raise (TypeError "unsupported operand type(s) for *")
  end.

(** [len(v)]; the length of a string is counted in bytes, which is its
    Python length for ASCII text. *)
Definition len (v : value) : exc nat :=
  match v with
  | VStr s => Ok (String.length s)
  | VList l => Ok (length l)
  | VDict d => Ok (size d)
  | _ => Raise (TypeError "object has no len()")
  end.

(** [n * 0.05]-style use of a length: lengths are below 2^63. *)
Definition float_of_len (n : nat) : float :=
  PrimFloat.of_uint63 (Uint63.of_Z (Z.of_nat n)).




End Builtins.

(** ** The complaint processing state ([models/schemas.py]) *)

Module Schemas.

Inductive message : Type :=
| HumanMessage (content : string)
| AIMessage (content : string).

Record processing_step := {
  step_agent : string;
  step_status : string;
  step_error : option string
}.

Record ComplaintState := {
  complaint_id : Z;
  tenant_id : string;
  user_id : string;
  narrative : string;
  entities : dict;
  sentiment : dict;
  classification : dict;
  similar_complaints : list dict;
  benchmarks : dict;
  risk_assessment : dict;
  solution : dict;
  feedback_analysis : dict;
  redacted_narrative : string;
  pii_detected : bool;
  metadata : dict;
  messages : list message;
  current_agent : string;
  processing_steps : list processing_step;
  errors : list string
}.

End Schemas.

(** ** Risk Checker Agent ([agents/risk_checker.py]) *)

Module RiskChecker.
Import Schemas.

Definition urgency_multipliers : list (string * float) :=
  [("low", 0.8); ("medium", 1.0); ("high", 1.3); ("critical", 1.6)]%float.

(** [_get_default_risk_assessment] *)
Definition _get_default_risk_assessment : dict :=
  <["risk_score" := VFloat 0.5]>
  (<["risk_category" := VStr "medium"]>
  (<["confidence" := VFloat 0.5]>
  (<["factors" :=
       VDict (<["primary_factors" :=
                  VList [VStr "Unable to assess risk - using default"]]> ∅)]>
  (<["model_version" := VStr "fallback"]> ∅)))).

(** The dictionary [risk_model.predict_risk] returns ([factors] aside). *)
Definition assessment_dict (a : RiskModel.assessment) : dict :=
  <["risk_score" := VFloat (RiskModel.risk_score a)]>
  (<["risk_category" := VStr (RiskModel.risk_category a)]>
  (<["confidence" := VFloat (RiskModel.confidence a)]>
  (<["model_version" := VStr (RiskModel.assessment_version a)]> ∅))).

(** [_predict_risk]: the model's assessment, copied and updated with three
    computed entries; the default assessment when computing them raises. *)
Definition _predict_risk
    (risk_assessment : RiskModel.assessment)
    (enhancements : exc (value * value * value)) : dict :=
  try_except
    ('(feature_importance, risk_drivers, historical_context) ← enhancements;
     Ok (<["prediction_method" := VStr "xgboost_ensemble"]>
         (<["feature_importance" := feature_importance]>
         (<["risk_drivers" := risk_drivers]>
         (<["historical_context" := historical_context]>
            (assessment_dict risk_assessment))))))
    (fun _ => _get_default_risk_assessment).

(** The [try] block of [_calculate_escalation_probability]. *)
Definition escalation_body `{Builtins.t}
    (risk_prediction : dict) (state : ComplaintState) : exc float :=
  let base_probability := get_or risk_prediction "risk_score" (VFloat 0.5) in
  let adjustments := 0.0%float in
  let sentiment := sentiment state in
  let adjustments :=
    if eq_str (get sentiment "emotion") "angry"
    then (adjustments + 0.15)%float
    else if eq_str (get sentiment "sentiment") "negative"
    then (adjustments + 0.10)%float
    else adjustments in
  let classification := classification state in
  let urgency_level := get_or classification "urgency_level" (VStr "medium") in
  m ← table_get urgency_multipliers urgency_level 1.0%float;
  b ← Builtins.as_float base_probability;
  let base_probability := (b * m)%float in
  let entities := entities state in
  let adjustments :=
    if truthy (get entities "amount") then
      match Builtins.parse_amount (get entities "amount") with
      | Some amount =>
          if gt amount 10000 then (adjustments + 0.20)%float
          else if gt amount 1000 then (adjustments + 0.10)%float
          else adjustments
      | None => adjustments
      end
    else adjustments in
  let regulatory_flags := get_or classification "regulatory_flags" (VList []) in
  adjustments ←
    (if truthy regulatory_flags then
       n ← Builtins.len regulatory_flags;
       Ok (adjustments + Builtins.float_of_len n * 0.05)%float
     else Ok adjustments);
  let final_probability := Py.min (base_probability + adjustments) 0.95 in
  Ok (Py.max final_probability 0.05).

(** [_calculate_escalation_probability] *)
Definition _calculate_escalation_probability `{Builtins.t}
    (risk_prediction : dict) (state : ComplaintState) : float :=
  try_except (escalation_body risk_prediction state) (fun _ => 0.5%float).

(** The formula as the specification words it: the risk score times the
    urgency multiplier, plus the adjustments for sentiment, amount tier and
    regulatory flags, clamped to [0.05, 0.95]. *)
Definition clamp (lo hi x : float) : float := Py.max (Py.min x hi) lo.

Definition sentiment_adjustment (state : ComplaintState) : float :=
  if eq_str (get (sentiment state) "emotion") "angry" then 0.15
  else if eq_str (get (sentiment state) "sentiment") "negative" then 0.10
  else 0.

Definition amount_adjustment `{Builtins.t} (state : ComplaintState) : float :=
  if truthy (get (entities state) "amount") then
    match Builtins.parse_amount (get (entities state) "amount") with
    | Some amount =>
        if gt amount 10000 then 0.20 else if gt amount 1000 then 0.10 else 0
    | None => 0
    end
  else 0.

Definition urgency_multiplier (state : ComplaintState) : float :=
  match get_or (classification state) "urgency_level" (VStr "medium") with
  | VStr u =>
      if bool_decide (u = "low") then 0.8
      else if bool_decide (u = "medium") then 1.0
      else if bool_decide (u = "high") then 1.3
      else if bool_decide (u = "critical") then 1.6
      else 1.0
  | _ => 1.0
  end.

Definition active_flags (state : ComplaintState) : nat :=
  let flags := get_or (classification state) "regulatory_flags" (VList []) in
  if truthy flags then
    match Builtins.len flags with
    | Ok n => n
    | Raise _ => 0
    end
  else 0.

Definition flags_adjustment (n_flags : nat) : float :=
  (Builtins.float_of_len n_flags * 0.05)%float.

Definition reported_risk_score (risk_prediction : dict) : exc float :=
  Builtins.as_float (get_or risk_prediction "risk_score" (VFloat 0.5)).

(** The amount adjustment of the specification, on the amount as a number:
    +0.20 above 10000, +0.10 above 1000. *)
Definition amount_tier (amount : float) : float :=
  if gt amount 10000 then 0.20 else if gt amount 1000 then 0.10 else 0.



Definition escalation_formula
    (risk_score multiplier sentiment_adj amount_adj flags_adj : float)
  : float :=
  clamp 0.05 0.95
    (risk_score * multiplier + (sentiment_adj + amount_adj + flags_adj))%float.






End RiskChecker.

(** ** Complaint Sorter Agent ([agents/complaint_sorter.py]) *)

Module ComplaintSorter.

Definition urgency_weights : list (string * float) :=
  [("low", 0.0); ("medium", 0.2); ("high", 0.4); ("critical", 0.6)]%float.

Definition high_priority_issues : list string :=
  ["fraud"; "unauthorized_charges"; "discrimination"].


(** The score as the specification words it. *)
Definition urgency_weight (classification : dict) : float :=
  match get_or classification "urgency_level" (VStr "medium") with
  | VStr u =>
      if bool_decide (u = "low") then 0.0
      else if bool_decide (u = "medium") then 0.2
      else if bool_decide (u = "high") then 0.4
      else if bool_decide (u = "critical") then 0.6
      else 0.2
  | _ => 0.2
  end.

Definition amount_bonus `{Builtins.t} (entities : dict) : float :=
  if truthy (get entities "amount") then
    match Builtins.parse_amount (get entities "amount") with
    | Some amount =>
        if gt amount 10000 then 0.3
        else if gt amount 1000 then 0.2
        else if gt amount 100 then 0.1
        else 0
    | None => 0
    end
  else 0.

Definition issue_bonus (classification : dict) : float :=
  if in_strs (get classification "issue_category") high_priority_issues
  then 0.2 else 0.

(** The amount-tier bonus of the specification, on the amount as a number:
    +0.3 above 10000, +0.2 above 1000, +0.1 above 100. *)
Definition amount_tier (amount : float) : float :=
  if gt amount 10000 then 0.3
  else if gt amount 1000 then 0.2
  else if gt amount 100 then 0.1
  else 0.


Definition priority_formula `{Builtins.t}
    (classification entities : dict) : float :=
  Py.min (0.3 + urgency_weight classification + amount_bonus entities
          + issue_bonus classification)%float 1.0.


End ComplaintSorter.

(** ** Strings: the [str] methods the login code uses *)

Module PyStr.

(** [c in s] for a one-character [c] *)
Fixpoint contains_char (c : ascii) (s : string) : bool :=
  match s with
  | EmptyString => false
  | String a s' => if bool_decide (a = c) then true else contains_char c s'
  end.

(** [s.count(c)] for a one-character [c] *)
Fixpoint count_char (c : ascii) (s : string) : nat :=
  match s with
  | EmptyString => 0
  | String a s' =>
      if bool_decide (a = c) then S (count_char c s') else count_char c s'
  end.

(** [s.split(c)] for a one-character separator: never empty. *)
Fixpoint split (c : ascii) (s : string) : list string :=
  match s with
  | EmptyString => [EmptyString]
  | String a s' =>
      if bool_decide (a = c) then EmptyString :: split c s'
      else match split c s' with
           | h :: t => String a h :: t
           | [] => [String a EmptyString]
           end
  end.

(** [l[0]] and [l[-1]], [IndexError] on the empty list *)
Definition first (l : list string) : exc string :=
  match l with
  | h :: _ => Ok h
  | [] => Raise (OtherError "IndexError")
  end.

Definition last (l : list string) : exc string :=
  match l with
  | [] => Raise (OtherError "IndexError")
  | _ :: _ => Ok (List.last l EmptyString)
  end.

End PyStr.

(** ** Persisted rows ([models/database.py]) and query helpers *)

Module Database.

Record User := {
  u_id : string;
  u_email : string;
  u_hashed_password : string;
  u_tenant_id : string;
  u_role : string;
  u_is_active : bool
}.

Record ComplaintRaw := {
  c_id : Z;
  c_tenant_id : string;
  c_user_id : option string;
  c_narrative : string;
  c_product : option string;
  c_issue : option string;
  c_company : option string;
  c_embedding : option string;
  c_created_at : Z
}.

Record ComplaintLabel := {
  l_complaint_id : Z;
  l_product : option string;
  l_issue : option string;
  l_company : option string
}.

Record RiskScore := {
  r_complaint_id : Z;
  r_risk : float;
  r_category : string;
  r_factors : dict;
  r_created_at : Z
}.

Record AuditLog := {
  a_tenant_id : string;
  a_user_id : option string;
  a_action : string;
  a_payload : list (string * string)
}.

(** The tables a session reads and writes. *)
Record t := {
  users : list User;
  complaints_raw : list ComplaintRaw;
  complaints_labels : list ComplaintLabel;
  risk_scores : list RiskScore;
  audit_logs : list AuditLog
}.

(** [result.scalar_one_or_none()] *)
Definition scalar_one_or_none {A} (rows : list A) : exc (option A) :=
  match rows with
  | [] => Ok None
  | [x] => Ok (Some x)
  | _ => Raise MultipleResultsFound
  end.

(** How a [relationship(...)] attribute of a loaded row gets its rows: with
    no [lazy] argument, by a SELECT when the attribute is first read. *)
Inductive loading : Type :=
| lazy_select
| eager.

Inductive session_class : Type :=
| Session
| AsyncSession.

(** Reading a relationship attribute of a row that a [select] returned.  On
    an [AsyncSession] the SELECT of a lazy load cannot be awaited from the
    attribute access and raises [MissingGreenlet]. *)
Definition read_relationship {A}
    (session : session_class) (how : loading) (rows : list A)
  : exc (list A) :=
  match session, how with
  | AsyncSession, lazy_select => Raise (OtherError "MissingGreenlet")
  | _, _ => Ok rows
  end.

(** [ComplaintRaw.labels] and [ComplaintRaw.risk_scores] are declared with
    [relationship("...", back_populates="complaint")]; the sessions are made
    by [async_sessionmaker(engine, class_=AsyncSession, ...)]. *)
Definition labels_loading : loading := lazy_select.
Definition risk_scores_loading : loading := lazy_select.
Definition AsyncSessionLocal : session_class := AsyncSession.

End Database.

(** ** Authentication ([routers/auth.py]) *)

Module Auth.
Import Database.

(** The password-hash check, the token encoder and the configured token
    lifetime are taken as given. *)
Class Env := {
  verify_hash : string → string → exc bool;
  jwt_encode : list (string * string) → Z → string;
  ACCESS_TOKEN_EXPIRE_MINUTES : Z
}.

Record Token := {
  access_token : string;
  token_type : string;
  expires_in : Z;
  token_user_id : string;
  token_tenant_id : string;
  token_role : string
}.

Record UserLogin := {
  login_email : string;
  login_password : string;
  login_tenant_id : string
}.

Record OAuth2PasswordRequestForm := {
  username : string;
  password : string
}.

(** [verify_password] *)
Definition verify_password `{Env} (plain_password hashed_password : string)
  : exc bool := verify_hash plain_password hashed_password.

(** [create_access_token] *)
Definition create_access_token `{Env}
    (data : list (string * string)) (expires_minutes : Z) : string :=
  jwt_encode data expires_minutes.

(** [get_user_by_email] *)
Definition get_user_by_email (db : Database.t) (email tenant_id : string)
  : exc (option User) :=
  scalar_one_or_none
    (filter (fun u => u_email u = email ∧ u_tenant_id u = tenant_id
                      ∧ u_is_active u = true) (users db)).

(** [authenticate_user] *)
Definition authenticate_user `{Env}
    (db : Database.t) (email password tenant_id : string)
  : exc (option User) :=
  user ← get_user_by_email db email tenant_id;
  match user with
  | None => Ok None
  | Some u =>
      ok ← verify_password password (u_hashed_password u);
      if negb ok then Ok None else Ok (Some u)
  end.

(** [except HTTPException: raise] followed by
    [except Exception: raise HTTPException(500, detail)] *)
Definition reraise_as_500 {A} (detail : string) (m : exc A) : exc A :=
  match m with
  | Ok a => Ok a
  | Raise (HTTPException c d h) => Raise (HTTPException c d h)
  | Raise _ => Raise (HTTPException 500 detail [])
  end.

(** The values of the enum [UserRole] ([models/schemas.py]). *)
Definition user_roles : list string :=
  ["consumer"; "analyst"; "admin"; "regulator"].

(** The fields of the [Token] both login endpoints build. *)
Definition issue_token `{Env} (user : User) : Token :=
  {| access_token :=
       create_access_token
         [("sub", u_id user); ("tenant_id", u_tenant_id user);
          ("role", u_role user)]
         ACCESS_TOKEN_EXPIRE_MINUTES;
     token_type := "bearer";
     expires_in := ACCESS_TOKEN_EXPIRE_MINUTES * 60;
     token_user_id := u_id user;
     token_tenant_id := u_tenant_id user;
     token_role := u_role user |}.

(** [return Token(...)]: the field [role] is declared as [UserRole], so a
    stored role outside the enum fails validation. *)
Definition token_response `{Env} (user : User) : exc Token :=
  if bool_decide (u_role user ∈ user_roles) then Ok (issue_token user)
  else Raise (OtherError "ValidationError").

(** The first half of [login_for_access_token]: the email and tenant id read
    off the combined username. *)
Definition split_username (username : string) : exc (string * string) :=
  if negb (PyStr.contains_char "@" username)
  then Raise (HTTPException 400 "Invalid username format" [])
  else
    let email_parts := PyStr.split "@" username in
    match email_parts with
    | [local; domain] =>
        d ← PyStr.first (PyStr.split "_" domain);
        let email := local +:+ "@" +:+ d in
        tenant_id ←
          (if PyStr.contains_char "_" domain
           then PyStr.last (PyStr.split "_" domain)
           else Ok "default");
        Ok (email, tenant_id)
    | _ => Raise (HTTPException 400 "Invalid username format" [])
    end.

(** [login_for_access_token] *)
Definition login_for_access_token `{Env}
    (form_data : OAuth2PasswordRequestForm) (db : Database.t) : exc Token :=
  reraise_as_500 "Login failed"
    ('(email, tenant_id) ← split_username (username form_data);
     user ← authenticate_user db email (password form_data) tenant_id;
     match user with
     | None =>
         Raise (HTTPException 401 "Incorrect email or password"
                  [("WWW-Authenticate", "Bearer")])
     | Some u => token_response u
     end).

(** [login_user] *)
Definition login_user `{Env} (login_data : UserLogin) (db : Database.t)
  : exc Token :=
  reraise_as_500 "Login failed"
    (user ← authenticate_user db (login_email login_data)
              (login_password login_data) (login_tenant_id login_data);
     match user with
     | None => Raise (HTTPException 401 "Incorrect credentials" [])
     | Some u => token_response u
     end).

(** Statement helpers: a user store with one account, and a checker that
    accepts exactly the stored string. *)
Definition plain_env : Env :=
  {| verify_hash := fun p h => Ok (bool_decide (p = h));
     jwt_encode := fun _ _ => "token";
     ACCESS_TOKEN_EXPIRE_MINUTES := 30 |}.

Definition alice : User :=
  {| u_id := "u-1"; u_email := "alice@example.com";
     u_hashed_password := "correct horse"; u_tenant_id := "acme";
     u_role := "admin"; u_is_active := true |}.

Definition bob : User :=
  {| u_id := "u-2"; u_email := "bob@example.com";
     u_hashed_password := "battery staple"; u_tenant_id := "acme";
     u_role := "consumer"; u_is_active := true |}.

Definition one_tenant_db : Database.t :=
  {| users := [alice; bob]; complaints_raw := []; complaints_labels := [];
     risk_scores := []; audit_logs := [] |}.

Definition empty_db : Database.t :=
  {| users := []; complaints_raw := []; complaints_labels := [];
     risk_scores := []; audit_logs := [] |}.

(** An account whose stored role is not a value of [UserRole]. *)
Definition mallory : User :=
  {| u_id := "u-7"; u_email := "mallory@example.com";
     u_hashed_password := "hunter2"; u_tenant_id := "acme";
     u_role := "superuser"; u_is_active := true |}.

Definition odd_role_db : Database.t :=
  {| users := [alice; mallory]; complaints_raw := [];
     complaints_labels := []; risk_scores := []; audit_logs := [] |}.

End Auth.

(** ** Admin endpoints ([routers/admin.py]) *)

Module Admin.
Import Database.

(** [require_admin_role] *)
Definition require_admin_role (current_user : User) : exc User :=
  if negb (bool_decide (u_role current_user ∈ ["admin"; "regulator"]))
  then Raise (HTTPException 403 "Admin access required" [])
  else Ok current_user.

(** [user.is_active = False] followed by [commit]: the row with that
    primary key is updated. *)
Definition deactivated (u : User) : User :=
  {| u_id := u_id u; u_email := u_email u;
     u_hashed_password := u_hashed_password u;
     u_tenant_id := u_tenant_id u; u_role := u_role u;
     u_is_active := false |}.

Definition set_inactive (uid : string) (us : list User) : list User :=
  (fun u => if bool_decide (u_id u = uid) then deactivated u else u) <$> us.

Definition with_users (db : Database.t) (us : list User) : Database.t :=
  {| users := us; complaints_raw := complaints_raw db;
     complaints_labels := complaints_labels db;
     risk_scores := risk_scores db; audit_logs := audit_logs db |}.

(** [db.add(audit_log)] followed by [commit] *)
Definition add_audit_log (db : Database.t) (a : AuditLog) : Database.t :=
  {| users := users db; complaints_raw := complaints_raw db;
     complaints_labels := complaints_labels db;
     risk_scores := risk_scores db; audit_logs := audit_logs db ++ [a] |}.

Record deactivation_response := {
  message : string;
  deactivated_user_id : string
}.

(** [deactivate_user]: the response or error, and the tables the session
    leaves behind. *)
Definition deactivate_user
    (user_id : string) (db : Database.t) (current_user : User)
  : exc deactivation_response * Database.t :=
  match
    scalar_one_or_none
      (filter (fun u => u_id u = user_id
                        ∧ u_tenant_id u = u_tenant_id current_user)
              (users db))
  with
  | Raise _ =>
      (Raise (HTTPException 500 "Failed to deactivate user" []), db)
  | Ok None => (Raise (HTTPException 404 "User not found" []), db)
  | Ok (Some user) =>
      if bool_decide (u_id user = u_id current_user)
      then (Raise (HTTPException 400 "Cannot deactivate your own account" []),
            db)
      else
        let db := with_users db (set_inactive (u_id user) (users db)) in
        let audit_log :=
          {| a_tenant_id := u_tenant_id current_user;
             a_user_id := Some (u_id current_user);
             a_action := "user_deactivated";
             a_payload := [("user_id", user_id); ("email", u_email user)] |} in
        let db := add_audit_log db audit_log in
        (Ok {| message := "User deactivated successfully";
               deactivated_user_id := user_id |}, db)
  end.

(** The endpoint with its [require_admin_role] dependency. *)
Definition delete_user_endpoint
    (user_id : string) (db : Database.t) (caller : User)
  : exc deactivation_response * Database.t :=
  match require_admin_role caller with
  | Raise e => (Raise e, db)
  | Ok current_user => deactivate_user user_id db current_user
  end.

End Admin.

(** ** Embedding Service ([services/embeddings.py]) *)

Module Embeddings.
Import Database.

(** The embedding call to the provider is taken as given. *)
Class Embedder := {
  create_embedding : string → exc (list float)
}.

(** One element of the list [find_similar_complaints] returns. *)
Record similar_row := {
  s_id : Z;
  s_narrative : string;
  s_product : option string;
  s_issue : option string;
  s_company : option string;
  s_created_at : Z;
  s_risk_score : option float;
  s_risk_category : option string;
  s_similarity_score : float
}.

Abbreviation joined := (ComplaintRaw * option RiskScore)%type.

(** [complaints_raw c LEFT JOIN risk_scores r ON c.id = r.complaint_id]:
    one row per matching risk score, one row with nulls when none matches. *)
Definition left_join (cs : list ComplaintRaw) (rs : list RiskScore)
  : list joined :=
  c ← cs;
  match filter (fun r => r_complaint_id r = c_id c) rs with
  | [] => [(c, None)]
  | ms => (fun r => (c, Some r)) <$> ms
  end.

(** [WHERE c.tenant_id = :tenant_id AND c.embedding IS NOT NULL] *)
Definition where_tenant_embedded (tenant_id : string) (rows : list joined)
  : list joined :=
  filter (fun row => c_tenant_id row.1 = tenant_id
                     ∧ c_embedding row.1 ≠ None) rows.

(** [ORDER BY c.created_at DESC], as a stable insertion sort: rows created
    at the same instant keep the order of the join. *)
Fixpoint insert_desc (x : joined) (l : list joined) : list joined :=
  match l with
  | [] => [x]
  | y :: l' =>
      if (c_created_at y.1 <=? c_created_at x.1)%Z then x :: y :: l'
      else y :: insert_desc x l'
  end.

Definition order_by_created_at_desc (rows : list joined) : list joined :=
  foldr insert_desc [] rows.

(** The [SELECT] of [find_similar_complaints]; a negative [LIMIT] is an
    error of the database. *)
Definition select_recent (db : Database.t) (tenant_id : string) (limit : Z)
  : exc (list joined) :=
  if (limit <? 0)%Z then Raise (OtherError "DatabaseError")
  else
    Ok (take (Z.to_nat limit)
          (order_by_created_at_desc
             (where_tenant_embedded tenant_id
                (left_join (complaints_raw db) (risk_scores db))))).

Definition to_row (row : joined) : similar_row :=
  {| s_id := c_id row.1;
     s_narrative := c_narrative row.1;
     s_product := c_product row.1;
     s_issue := c_issue row.1;
     s_company := c_company row.1;
     s_created_at := c_created_at row.1;
     s_risk_score := r_risk <$> row.2;
     s_risk_category := r_category <$> row.2;
     s_similarity_score := 0.85 |}.

(** [find_similar_complaints] *)
Definition find_similar_complaints `{Embedder}
    (db : Database.t) (query_text tenant_id : string) (limit : Z)
  : list similar_row :=
  try_except
    (query_embedding ← create_embedding query_text;
     rows ← select_recent db tenant_id limit;
     Ok (to_row <$> (rows : list joined)))
    (fun _ => []).

(** Statement helpers.  The most recent risk score of a complaint: the row
    of that complaint with the greatest creation time (the later row on a
    tie). *)
Definition latest_risk (db : Database.t) (complaint_id : Z)
  : option RiskScore :=
  foldl (fun best r =>
           if bool_decide (r_complaint_id r = complaint_id) then
             match best with
             | Some b =>
                 if (r_created_at b <=? r_created_at r)%Z then Some r
                 else Some b
             | None => Some r
             end
           else best)
        None (risk_scores db).

Definition joined_with_latest_risk (db : Database.t) (row : similar_row)
  : Prop :=
  s_risk_score row = r_risk <$> latest_risk db (s_id row).

Definition created_desc (a b : similar_row) : Prop :=
  (s_created_at b ≤ s_created_at a)%Z.

Definition joined_desc (a b : joined) : Prop :=
  (c_created_at b.1 ≤ c_created_at a.1)%Z.

(** A store with one embedded complaint that was scored twice. *)
Definition scored_twice_complaint : ComplaintRaw :=
  {| c_id := 1; c_tenant_id := "acme"; c_user_id := Some "u-1";
     c_narrative := "charged twice"; c_product := None;
     c_issue := None; c_company := None;
     c_embedding := Some "[0.1]"; c_created_at := 100 |}.

Definition scored_twice_db : Database.t :=
  {| users := [];
     complaints_raw := [scored_twice_complaint];
     complaints_labels := [];
     risk_scores :=
       [{| r_complaint_id := 1; r_risk := 0.2; r_category := "low";
           r_factors := ∅; r_created_at := 110 |};
        {| r_complaint_id := 1; r_risk := 0.9; r_category := "high";
           r_factors := ∅; r_created_at := 120 |}];
     audit_logs := [] |}.

Definition scored_twice_row (risk : float) (category : string)
  : similar_row :=
  {| s_id := 1; s_narrative := "charged twice"; s_product := None;
     s_issue := None; s_company := None; s_created_at := 100;
     s_risk_score := Some risk; s_risk_category := Some category;
     s_similarity_score := 0.85 |}.

Definition constant_embedder : Embedder :=
  {| create_embedding := fun _ => Ok [0.5%float] |}.

End Embeddings.

(** ** LLM Service ([services/llm.py]) *)

Module LLM.

(** The chat-completion call followed by [json.loads] of its content, per
    operation, is taken as given. *)
Class Provider := {
  complete_json : string → string → exc dict
}.

(** Each operation has the shape [try: ... return json.loads(...)] /
    [except Exception: return {}]. *)
Definition extract_entities `{Provider} (narrative : string) : dict :=
  try_except (complete_json "extract_entities" narrative) (fun _ => ∅).

Definition classify_complaint `{Provider} (narrative : string) : dict :=
  try_except (complete_json "classify_complaint" narrative) (fun _ => ∅).

Definition generate_solution `{Provider} (narrative : string) : dict :=
  try_except (complete_json "generate_solution" narrative) (fun _ => ∅).

Definition analyze_sentiment `{Provider} (text : string) : dict :=
  try_except (complete_json "analyze_sentiment" text) (fun _ => ∅).

(** Statement helper: a provider that is down. *)
Definition outage : Provider :=
  {| complete_json := fun _ _ => Raise (OtherError "APIConnectionError") |}.

End LLM.

(** ** Workflow Orchestrator ([agents/workflow.py]) *)

Module Workflow.
Import Schemas.

(** What the orchestrator calls and does not define: the session factory,
    the clock, the work of each agent's [try] block (the state it reaches
    and the exception it raised, if any), the progress message each agent
    formats after recording its step, and the one-line summary each node
    formats for the next agent. *)
Class Runtime := {
  acquire_session : exc unit;
  clock : float;
  agent_work : string → ComplaintState → ComplaintState * option exn;
  agent_announce : string → ComplaintState → exc string;
  handoff_summary : string → ComplaintState → exc string
}.

(** [str(e)] *)
Definition exn_message (e : exn) : string :=
  match e with
  | NameError n => "name '" +:+ n +:+ "' is not defined"
  | TypeError m | ValueError m | AttributeError m | OverflowError m
  | OtherError m => m
  | MultipleResultsFound =>
      "Multiple rows were found when one or none was required"
  | UnknownHashError => "hash could not be identified"
  | HTTPException _ d _ => d
  end.

Definition set_messages (st : ComplaintState) (ms : list message)
  : ComplaintState :=
  {| complaint_id := complaint_id st; tenant_id := tenant_id st;
     user_id := user_id st; narrative := narrative st;
     entities := entities st; sentiment := sentiment st;
     classification := classification st;
     similar_complaints := similar_complaints st;
     benchmarks := benchmarks st; risk_assessment := risk_assessment st;
     solution := solution st; feedback_analysis := feedback_analysis st;
     redacted_narrative := redacted_narrative st;
     pii_detected := pii_detected st; metadata := metadata st;
     messages := ms; current_agent := current_agent st;
     processing_steps := processing_steps st; errors := errors st |}.

Definition set_steps_errors (st : ComplaintState)
    (steps : list processing_step) (errs : list string) : ComplaintState :=
  {| complaint_id := complaint_id st; tenant_id := tenant_id st;
     user_id := user_id st; narrative := narrative st;
     entities := entities st; sentiment := sentiment st;
     classification := classification st;
     similar_complaints := similar_complaints st;
     benchmarks := benchmarks st; risk_assessment := risk_assessment st;
     solution := solution st; feedback_analysis := feedback_analysis st;
     redacted_narrative := redacted_narrative st;
     pii_detected := pii_detected st; metadata := metadata st;
     messages := messages st; current_agent := current_agent st;
     processing_steps := steps; errors := errs |}.

(** The [except Exception as e] block every agent's [process] ends with. *)
Definition record_failure (agent : string) (e : exn) (st : ComplaintState)
  : ComplaintState :=
  set_steps_errors st
    (processing_steps st ++
       [{| step_agent := agent; step_status := "failed";
           step_error := Some (exn_message e) |}])
    (errors st ++ [agent +:+ ": " +:+ exn_message e]).

(** [process] of an agent: the work, then the success step, then the
    progress message; any exception on the way is recorded as a failed
    step. *)
Definition agent_process `{Runtime} (agent : string) (st : ComplaintState)
  : ComplaintState :=
  let '(st, raised) := agent_work agent st in
  match raised with
  | Some e => record_failure agent e st
  | None =>
      let st :=
        set_steps_errors st
          (processing_steps st ++
             [{| step_agent := agent; step_status := "success";
                 step_error := None |}])
          (errors st) in
      match agent_announce agent st with
      | Ok content => set_messages st (messages st ++ [AIMessage content])
      | Raise e => record_failure agent e st
      end
  end.

(** The names bound at module level in [workflow.py] (its imports, its
    logger, its class and its instance), and the builtins it uses. *)
Definition module_globals : list string :=
  ["logging"; "asyncio"; "TypedDict"; "Annotated"; "List"; "AsyncSession";
   "StateGraph"; "END"; "BaseMessage"; "HumanMessage"; "AIMessage";
   "ChatOpenAI"; "get_db"; "settings"; "ComplaintState";
   "complaint_reader_agent"; "complaint_sorter_agent"; "stats_finder_agent";
   "risk_checker_agent"; "solution_helper_agent"; "feedback_logger_agent";
   "logger"; "ComplaintWorkflowGraph"; "complaint_workflow_graph"].

Definition builtins_used : list string :=
  ["len"; "bool"; "sum"; "isinstance"; "str"; "Exception"].

(** Evaluation of a global name inside a function of the module. *)
Definition load_global (name : string) : exc unit :=
  if bool_decide (name ∈ module_globals ++ builtins_used) then Ok ()
  else Raise (NameError name).

Record communication_entry := {
  timestamp : float;
  from_agent : string;
  to_agent : string;
  entry_message : string;
  entry_complaint_id : Z
}.

(** The state threaded through the graph together with the orchestrator's
    [agent_communication_log]. *)
Abbreviation run := (ComplaintState * list communication_entry)%type.

(** [_send_agent_message] *)
Definition _send_agent_message `{Runtime}
    (from_agent to_agent message : string) (r : run) : exc run :=
  _ ← load_global "time";
  let communication_entry :=
    {| timestamp := clock; from_agent := from_agent; to_agent := to_agent;
       entry_message := message; entry_complaint_id := complaint_id r.1 |} in
  let ai_message :=
    AIMessage (from_agent +:+ " -> " +:+ to_agent +:+ ": " +:+ message) in
  Ok (set_messages r.1 (messages r.1 ++ [ai_message]),
      r.2 ++ [communication_entry]).

(** [_receive_agent_message] *)
Definition _receive_agent_message (agent_name : string) (r : run) : run :=
  match
    List.last
      (Some <$> filter (fun e => to_agent e = agent_name
                                 ∧ entry_complaint_id e = complaint_id r.1)
                       r.2)
      None
  with
  | Some latest_message =>
      (set_messages r.1
         (messages r.1 ++
            [AIMessage (agent_name +:+ " received: "
                        +:+ entry_message latest_message)]),
       r.2)
  | None => r
  end.

(** The shape shared by the six [_..._with_communication] nodes. *)
Definition with_communication `{Runtime}
    (agent next : string) (receives : bool) (r : run) : exc run :=
  _ ← acquire_session;
  let r := if receives then _receive_agent_message agent r else r in
  let result_state := agent_process agent r.1 in
  message ← handoff_summary agent result_state;
  _send_agent_message agent next message (result_state, r.2).

Definition _complaint_reader_with_communication `{Runtime} : run → exc run :=
  with_communication "complaint_reader" "complaint_sorter" false.
Definition _complaint_sorter_with_communication `{Runtime} : run → exc run :=
  with_communication "complaint_sorter" "stats_finder" true.
Definition _stats_finder_with_communication `{Runtime} : run → exc run :=
  with_communication "stats_finder" "risk_checker" true.
Definition _risk_checker_with_communication `{Runtime} : run → exc run :=
  with_communication "risk_checker" "solution_helper" true.
Definition _solution_helper_with_communication `{Runtime} : run → exc run :=
  with_communication "solution_helper" "feedback_logger" true.
Definition _feedback_logger_with_communication `{Runtime} : run → exc run :=
  with_communication "feedback_logger" "workflow_complete" true.

(** [self.graph.ainvoke]: the six nodes along the edges of [_build_graph];
    an exception of a node leaves the graph. *)
Definition ainvoke `{Runtime} (r : run) : exc run :=
  r ← _complaint_reader_with_communication r;
  r ← _complaint_sorter_with_communication r;
  r ← _stats_finder_with_communication r;
  r ← _risk_checker_with_communication r;
  r ← _solution_helper_with_communication r;
  _feedback_logger_with_communication r.

Definition step_value (p : processing_step) : value :=
  VDict (<["agent" := VStr (step_agent p)]>
           (<["status" := VStr (step_status p)]>
              (match step_error p with
               | Some e => <["error" := VStr e]> ∅
               | None => ∅
               end))).

Definition message_value (m : message) : value :=
  match m with
  | HumanMessage c | AIMessage c => VStr c
  end.

(** The final state as the dictionary the caller receives. *)
Definition state_dict (st : ComplaintState) : dict :=
  <["complaint_id" := VInt (complaint_id st)]>
  (<["tenant_id" := VStr (tenant_id st)]>
  (<["user_id" := VStr (user_id st)]>
  (<["narrative" := VStr (narrative st)]>
  (<["entities" := VDict (entities st)]>
  (<["sentiment" := VDict (sentiment st)]>
  (<["classification" := VDict (classification st)]>
  (<["similar_complaints" := VList (VDict <$> similar_complaints st)]>
  (<["benchmarks" := VDict (benchmarks st)]>
  (<["risk_assessment" := VDict (risk_assessment st)]>
  (<["solution" := VDict (solution st)]>
  (<["feedback_analysis" := VDict (feedback_analysis st)]>
  (<["redacted_narrative" := VStr (redacted_narrative st)]>
  (<["pii_detected" := VBool (pii_detected st)]>
  (<["metadata" := VDict (metadata st)]>
  (<["messages" := VList (message_value <$> messages st)]>
  (<["current_agent" := VStr (current_agent st)]>
  (<["processing_steps" := VList (step_value <$> processing_steps st)]>
  (<["errors" := VList (VStr <$> errors st)]> ∅)))))))))))))))))).

(** The dictionary of the [except] branch of [process_complaint]. *)
Definition failure_dict (complaint_id : Z) (e : exn) : dict :=
  <["complaint_id" := VInt complaint_id]>
  (<["workflow_status" := VStr "failed"]>
  (<["error" := VStr (exn_message e)]>
  (<["results" := VDict ∅]>
  (<["processing_steps" := VList []]>
  (<["conversation" := VList []]> ∅))))).

Definition initial_state
    (complaint_id : Z) (narrative tenant_id user_id : string)
  : ComplaintState :=
  {| complaint_id := complaint_id; tenant_id := tenant_id;
     user_id := user_id; narrative := narrative;
     entities := ∅; sentiment := ∅; classification := ∅;
     similar_complaints := []; benchmarks := ∅; risk_assessment := ∅;
     solution := ∅; feedback_analysis := ∅; redacted_narrative := "";
     pii_detected := false; metadata := ∅;
     messages := [HumanMessage ("Process complaint: " +:+ narrative)];
     current_agent := ""; processing_steps := []; errors := [] |}.

Definition conversation_value (m : message) : value :=
  match m with
  | HumanMessage c =>
      VDict (<["role" := VStr "human"]> (<["content" := VStr c]> ∅))
  | AIMessage c =>
      VDict (<["role" := VStr "assistant"]> (<["content" := VStr c]> ∅))
  end.

(** The [result] dictionary [process_complaint] compiles after the graph ran
    through (the two entries that need step durations and the communication
    log are left out). *)
Definition result_summary (complaint_id : Z) (final_state : ComplaintState)
  : dict :=
  <["complaint_id" := VInt complaint_id]>
  (<["workflow_status" := VStr "completed"]>
  (<["agents_executed" :=
       VInt (Z.of_nat (length (processing_steps final_state)))]>
  (<["errors" := VList (VStr <$> errors final_state)]>
  (<["results" :=
       VDict
         (<["redacted_narrative" := VStr (redacted_narrative final_state)]>
         (<["entities" := VDict (entities final_state)]>
         (<["classification" := VDict (classification final_state)]>
         (<["risk_assessment" := VDict (risk_assessment final_state)]>
         (<["similar_complaints" :=
              VList (VDict <$> similar_complaints final_state)]>
         (<["benchmarks" := VDict (benchmarks final_state)]>
         (<["solution" := VDict (solution final_state)]>
         (<["feedback_analysis" := VDict (feedback_analysis final_state)]>
         (<["metadata" := VDict (metadata final_state)]> ∅)))))))))]>
  (<["processing_steps" :=
       VList (step_value <$> processing_steps final_state)]>
  (<["conversation" :=
       VList (conversation_value <$> messages final_state)]> ∅)))))).

(** [process_complaint]: the final state when the graph ran through (the
    compiled [result] is not what is returned), the failure dictionary
    otherwise. *)
Definition process_complaint `{Runtime}
    (complaint_id : Z) (narrative tenant_id user_id : string) : dict :=
  try_except
    (final ← ainvoke
               (initial_state complaint_id narrative tenant_id user_id, []);
     let final_state := final.1 in
     let result := result_summary complaint_id final_state in
     Ok (state_dict final_state))
    (fun e => failure_dict complaint_id e).

(** Statement helper: a runtime in which the session factory, every agent
    and every formatter succeed. *)
Definition healthy_runtime : Runtime :=
  {| acquire_session := Ok ();
     clock := 0;
     agent_work := fun _ st => (st, None);
     agent_announce := fun agent _ => Ok (agent +:+ " done");
     handoff_summary := fun agent _ => Ok (agent +:+ " finished") |}.

End Workflow.

(** ** Complaint endpoints ([routers/complaints.py]) *)

Module Complaints.
Import Database Schemas.

Record ComplaintAnalysis := {
  an_complaint_id : Z;
  an_entities : value;
  an_classification : value;
  an_risk_assessment : value;
  an_similar_complaints : value;
  an_benchmarks : value
}.

(** [v.get(k, dflt)] on a value: only a dict has [get]. *)
Definition vget (v : value) (k : string) (dflt : value) : exc value :=
  match v with
  | VDict d => Ok (get_or d k dflt)
  | _ => Raise (AttributeError "object has no attribute 'get'")
  end.

Definition opt_str (o : option string) : value :=
  match o with
  | Some s => VStr s
  | None => VNone
  end.

(** Validation of the fields of [ComplaintAnalysis] ([models/schemas.py]):
    [entities], [risk_assessment] and [benchmarks] are [Dict[str, Any]],
    [classification] is [Dict[str, str]] and [similar_complaints] is
    [List[Dict[str, Any]]]. *)
Definition is_dict (v : value) : bool :=
  match v with
  | VDict _ => true
  | _ => false
  end.

Definition is_str (v : value) : bool :=
  match v with
  | VStr _ => true
  | _ => false
  end.

Definition is_str_dict (v : value) : bool :=
  match v with
  | VDict d => forallb (fun kv => is_str kv.2) (map_to_list d)
  | _ => false
  end.

Definition is_dict_list (v : value) : bool :=
  match v with
  | VList l => forallb is_dict l
  | _ => false
  end.

(** [ComplaintAnalysis(...)] *)
Definition validate (a : ComplaintAnalysis) : exc ComplaintAnalysis :=
  if is_dict (an_entities a) && is_str_dict (an_classification a)
     && is_dict (an_risk_assessment a)
     && is_dict_list (an_similar_complaints a) && is_dict (an_benchmarks a)
  then Ok a
  else Raise (OtherError "ValidationError").

(** The [ComplaintAnalysis] built from the workflow result. *)
Definition analysis_of_workflow_result
    (complaint_id : Z) (workflow_result : dict) : exc ComplaintAnalysis :=
  let results := get_or workflow_result "results" (VDict ∅) in
  e ← vget results "entities" (VDict ∅);
  c ← vget results "classification" (VDict ∅);
  r ← vget results "risk_assessment" (VDict ∅);
  s ← vget results "similar_complaints" (VList []);
  b ← vget results "benchmarks" (VDict ∅);
  validate {| an_complaint_id := complaint_id; an_entities := e;
              an_classification := c; an_risk_assessment := r;
              an_similar_complaints := s; an_benchmarks := b |}.

(** The [ComplaintAnalysis] built from the latest stored label and risk
    ([x.f if x else None]). *)
Definition analysis_of_history
    (complaint_id : Z) (latest_label : option ComplaintLabel)
    (latest_risk : option RiskScore) : exc ComplaintAnalysis :=
  let label_field (f : ComplaintLabel → option string) : value :=
    match latest_label with
    | Some l => opt_str (f l)
    | None => VNone
    end in
  validate
    {| an_complaint_id := complaint_id;
       an_entities :=
         VDict (<["product" := label_field l_product]>
                  (<["issue" := label_field l_issue]>
                     (<["company" := label_field l_company]> ∅)));
       an_classification :=
         VDict (<["product_category" := label_field l_product]>
                  (<["issue_category" := label_field l_issue]> ∅));
       an_risk_assessment :=
         VDict (<["risk_score" :=
                    from_option (fun r => VFloat (r_risk r)) VNone latest_risk]>
                  (<["risk_category" :=
                       from_option (fun r => VStr (r_category r)) VNone
                         latest_risk]>
                     (<["factors" :=
                          from_option (fun r => VDict (r_factors r)) (VDict ∅)
                            latest_risk]> ∅)));
       an_similar_complaints := VList [];
       an_benchmarks := VDict ∅ |}.

(** The rows behind [complaint.labels] and [complaint.risk_scores]. *)
Definition labels_of (db : Database.t) (c : ComplaintRaw)
  : list ComplaintLabel :=
  filter (fun l => l_complaint_id l = c_id c) (complaints_labels db).
Definition risk_scores_of (db : Database.t) (c : ComplaintRaw)
  : list RiskScore :=
  filter (fun r => r_complaint_id r = c_id c) (risk_scores db).

(** The endpoint from [if not complaint.labels or not complaint.risk_scores]
    on, given what reading each of the two attributes yields; [or] reads
    [risk_scores] only when [labels] is not empty. *)
Definition analysis_of_complaint `{Workflow.Runtime}
    (complaint_id : Z) (current_user : User) (complaint : ComplaintRaw)
    (labels : exc (list ComplaintLabel)) (risk_scores : exc (list RiskScore))
  : exc ComplaintAnalysis :=
  ls ← labels;
  no_analysis ←
    (if bool_decide (ls = []) then Ok true
     else rs ← risk_scores; Ok (bool_decide (rs = [])));
  if no_analysis : bool then
    let workflow_result :=
      Workflow.process_complaint complaint_id
        (c_narrative complaint) (u_tenant_id current_user)
        (u_id current_user) in
    analysis_of_workflow_result complaint_id workflow_result
  else
    ls ← labels;
    let latest_label := List.last (Some <$> ls) None in
    rs ← risk_scores;
    let latest_risk := List.last (Some <$> rs) None in
    analysis_of_history complaint_id latest_label latest_risk.

(** [get_complaint_analysis]: the complaint is a row loaded through the
    request's [AsyncSession], and its two relationships are read from it. *)
Definition get_complaint_analysis `{Workflow.Runtime}
    (complaint_id : Z) (db : Database.t) (current_user : User)
  : exc ComplaintAnalysis :=
  Auth.reraise_as_500 "Failed to retrieve complaint analysis"
    (complaint ←
       scalar_one_or_none
         (filter (fun c => c_id c = complaint_id
                           ∧ c_tenant_id c = u_tenant_id current_user)
                 (complaints_raw db));
     match complaint with
     | None => Raise (HTTPException 404 "Complaint not found" [])
     | Some complaint =>
         analysis_of_complaint complaint_id current_user complaint
           (read_relationship AsyncSessionLocal labels_loading
              (labels_of db complaint))
           (read_relationship AsyncSessionLocal risk_scores_loading
              (risk_scores_of db complaint))
     end).

(** Statement helpers: the analysis with every field an empty placeholder,
    and a final state whose five fields are all populated. *)
Definition empty_analysis (complaint_id : Z) : ComplaintAnalysis :=
  {| an_complaint_id := complaint_id; an_entities := VDict ∅;
     an_classification := VDict ∅; an_risk_assessment := VDict ∅;
     an_similar_complaints := VList []; an_benchmarks := VDict ∅ |}.

Definition populated_state : ComplaintState :=
  {| complaint_id := 7; tenant_id := "acme"; user_id := "u-1";
     narrative := "charged twice";
     entities := <["product" := VStr "credit_card"]> ∅;
     sentiment := ∅;
     classification := <["issue_category" := VStr "billing_dispute"]> ∅;
     similar_complaints := [<["id" := VInt 3]> ∅];
     benchmarks := <["total" := VInt 12]> ∅;
     risk_assessment := <["risk_category" := VStr "medium"]> ∅;
     solution := ∅; feedback_analysis := ∅; redacted_narrative := "";
     pii_detected := false; metadata := ∅; messages := [];
     current_agent := "feedback_logger"; processing_steps := [];
     errors := [] |}.

Definition unanalysed_db : Database.t :=
  {| users := [Auth.alice];
     complaints_raw :=
       [{| c_id := 7; c_tenant_id := "acme"; c_user_id := Some "u-1";
           c_narrative := "charged twice"; c_product := None;
           c_issue := None; c_company := None; c_embedding := None;
           c_created_at := 100 |}];
     complaints_labels := []; risk_scores := []; audit_logs := [] |}.

End Complaints.

(** ** User administration ([routers/admin.py], [update_user_role]) *)

Module AdminUsers.
Import Database Admin.

Definition valid_roles : list string := ["consumer"; "analyst"; "admin"].

(** [user.role = new_role] followed by [commit]: the row with that primary
    key is updated. *)
Definition with_role (u : User) (role : string) : User :=
  {| u_id := u_id u; u_email := u_email u;
     u_hashed_password := u_hashed_password u;
     u_tenant_id := u_tenant_id u; u_role := role;
     u_is_active := u_is_active u |}.

Definition set_role (uid role : string) (us : list User) : list User :=
  (fun u => if bool_decide (u_id u = uid) then with_role u role else u) <$> us.

Record role_response := {
  role_message : string;
  role_user_id : string;
  new_role_set : string
}.

(** [update_user_role]: the response or error, and the tables the session
    leaves behind. *)
Definition update_user_role
    (user_id new_role : string) (db : Database.t) (current_user : User)
  : exc role_response * Database.t :=
  match
    scalar_one_or_none
      (filter (fun u => u_id u = user_id
                        ∧ u_tenant_id u = u_tenant_id current_user)
              (users db))
  with
  | Raise _ =>
      (Raise (HTTPException 500 "Failed to update user role" []), db)
  | Ok None => (Raise (HTTPException 404 "User not found" []), db)
  | Ok (Some user) =>
      if negb (bool_decide (new_role ∈ valid_roles))
      then (Raise (HTTPException 400
                     "Invalid role. Must be one of: ['consumer', 'analyst', 'admin']"
                     []), db)
      else
        let old_role := u_role user in
        let db := with_users db (set_role (u_id user) new_role (users db)) in
        let audit_log :=
          {| a_tenant_id := u_tenant_id current_user;
             a_user_id := Some (u_id current_user);
             a_action := "user_role_updated";
             a_payload := [("user_id", user_id); ("old_role", old_role);
                           ("new_role", new_role)] |} in
        let db := add_audit_log db audit_log in
        (Ok {| role_message := "User role updated successfully";
               role_user_id := user_id; new_role_set := new_role |}, db)
  end.

(** The endpoint with its [require_admin_role] dependency. *)
Definition update_user_role_endpoint
    (user_id new_role : string) (db : Database.t) (caller : User)
  : exc role_response * Database.t :=
  match require_admin_role caller with
  | Raise e => (Raise e, db)
  | Ok current_user => update_user_role user_id new_role db current_user
  end.

End AdminUsers.

(** ** The bearer-token dependency and registration ([routers/auth.py]) *)

Module AuthSession.
Import Database Auth.

(** The two claims [get_current_user] reads from a decoded token; a claim
    that is absent reads as [None]. *)
Record claims := {
  sub : option string;
  claimed_tenant_id : option string
}.

(** [jwt.decode] with the configured key and algorithm ([None] when it
    raises [JWTError]: bad signature, expired or malformed token),
    [get_password_hash] and the identifier [uuid.uuid4()] draws are taken as
    given. *)
Class Codec := {
  jwt_decode : string → option claims;
  get_password_hash : string → exc string;
  uuid4 : string
}.

Definition credentials_exception : exn :=
  HTTPException 401 "Could not validate credentials"
    [("WWW-Authenticate", "Bearer")].

(** [get_current_user] *)
Definition get_current_user `{Codec} (token : string) (db : Database.t)
  : exc User :=
  match jwt_decode token with
  | None => Raise credentials_exception
  | Some payload =>
      match sub payload, claimed_tenant_id payload with
      | Some user_id, Some tenant_id =>
          user ←
            scalar_one_or_none
              (filter (fun u => u_id u = user_id ∧ u_tenant_id u = tenant_id
                                ∧ u_is_active u = true) (users db));
          match user with
          | None => Raise credentials_exception
          | Some u => Ok u
          end
      | _, _ => Raise credentials_exception
      end
  end.

(** [UserRole] and its [.value] *)
Inductive UserRole : Type := CONSUMER | ANALYST | ADMIN | REGULATOR.

Definition role_value (r : UserRole) : string :=
  match r with
  | CONSUMER => "consumer"
  | ANALYST => "analyst"
  | ADMIN => "admin"
  | REGULATOR => "regulator"
  end.

Record UserCreate := {
  new_email : string;
  new_password : string;
  new_first_name : string;
  new_last_name : string;
  new_tenant_id : string;
  new_role : UserRole
}.

Record Tenant := {
  t_id : string;
  t_domain : string;
  t_is_active : bool
}.

(** The response of [register_user] ([created_at] aside). *)
Record UserSchema := {
  schema_id : string;
  schema_email : string;
  schema_first_name : string;
  schema_last_name : string;
  schema_tenant_id : string;
  schema_role : string;
  schema_is_active : bool
}.

(** [db.add(db_user)] followed by [commit]: the primary key and the
    [unique=True] index on [users.email] are enforced by the database. *)
Definition add_user (db : Database.t) (u : User) : exc Database.t :=
  if bool_decide (u_id u ∈ u_id <$> users db)
     || bool_decide (u_email u ∈ u_email <$> users db)
  then Raise (OtherError "IntegrityError")
  else Ok (Admin.with_users db (users db ++ [u])).

(** The [try] block of [register_user]. *)
Definition register_body `{Codec}
    (user_data : UserCreate) (tenants : list Tenant) (db : Database.t)
  : exc (UserSchema * Database.t) :=
  existing_user ←
    get_user_by_email db (new_email user_data) (new_tenant_id user_data);
  match existing_user with
  | Some _ => Raise (HTTPException 400 "Email already registered" [])
  | None =>
      tenant ←
        scalar_one_or_none
          (filter (fun t => t_id t = new_tenant_id user_data
                            ∧ t_is_active t = true) tenants);
      match tenant with
      | None => Raise (HTTPException 400 "Invalid tenant" [])
      | Some _ =>
          hashed_password ← get_password_hash (new_password user_data);
          let db_user :=
            {| u_id := uuid4; u_email := new_email user_data;
               u_hashed_password := hashed_password;
               u_tenant_id := new_tenant_id user_data;
               u_role := role_value (new_role user_data);
               u_is_active := true |} in
          db ← add_user db db_user;
          Ok ({| schema_id := u_id db_user;
                 schema_email := u_email db_user;
                 schema_first_name := new_first_name user_data;
                 schema_last_name := new_last_name user_data;
                 schema_tenant_id := u_tenant_id db_user;
                 schema_role := u_role db_user;
                 schema_is_active := u_is_active db_user |}, db)
      end
  end.

(** [register_user]: the response or error, and the tables the session
    leaves behind. *)
Definition register_user `{Codec}
    (user_data : UserCreate) (tenants : list Tenant) (db : Database.t)
  : exc UserSchema * Database.t :=
  match reraise_as_500 "Failed to register user"
          (register_body user_data tenants db) with
  | Ok (response, db') => (Ok response, db')
  | Raise e => (Raise e, db)
  end.

(** Statement helpers: a codec whose hash is the password itself (it
    matches [plain_env]) and that reads every token as Alice's; a tenant. *)
Definition plain_codec : Codec :=
  {| jwt_decode := fun _ =>
       Some {| sub := Some "u-1"; claimed_tenant_id := Some "acme" |};
     get_password_hash := fun p => Ok p;
     uuid4 := "u-3" |}.

Definition acme : Tenant :=
  {| t_id := "acme"; t_domain := "acme.example"; t_is_active := true |}.

Definition carol_request : UserCreate :=
  {| new_email := "carol@example.com"; new_password := "tr0ub4dor&3";
     new_first_name := "Carol"; new_last_name := "C";
     new_tenant_id := "acme"; new_role := ADMIN |}.

End AuthSession.

(** ** Text operations the agents use on narratives *)

Module PyText.

(** [str.lower], [str.split()] on whitespace and [len] of a [str] follow
    the Unicode tables and are taken as given. *)
Class Ops := {
  str_lower : string → string;
  str_split : string → list string;
  str_len : string → nat
}.

(** [s.startswith(p)] *)
Fixpoint starts_with (p s : string) : bool :=
  match p, s with
  | EmptyString, _ => true
  | String a p', String b s' => bool_decide (a = b) && starts_with p' s'
  | String _ _, EmptyString => false
  end.

(** [needle in haystack] on strings: a match at some position. *)
Fixpoint contains (needle haystack : string) : bool :=
  starts_with needle haystack ||
  match haystack with
  | EmptyString => false
  | String _ rest => contains needle rest
  end.

(** [v.lower()]: only a [str] has the method. *)
Definition lower_of `{Ops} (v : value) : exc string :=
  match v with
  | VStr s => Ok (str_lower s)
  | _ => Raise (AttributeError "object has no attribute 'lower'")
  end.

(** Statement helper: text operations for lower-case ASCII examples. *)
Definition ascii_ops : Ops :=
  {| str_lower := fun s => s;
     str_split := fun s => PyStr.split " " s;
     str_len := String.length |}.

End PyText.

(** ** Complaint Sorter Agent, classification helpers *)

Module SorterEnrichment.
Import PyText.

(** The [any(word in category.lower() for word in issue.lower().split())]
    test: the words are computed first; the category is lowered inside the
    loop, so it is not touched when there is no word. *)
Definition any_word_in `{Ops} (issue category : value) : exc bool :=
  issue_lower ← lower_of issue;
  match str_split issue_lower return exc bool with
  | [] => Ok false
  | words =>
      category_lower ← lower_of category;
      Ok (existsb (fun word => contains word category_lower) words)
  end.

(** [_calculate_confidence] *)
Definition _calculate_confidence `{Ops} (classification entities : dict)
  : exc float :=
  let confidence := 0.5%float in
  confidence ←
    (if truthy (get entities "product")
        && truthy (get classification "product_category")
     then
       product ← lower_of (get entities "product");
       category ← lower_of (get classification "product_category");
       Ok (if contains product category then (confidence + 0.2)%float
           else confidence)
     else Ok confidence);
  confidence ←
    (if truthy (get entities "issue")
        && truthy (get classification "issue_category")
     then
       found ← any_word_in (get entities "issue")
                 (get classification "issue_category");
       Ok (if found : bool then (confidence + 0.2)%float else confidence)
     else Ok confidence);
  let urgency_level :=
    get_or classification "urgency_level" (VStr "medium") in
  let confidence :=
    if in_strs urgency_level ["high"; "critical"]
    then (confidence + 0.1)%float else confidence in
  Ok (Py.min confidence 1.0).

Definition regulatory_keywords : list (string * list string) :=
  [("fair_credit_reporting",
    ["credit report"; "credit score"; "credit bureau"]);
   ("truth_in_lending", ["interest rate"; "apr"; "loan terms"]);
   ("fair_debt_collection",
    ["debt collector"; "collection agency"; "harassment"]);
   ("equal_credit_opportunity",
    ["discrimination"; "denied credit"; "unfair treatment"]);
   ("electronic_fund_transfer",
    ["atm"; "debit card"; "electronic transfer"])].

(** [_check_regulatory_flags]: the regulations, in the order of the table,
    one of whose keywords occurs in the lowered narrative. *)
Definition _check_regulatory_flags `{Ops} (narrative : string)
    (entities : dict) : list string :=
  let narrative_lower := str_lower narrative in
  fst <$>
    filter (fun entry =>
              existsb (fun keyword => contains keyword narrative_lower)
                      entry.2 = true)
           regulatory_keywords.

End SorterEnrichment.

(** ** Embedding Service, storing ([services/embeddings.py]) *)

Module EmbeddingStore.
Import Database Embeddings.

(** [json.dumps] of the embedding vector is taken as given. *)
Class Json := {
  dumps : list float → string
}.

(** What a name of [embeddings.py] that is called like a function can be
    bound to: a string, or a function from SQL text to a statement. *)
Inductive object : Type :=
| Str (s : string)
| Function (f : string → string).

(** [sqlalchemy.text], imported at module level under the name [text]. *)
Definition module_globals : list (string * object) :=
  [("text", Function (fun sql => sql))].

(** A name inside a method: its parameters and locals come before the
    module's globals. *)
Definition load_name (locals : list (string * object)) (name : string)
  : exc object :=
  match assoc locals name with
  | Some o => Ok o
  | None =>
      match assoc module_globals name with
      | Some o => Ok o
      | None => Raise (NameError name)
      end
  end.

(** [callee(arg)] *)
Definition call (callee : object) (arg : string) : exc string :=
  match callee with
  | Function f => Ok (f arg)
  | Str _ => Raise (TypeError "'str' object is not callable")
  end.

Definition with_embedding (c : ComplaintRaw) (e : string) : ComplaintRaw :=
  {| c_id := c_id c; c_tenant_id := c_tenant_id c; c_user_id := c_user_id c;
     c_narrative := c_narrative c; c_product := c_product c;
     c_issue := c_issue c; c_company := c_company c;
     c_embedding := Some e; c_created_at := c_created_at c |}.

(** [UPDATE complaints_raw SET embedding = :embedding WHERE id =
    :complaint_id] followed by [commit] *)
Definition update_embedding (db : Database.t) (complaint_id : Z)
    (embedding : string) : Database.t :=
  {| users := users db;
     complaints_raw :=
       (fun c => if bool_decide (c_id c = complaint_id)
                 then with_embedding c embedding else c)
       <$> complaints_raw db;
     complaints_labels := complaints_labels db;
     risk_scores := risk_scores db; audit_logs := audit_logs db |}.

(** [store_complaint_embedding(self, db, complaint_id, text)]: the third
    parameter is named [text], so inside the method that name is the
    string to embed. *)
Definition store_complaint_embedding `{Embedder} `{Json}
    (db : Database.t) (complaint_id : Z) (text : string)
  : exc unit * Database.t :=
  let locals := [("text", Str text)] in
  match
    (embedding ← create_embedding text;
     let embedding_json := dumps embedding in
     text_fn ← load_name locals "text";
     query ← call text_fn
               "UPDATE complaints_raw SET embedding = :embedding WHERE id = :complaint_id";
     Ok (update_embedding db complaint_id embedding_json))
  with
  | Ok db' => (Ok (), db')
  | Raise e => (Raise e, db)
  end.

(** The statement of [find_similar_complaints], whose parameters do not
    hide [text]. *)
Definition find_similar_statement : exc string :=
  text_fn ← load_name [] "text";
  call text_fn "SELECT ... FROM complaints_raw c LEFT JOIN risk_scores r".

Definition plain_json : Json := {| dumps := fun _ => "[0.5]" |}.

End EmbeddingStore.

(** ** Complaint Reader Agent ([agents/complaint_reader.py]) *)

Module ComplaintReader.
Import Schemas PyText.

(** The PII analyzer and anonymizer, and the formatter of the progress
    message, are taken as given. *)
Class Presidio := {
  recognizer_result : Type;
  analyze : string → exc (list recognizer_result);
  anonymize : string → list recognizer_result → exc string;
  format_message : dict → dict → nat → exc string
}.

Definition urgency_keywords : list string :=
  ["urgent"; "emergency"; "immediately"; "asap"; "critical";
   "fraud"; "unauthorized"; "stolen"; "hacked"; "dispute"].

(** [_detect_urgency_keywords] *)
Definition _detect_urgency_keywords `{Ops} (text : string) : list string :=
  let text_lower := str_lower text in
  filter (fun keyword => contains keyword text_lower = true) urgency_keywords.

(** [len([v for v in entities.values() if v])] *)
Definition entity_count (entities : dict) : nat :=
  length (filter (fun v => truthy v = true) (snd <$> map_to_list entities)).

(** [_calculate_complexity_score] *)
Definition _calculate_complexity_score `{Ops} (narrative : string)
    (entities : dict) : float :=
  let score := 0.0%float in
  let score :=
    if (500 <? str_len narrative)%nat then (score + 0.2)%float
    else if (200 <? str_len narrative)%nat then (score + 0.1)%float
    else score in
  let score :=
    if (3 <? entity_count entities)%nat then (score + 0.3)%float
    else if (1 <? entity_count entities)%nat then (score + 0.2)%float
    else score in
  let score :=
    if contains "and" (str_lower narrative)
       || contains "also" (str_lower narrative)
    then (score + 0.2)%float else score in
  let score :=
    if truthy (get entities "amount") then (score + 0.3)%float else score in
  Py.min score 1.0.

(** [_extract_metadata] *)
Definition _extract_metadata `{Ops} (narrative : string) (entities : dict)
  : dict :=
  <["narrative_length" := VInt (Z.of_nat (str_len narrative))]>
  (<["word_count" := VInt (Z.of_nat (length (str_split narrative)))]>
  (<["has_amount" := VBool (truthy (get entities "amount"))]>
  (<["has_date" := VBool (truthy (get entities "date"))]>
  (<["urgency_keywords" := VList (VStr <$> _detect_urgency_keywords narrative)]>
  (<["complexity_score" :=
       VFloat (_calculate_complexity_score narrative entities)]> ∅))))).

(** The assignments to the state after the five steps. *)
Definition with_reading (st : ComplaintState) (entities sentiment : dict)
    (redacted_narrative : string) (pii_detected : bool) (metadata : dict)
  : ComplaintState :=
  {| complaint_id := complaint_id st; tenant_id := tenant_id st;
     user_id := user_id st; narrative := narrative st;
     entities := entities; sentiment := sentiment;
     classification := classification st;
     similar_complaints := similar_complaints st;
     benchmarks := benchmarks st; risk_assessment := risk_assessment st;
     solution := solution st; feedback_analysis := feedback_analysis st;
     redacted_narrative := redacted_narrative;
     pii_detected := pii_detected; metadata := metadata;
     messages := messages st; current_agent := "complaint_reader";
     processing_steps := processing_steps st; errors := errors st |}.

(** [process]: the state it returns and the tables it leaves behind.  The
    state is written only after the embedding step; a failure before that
    leaves it as it was, apart from the recorded error and failed step. *)
Definition process `{Presidio} `{Ops} `{LLM.Provider}
    `{Embeddings.Embedder} `{EmbeddingStore.Json}
    (st : ComplaintState) (db : option Database.t)
  : ComplaintState * option Database.t :=
  match
    (pii_results ← analyze (narrative st);
     redacted_narrative ← anonymize (narrative st) pii_results;
     Ok (pii_results, redacted_narrative))
  with
  | Raise e => (Workflow.record_failure "complaint_reader" e st, db)
  | Ok (pii_results, redacted_narrative) =>
      let entities := LLM.extract_entities redacted_narrative in
      let sentiment := LLM.analyze_sentiment redacted_narrative in
      let '(stored, db) :=
        match db with
        | Some d =>
            let '(r, d') :=
              EmbeddingStore.store_complaint_embedding d (complaint_id st)
                redacted_narrative in
            (r, Some d')
        | None => (Ok (), None)
        end in
      match stored with
      | Raise e => (Workflow.record_failure "complaint_reader" e st, db)
      | Ok _ =>
          let metadata := _extract_metadata (narrative st) entities in
          let st :=
            with_reading st entities sentiment redacted_narrative
              (negb (bool_decide (length pii_results = 0))) metadata in
          let st :=
            Workflow.set_steps_errors st
              (processing_steps st ++
                 [{| step_agent := "complaint_reader";
                     step_status := "success"; step_error := None |}])
              (errors st) in
          match format_message entities sentiment (length pii_results) with
          | Ok content =>
              (Workflow.set_messages st (messages st ++ [AIMessage content]),
               db)
          | Raise e => (Workflow.record_failure "complaint_reader" e st, db)
          end
      end
  end.

(** Statement helper: an analyzer that finds nothing. *)
Definition no_pii : Presidio :=
  {| recognizer_result := unit;
     analyze := fun _ => Ok [];
     anonymize := fun text _ => Ok text;
     format_message := fun _ _ _ => Ok "Complaint processed successfully!" |}.

End ComplaintReader.

(** ** Comparisons of a dictionary value with a number *)

Module PyNum.

(** [z] compared with the number a binary64 value denotes, exactly, as
    Python compares an [int] with a [float]; [None] for a NaN. *)
Definition compare_int_float (z : Z) (c : float) : option comparison :=
  match Prim2SF c with
  | S754_nan => None
  | S754_infinity s => Some (if s then Gt else Lt)
  | S754_zero _ => Some (z ?= 0)%Z
  | S754_finite s m e =>
      let mz := if s then Z.neg m else Z.pos m in
      Some (match e with
            | Z.neg p => (z * 2 ^ Z.pos p ?= mz)%Z
            | _ => (z ?= mz * 2 ^ e)%Z
            end)
  end.

Definition int_ge_float (z : Z) (c : float) : bool :=
  match compare_int_float z c with
  | Some Gt | Some Eq => true
  | _ => false
  end.

Definition int_gt_float (z : Z) (c : float) : bool :=
  match compare_int_float z c with
  | Some Gt => true
  | _ => false
  end.

Definition int_eq_float (z : Z) (c : float) : bool :=
  match compare_int_float z c with
  | Some Eq => true
  | _ => false
  end.

(** [v >= c] and [v > c]: a [TypeError] unless [v] is a number. *)
Definition ge_float (v : value) (c : float) : exc bool :=
  match v with
  | VFloat f => Ok (ge f c)
  | VInt z => Ok (int_ge_float z c)
  | VBool b => Ok (int_ge_float (if b then 1 else 0) c)
  | _ => Raise (TypeError "'>=' not supported between instances")
  end.

Definition gt_float (v : value) (c : float) : exc bool :=
  match v with
  | VFloat f => Ok (gt f c)
  | VInt z => Ok (int_gt_float z c)
  | VBool b => Ok (int_gt_float (if b then 1 else 0) c)
  | _ => Raise (TypeError "'>' not supported between instances")
  end.

(** [v == c] never raises. *)
Definition eq_float (v : value) (c : float) : bool :=
  match v with
  | VFloat f => PrimFloat.eqb f c
  | VInt z => int_eq_float z c
  | VBool b => int_eq_float (if b then 1 else 0) c
  | _ => false
  end.

End PyNum.

(** ** Risk Model Service, feature scales ([extract_features]) *)

Module RiskFeatures.

Definition urgency_map : list (string * Z) :=
  [("low", 1); ("medium", 2); ("high", 3); ("critical", 4)]%Z.

Definition sentiment_map : list (string * Z) :=
  [("positive", 1); ("neutral", 2); ("negative", 3)]%Z.

(** [features['urgency_score']] and [features['sentiment_score']] as
    [extract_features] computes them. *)
Definition urgency_score (classification : dict) : exc Z :=
  table_get urgency_map
    (get_or classification "urgency_level" (VStr "medium")) 2%Z.

Definition sentiment_score (sentiment : dict) : exc Z :=
  table_get sentiment_map
    (get_or sentiment "sentiment" (VStr "neutral")) 2%Z.

End RiskFeatures.

(** ** Risk Checker Agent, drivers, mitigation and monitoring *)

Module RiskAdvice.
Import Schemas PyNum.

(** [_identify_risk_drivers] *)
Definition _identify_risk_drivers (features : dict) (risk_score : value)
  : exc (list string) :=
  let drivers := [] in
  high_urgency ← ge_float (get_or features "urgency_score" (VInt 0)) 3;
  let drivers :=
    if high_urgency : bool then drivers ++ ["High urgency level"] else drivers in
  negative ← ge_float (get_or features "sentiment_score" (VInt 0)) 0.7;
  let drivers :=
    if negative : bool then drivers ++ ["Negative sentiment"] else drivers in
  repeated ← gt_float (get_or features "historical_complaints" (VInt 0)) 2;
  let drivers :=
    if repeated : bool then drivers ++ ["Multiple previous complaints"]
    else drivers in
  let drivers :=
    if eq_float (get_or features "amount_mentioned" (VInt 0)) 1
    then drivers ++ ["Financial impact involved"] else drivers in
  Ok drivers.

Definition strategy_entry (strategy description priority timeline : string)
    (success_rate : float) : dict :=
  <["strategy" := VStr strategy]>
  (<["description" := VStr description]>
  (<["priority" := VStr priority]>
  (<["timeline" := VStr timeline]>
  (<["success_rate" := VFloat success_rate]> ∅)))).

Definition immediate_escalation : dict :=
  strategy_entry "immediate_escalation"
    "Escalate to senior customer service representative immediately"
    "critical" "Within 1 hour" 0.85.
Definition proactive_communication : dict :=
  strategy_entry "proactive_communication"
    "Initiate proactive communication with customer within 2 hours"
    "high" "Within 2 hours" 0.78.
Definition expedited_processing : dict :=
  strategy_entry "expedited_processing"
    "Process complaint through expedited resolution track"
    "medium" "Within 24 hours" 0.72.
Definition supervisor_review : dict :=
  strategy_entry "supervisor_review"
    "Have supervisor review case before final resolution"
    "medium" "Before resolution" 0.68.
Definition empathy_focused_response : dict :=
  strategy_entry "empathy_focused_response"
    "Use empathy-focused communication techniques"
    "high" "Immediate" 0.75.
Definition financial_review : dict :=
  strategy_entry "financial_review"
    "Conduct thorough financial impact review"
    "medium" "Within 4 hours" 0.70.
Definition standard_processing : dict :=
  strategy_entry "standard_processing"
    "Process through standard resolution workflow"
    "normal" "Within 48 hours" 0.65.

(** [_generate_mitigation_strategies] *)
Definition _generate_mitigation_strategies
    (risk_prediction : dict) (state : ComplaintState) : list dict :=
  try_except
    (let strategies := [] in
     let risk_score := get_or risk_prediction "risk_score" (VFloat 0.5) in
     high ← ge_float risk_score 0.7;
     let strategies :=
       if high : bool
       then strategies ++ [immediate_escalation; proactive_communication]
       else strategies in
     medium ← ge_float risk_score 0.4;
     let strategies :=
       if medium : bool then strategies ++ [expedited_processing; supervisor_review]
       else strategies in
     let strategies :=
       if eq_str (get (sentiment state) "emotion") "angry"
       then strategies ++ [empathy_focused_response] else strategies in
     let strategies :=
       if truthy (get (entities state) "amount")
       then strategies ++ [financial_review] else strategies in
     let strategies :=
       if bool_decide (strategies = []) then strategies ++ [standard_processing]
       else strategies in
     Ok strategies)
    (fun e => [<["strategy" := VStr "standard_processing"]>
                 (<["error" := VStr (Workflow.exn_message e)]> ∅)]).

Definition monitoring_config (check_frequency : string)
    (escalation_threshold : float) (auto_escalate : bool)
    (notification_channels : list string) (review_required : bool) : dict :=
  <["check_frequency" := VStr check_frequency]>
  (<["escalation_threshold" := VFloat escalation_threshold]>
  (<["auto_escalate" := VBool auto_escalate]>
  (<["notification_channels" := VList (VStr <$> notification_channels)]>
  (<["review_required" := VBool review_required]> ∅)))).

Definition monitoring_configs : list (string * dict) :=
  [("high", monitoring_config "hourly" 0.9 true ["email"; "sms"; "slack"] true);
   ("medium", monitoring_config "daily" 0.8 false ["email"] false);
   ("low", monitoring_config "weekly" 0.7 false [] false)].

(** [_setup_risk_monitoring]: no [try]; an unhashable category raises. *)
Definition _setup_risk_monitoring (risk_prediction : dict) : exc dict :=
  let risk_category :=
    get_or risk_prediction "risk_category" (VStr "medium") in
  table_get monitoring_configs risk_category
    (monitoring_config "daily" 0.8 false ["email"] false).

(** Statement helpers: the name a strategy is filed under, and the names
    the function can produce. *)
Definition strategy_name (strategy : dict) : string :=
  match get strategy "strategy" with
  | VStr name => name
  | _ => ""
  end.

Definition strategy_names (strategies : list dict) : list string :=
  strategy_name <$> strategies.

Definition known_strategies : list string :=
  ["immediate_escalation"; "proactive_communication"; "expedited_processing";
   "supervisor_review"; "empathy_focused_response"; "financial_review";
   "standard_processing"].

End RiskAdvice.

(** ** Complaint endpoints, reading ([routers/complaints.py]) *)

Module ComplaintQueries.
Import Database.

Record ComplaintResponse := {
  resp_id : Z;
  resp_tenant_id : string;
  resp_user_id : string;
  resp_narrative : string;
  resp_product : option string;
  resp_issue : option string;
  resp_company : option string;
  resp_created_at : Z
}.

(** [ComplaintResponse(...)]: [user_id] is a required [str], while the
    column [complaints_raw.user_id] is nullable; a row without user id
    fails validation. *)
Definition to_response (c : ComplaintRaw) : exc ComplaintResponse :=
  match c_user_id c with
  | Some user_id =>
      Ok {| resp_id := c_id c; resp_tenant_id := c_tenant_id c;
            resp_user_id := user_id; resp_narrative := c_narrative c;
            resp_product := c_product c; resp_issue := c_issue c;
            resp_company := c_company c; resp_created_at := c_created_at c |}
  | None => Raise (OtherError "ValidationError")
  end.

(** [[ComplaintResponse(...) for c in complaints]] *)
Fixpoint to_responses (complaints : list ComplaintRaw)
  : exc (list ComplaintResponse) :=
  match complaints with
  | [] => Ok []
  | c :: complaints' =>
      row ← to_response c;
      rows ← to_responses complaints';
      Ok (row :: rows)
  end.

(** [get_complaint] *)
Definition get_complaint
    (complaint_id : Z) (db : Database.t) (current_user : User)
  : exc ComplaintResponse :=
  Auth.reraise_as_500 "Failed to retrieve complaint"
    (complaint ←
       scalar_one_or_none
         (filter (fun c => c_id c = complaint_id
                           ∧ c_tenant_id c = u_tenant_id current_user)
                 (complaints_raw db));
     match complaint with
     | None => Raise (HTTPException 404 "Complaint not found" [])
     | Some c => to_response c
     end).

(** [ORDER BY created_at DESC], as a stable insertion sort. *)
Fixpoint insert_newest (x : ComplaintRaw) (l : list ComplaintRaw)
  : list ComplaintRaw :=
  match l with
  | [] => [x]
  | y :: l' =>
      if (c_created_at y <=? c_created_at x)%Z then x :: y :: l'
      else y :: insert_newest x l'
  end.

Definition newest_first (rows : list ComplaintRaw) : list ComplaintRaw :=
  foldr insert_newest [] rows.

(** [if value: query = query.where(column == value)] for an optional
    query parameter: [None] and the empty string do not filter. *)
Definition where_optional (column : ComplaintRaw → option string)
    (value : option string) (rows : list ComplaintRaw) : list ComplaintRaw :=
  match value with
  | Some v =>
      if bool_decide (v = "") then rows
      else filter (fun c => column c = Some v) rows
  | None => rows
  end.

(** The [SELECT] of [get_complaints]; a negative [OFFSET] or [LIMIT] is an
    error of the database. *)
Definition select_page (db : Database.t) (tenant_id : string)
    (skip limit : Z) (product issue : option string)
  : exc (list ComplaintRaw) :=
  if (skip <? 0)%Z || (limit <? 0)%Z then Raise (OtherError "DatabaseError")
  else
    let rows :=
      filter (fun c => c_tenant_id c = tenant_id) (complaints_raw db) in
    let rows := where_optional c_product product rows in
    let rows := where_optional c_issue issue rows in
    Ok (take (Z.to_nat limit) (drop (Z.to_nat skip) (newest_first rows))).

(** [get_complaints]: every exception becomes a 500. *)
Definition get_complaints
    (skip limit : Z) (product issue : option string)
    (db : Database.t) (current_user : User)
  : exc (list ComplaintResponse) :=
  match
    complaints ←
      select_page db (u_tenant_id current_user) skip limit product issue;
    to_responses complaints
  with
  | Ok rows => Ok rows
  | Raise _ => Raise (HTTPException 500 "Failed to retrieve complaints" [])
  end.

Definition newer (a b : ComplaintRaw) : Prop :=
  (c_created_at b ≤ c_created_at a)%Z.

(** Statement helpers: a complaint stored without user id, next to one with
    a user id. *)
Definition anonymous_complaint : ComplaintRaw :=
  {| c_id := 9; c_tenant_id := "acme"; c_user_id := None;
     c_narrative := "imported from the regulator's feed";
     c_product := Some "loan"; c_issue := None; c_company := None;
     c_embedding := None; c_created_at := 90 |}.

Definition signed_complaint : ComplaintRaw :=
  {| c_id := 7; c_tenant_id := "acme"; c_user_id := Some "u-1";
     c_narrative := "charged twice"; c_product := None;
     c_issue := None; c_company := None; c_embedding := None;
     c_created_at := 100 |}.

Definition anonymous_db : Database.t :=
  {| users := [Auth.alice];
     complaints_raw := [anonymous_complaint; signed_complaint];
     complaints_labels := []; risk_scores := []; audit_logs := [] |}.

Definition newer_first (a b : ComplaintResponse) : Prop :=
  (resp_created_at b ≤ resp_created_at a)%Z.

End ComplaintQueries.

(** ** User administration, creating users ([create_tenant_user]) *)

Module AdminCreate.
Import Database Admin AuthSession.

(** The [try] block of [create_tenant_user]. *)
Definition create_body `{Codec}
    (user_data : UserCreate) (db : Database.t) (current_user : User)
  : exc (UserSchema * Database.t) :=
  existing_user ←
    scalar_one_or_none
      (filter (fun u => u_email u = new_email user_data
                        ∧ u_tenant_id u = u_tenant_id current_user)
              (users db));
  match existing_user with
  | Some _ => Raise (HTTPException 400 "User already exists" [])
  | None =>
      hashed_password ← get_password_hash (new_password user_data);
      let db_user :=
        {| u_id := uuid4; u_email := new_email user_data;
           u_hashed_password := hashed_password;
           u_tenant_id := u_tenant_id current_user;
           u_role := role_value (new_role user_data);
           u_is_active := true |} in
      db ← add_user db db_user;
      let audit_log :=
        {| a_tenant_id := u_tenant_id current_user;
           a_user_id := Some (u_id current_user);
           a_action := "user_created";
           a_payload := [("created_user_id", u_id db_user);
                         ("email", new_email user_data);
                         ("role", role_value (new_role user_data))] |} in
      let db := add_audit_log db audit_log in
      Ok ({| schema_id := u_id db_user;
             schema_email := u_email db_user;
             schema_first_name := new_first_name user_data;
             schema_last_name := new_last_name user_data;
             schema_tenant_id := u_tenant_id db_user;
             schema_role := u_role db_user;
             schema_is_active := u_is_active db_user |}, db)
  end.

(** [create_tenant_user] with its [require_admin_role] dependency: the
    response or error, and the tables the session leaves behind. *)
Definition create_tenant_user `{Codec}
    (user_data : UserCreate) (db : Database.t) (caller : User)
  : exc UserSchema * Database.t :=
  match require_admin_role caller with
  | Raise e => (Raise e, db)
  | Ok current_user =>
      match Auth.reraise_as_500 "Failed to create user"
              (create_body user_data db current_user) with
      | Ok (response, db') => (Ok response, db')
      | Raise e => (Raise e, db)
      end
  end.

End AdminCreate.

(** ** User administration when a commit can fail *)

Module AdminSession.
Import Database Admin AuthSession.

(** Whether the database accepts the first, second, ... [commit] of a
    request, and the [refresh] of a row.  [AdminUsers.update_user_role] and
    [AdminCreate.create_tenant_user] above are these endpoints when the
    database accepts all of them. *)
Class Commits := {
  commit_accepted : nat → bool;
  refresh_accepted : bool
}.

(** [except HTTPException: raise] / [except Exception: raise
    HTTPException(500, detail)], on the exception. *)
Definition as_500 (detail : string) (e : exn) : exn :=
  match e with
  | HTTPException c d h => HTTPException c d h
  | _ => HTTPException 500 detail []
  end.

(** [update_user_role]: the role is committed first, the audit row is added
    and committed afterwards in the same [try]; what a failed commit had
    pending is rolled back when the session is closed. *)
Definition update_user_role `{Commits}
    (user_id new_role : string) (db : Database.t) (current_user : User)
  : exc AdminUsers.role_response * Database.t :=
  match
    scalar_one_or_none
      (filter (fun u => u_id u = user_id
                        ∧ u_tenant_id u = u_tenant_id current_user)
              (users db))
  with
  | Raise _ =>
      (Raise (HTTPException 500 "Failed to update user role" []), db)
  | Ok None => (Raise (HTTPException 404 "User not found" []), db)
  | Ok (Some user) =>
      if negb (bool_decide (new_role ∈ AdminUsers.valid_roles))
      then (Raise (HTTPException 400
                     "Invalid role. Must be one of: ['consumer', 'analyst', 'admin']"
                     []), db)
      else
        let old_role := u_role user in
        if negb (commit_accepted 0)
        then (Raise (HTTPException 500 "Failed to update user role" []), db)
        else
          let db :=
            with_users db (AdminUsers.set_role (u_id user) new_role (users db)) in
          let audit_log :=
            {| a_tenant_id := u_tenant_id current_user;
               a_user_id := Some (u_id current_user);
               a_action := "user_role_updated";
               a_payload := [("user_id", user_id); ("old_role", old_role);
                             ("new_role", new_role)] |} in
          if negb (commit_accepted 1)
          then (Raise (HTTPException 500 "Failed to update user role" []), db)
          else
            (Ok {| AdminUsers.role_message := "User role updated successfully";
                   AdminUsers.role_user_id := user_id;
                   AdminUsers.new_role_set := new_role |},
             add_audit_log db audit_log)
  end.

Definition update_user_role_endpoint `{Commits}
    (user_id new_role : string) (db : Database.t) (caller : User)
  : exc AdminUsers.role_response * Database.t :=
  match require_admin_role caller with
  | Raise e => (Raise e, db)
  | Ok current_user => update_user_role user_id new_role db current_user
  end.

(** [create_tenant_user]: the user row is committed first and refreshed,
    the audit row is added and committed afterwards in the same [try]. *)
Definition create_tenant_user `{Codec} `{Commits}
    (user_data : UserCreate) (db : Database.t) (caller : User)
  : exc UserSchema * Database.t :=
  match require_admin_role caller with
  | Raise e => (Raise e, db)
  | Ok current_user =>
      match
        scalar_one_or_none
          (filter (fun u => u_email u = new_email user_data
                            ∧ u_tenant_id u = u_tenant_id current_user)
                  (users db))
      with
      | Raise e => (Raise (as_500 "Failed to create user" e), db)
      | Ok (Some _) => (Raise (HTTPException 400 "User already exists" []), db)
      | Ok None =>
          match get_password_hash (new_password user_data) with
          | Raise e => (Raise (as_500 "Failed to create user" e), db)
          | Ok hashed_password =>
              let db_user :=
                {| u_id := uuid4; u_email := new_email user_data;
                   u_hashed_password := hashed_password;
                   u_tenant_id := u_tenant_id current_user;
                   u_role := role_value (new_role user_data);
                   u_is_active := true |} in
              match
                (if commit_accepted 0 then add_user db db_user
                 else Raise (OtherError "OperationalError"))
              with
              | Raise e => (Raise (as_500 "Failed to create user" e), db)
              | Ok db =>
                  let audit_log :=
                    {| a_tenant_id := u_tenant_id current_user;
                       a_user_id := Some (u_id current_user);
                       a_action := "user_created";
                       a_payload :=
                         [("created_user_id", u_id db_user);
                          ("email", new_email user_data);
                          ("role", role_value (new_role user_data))] |} in
                  if negb refresh_accepted || negb (commit_accepted 1)
                  then (Raise (HTTPException 500 "Failed to create user" []),
                        db)
                  else
                    (Ok {| schema_id := u_id db_user;
                           schema_email := u_email db_user;
                           schema_first_name := new_first_name user_data;
                           schema_last_name := new_last_name user_data;
                           schema_tenant_id := u_tenant_id db_user;
                           schema_role := u_role db_user;
                           schema_is_active := u_is_active db_user |},
                     add_audit_log db audit_log)
              end
          end
      end
  end.

Definition second_commit_fails : Commits :=
  {| commit_accepted := fun n => bool_decide (n ≠ 1);
     refresh_accepted := true |}.

End AdminSession.

(** ** Statement helpers: a store with an analysed complaint *)

Module Examples.
Import Database.

(** Complaint 1 of tenant acme, labelled twice and scored twice. *)
Definition analysed_db : Database.t :=
  {| users := [Auth.alice];
     complaints_raw := complaints_raw Embeddings.scored_twice_db;
     complaints_labels :=
       [{| l_complaint_id := 1; l_product := Some "loan";
           l_issue := Some "billing_dispute"; l_company := None |};
        {| l_complaint_id := 1; l_product := Some "credit_card";
           l_issue := Some "unauthorized_charges"; l_company := None |}];
     risk_scores := risk_scores Embeddings.scored_twice_db;
     audit_logs := [] |}.

End Examples.

(** ** Risk Checker Agent, the score breakdown of the explanation *)

Module RiskBreakdown.

Definition urgency_adjustments : list (string * float) :=
  [("low", -0.1); ("medium", 0.0); ("high", 0.15); ("critical", 0.25)]%float.

(** [_calculate_urgency_adjustment] *)
Definition _calculate_urgency_adjustment (classification : dict) : exc float :=
  table_get urgency_adjustments
    (get_or classification "urgency_level" (VStr "medium")) 0.0%float.

(** [_calculate_sentiment_adjustment] *)
Definition _calculate_sentiment_adjustment (sentiment : dict) : float :=
  if eq_str (get sentiment "emotion") "angry" then 0.15
  else if eq_str (get sentiment "sentiment") "negative" then 0.10
  else if eq_str (get sentiment "sentiment") "positive" then (-0.05)
  else 0.0.

(** What [_calculate_rule_based_risk] adds to the base risk for urgency,
    and for sentiment and emotion. *)
Definition rule_urgency_weight (classification : dict) : exc float :=
  table_get RiskModel.urgency_weights
    (get_or classification "urgency_level" (VStr "medium")) 0.1%float.

Definition rule_sentiment_increment (sentiment : dict) : float :=
  let added := 0.0%float in
  let added :=
    if eq_str (get sentiment "sentiment") "negative"
    then (added + 0.2)%float else added in
  if eq_str (get sentiment "emotion") "angry"
  then (added + 0.15)%float else added.

End RiskBreakdown.

(** * Properties *)

(** ** Facts about binary64 comparison, from the specification of the
     primitive operations *)

Module FloatFacts.

Lemma SFcompare_antisym (a b : spec_float) :
  SFcompare b a = CompOpp <$> SFcompare a b.
Proof.
  destruct a as [sa|sa| |sa ma ea], b as [sb|sb| |sb mb eb]; simpl;
    try reflexivity;
    try (destruct sa; reflexivity);
    try (destruct sb; reflexivity);
    try (destruct sa, sb; reflexivity).
  destruct sa, sb; simpl; try reflexivity; f_equal;
    rewrite (Z.compare_antisym ea eb);
    destruct (ea ?= eb)%Z eqn:He; simpl; try reflexivity.
  - f_equal. symmetry. apply (Pos.compare_cont_antisym ma mb Eq).
  - symmetry. apply (Pos.compare_cont_antisym ma mb Eq).
Qed.

Lemma SFcompare_total (a b : spec_float) :
  a ≠ S754_nan → b ≠ S754_nan → is_Some (SFcompare a b).
Proof.
  destruct a as [sa|sa| |sa ma ea], b as [sb|sb| |sb mb eb]; simpl;
    intros; try congruence; eauto.
Qed.

Lemma not_nan_spec (x : float) :
  PrimFloat.is_nan x = false ↔ Prim2SF x ≠ S754_nan.
Proof.
  unfold PrimFloat.is_nan. rewrite FloatAxioms.eqb_spec. split.
  - intros H Hn. rewrite Hn in H. discriminate.
  - intros Hn. unfold SFeqb.
    destruct (SFcompare_total _ _ Hn Hn) as [c Hc].
    pose proof (SFcompare_antisym (Prim2SF x) (Prim2SF x)) as Ha.
    rewrite Hc in Ha. simpl in Ha. rewrite Hc.
    destruct c; simpl in *; congruence.
Qed.

Lemma ltb_negb_leb (x y : float) :
  PrimFloat.is_nan x = false → PrimFloat.is_nan y = false →
  PrimFloat.ltb x y = negb (PrimFloat.leb y x).
Proof.
  intros Hx%not_nan_spec Hy%not_nan_spec.
  rewrite ltb_spec, leb_spec. unfold SFltb, SFleb.
  rewrite (SFcompare_antisym (Prim2SF x) (Prim2SF y)).
  destruct (SFcompare_total _ _ Hx Hy) as [c ->]. by destruct c.
Qed.

Lemma ltb_leb (x y : float) :
  PrimFloat.ltb x y = true → PrimFloat.leb x y = true.
Proof.
  rewrite ltb_spec, leb_spec. unfold SFltb, SFleb.
  by destruct (SFcompare _ _) as [[]|].
Qed.

Lemma leb_not_nan_r (x y : float) :
  PrimFloat.leb x y = true → PrimFloat.is_nan y = false.
Proof.
  rewrite leb_spec. intros H. apply not_nan_spec. intros Hn.
  rewrite Hn in H. unfold SFleb in H.
  by destruct (Prim2SF x).
Qed.

Section Rounding.
Variables prec emax : Z.

Lemma shr_1_nonneg mrs : (0 ≤ shr_m mrs)%Z → (0 ≤ shr_m (shr_1 mrs))%Z.
Proof.
  destruct mrs as [m r s]; simpl.
  destruct m as [ |[p|p| ]|[p|p| ]]; simpl; lia.
Qed.

Lemma iter_pos_invariant {A} (P : A → Prop) (f : A → A) :
  (∀ x, P x → P (f x)) → ∀ n x, P x → P (SpecFloat.iter_pos f n x).
Proof.
  intros Hf. induction n as [n IH|n IH| ]; simpl; auto.
Qed.

Lemma shr_nonneg mrs e n :
  (0 ≤ shr_m mrs)%Z → (0 ≤ shr_m (fst (shr mrs e n)))%Z.
Proof.
  intros H. destruct n as [ |p|p]; simpl; auto.
  by apply (iter_pos_invariant (fun r => (0 ≤ shr_m r)%Z)), H;
    apply shr_1_nonneg.
Qed.

Lemma shr_fexp_nonneg m e l :
  (0 ≤ m)%Z → (0 ≤ shr_m (fst (shr_fexp prec emax m e l)))%Z.
Proof.
  intros H. unfold shr_fexp. apply shr_nonneg.
  by destruct l as [ |[]].
Qed.

Lemma round_nearest_even_nonneg m l :
  (0 ≤ m)%Z → (0 ≤ round_nearest_even m l)%Z.
Proof.
  intros H. destruct l as [ |[]]; simpl; try lia.
  destruct (Z.even m); lia.
Qed.

(** Rounding a non-negative mantissa yields a zero, a finite number or an
    infinity of the requested sign, never a NaN. *)
Lemma binary_round_aux_sign s m e l :
  (0 ≤ m)%Z → has_sign s (binary_round_aux prec emax s m e l).
Proof.
  intros H. unfold binary_round_aux.
  pose proof (shr_fexp_nonneg m e l H) as H1.
  destruct (shr_fexp prec emax m e l) as [mrs' e']. simpl in H1.
  pose proof (shr_fexp_nonneg _ e' loc_Exact
                (round_nearest_even_nonneg _ (loc_of_shr_record mrs') H1))
    as H2.
  destruct (shr_fexp prec emax _ e' loc_Exact) as [mrs'' e'']. simpl in H2.
  destruct (shr_m mrs'') as [ |p|p]; simpl; try done; try lia.
  by destruct (e'' <=? emax - prec)%Z.
Qed.

Lemma binary_round_sign s m e :
  has_sign s (binary_round prec emax s m e).
Proof.
  unfold binary_round. destruct (shl_align _ _ _) as [mz ez].
  by apply binary_round_aux_sign.
Qed.

Lemma binary_normalize_nonneg z e :
  (0 ≤ z)%Z → has_sign false (binary_normalize prec emax z e false).
Proof.
  intros H. destruct z as [ |p|p]; simpl; try done; try lia.
  apply binary_round_sign.
Qed.

Lemma has_sign_nonneg a : has_sign false a → sf_nonneg a.
Proof.
  unfold sf_nonneg.
  destruct a as [s|s| |s m e]; simpl; try done; by intros ->.
Qed.

Lemma SFmul_nonneg a m e :
  sf_nonneg a → sf_nonneg (SFmul prec emax a (S754_finite false m e)).
Proof.
  unfold sf_nonneg.
  destruct a as [s|[]| |[] ma ea]; simpl; try done.
  intros _. apply has_sign_nonneg, binary_round_aux_sign. lia.
Qed.

Lemma SFadd_nonneg a b :
  sf_nonneg a → sf_nonneg b → sf_nonneg (SFadd prec emax a b).
Proof.
  unfold sf_nonneg.
  destruct a as [[]|[]| |[] ma ea], b as [[]|[]| |[] mb eb]; simpl; try done.
  intros _ _. apply has_sign_nonneg, binary_round_sign.
Qed.

End Rounding.

Lemma nonneg_spec (x : float) :
  le 0 x = true ↔ sf_nonneg (Prim2SF x).
Proof. unfold le, sf_nonneg. by rewrite leb_spec. Qed.

Lemma nonneg_add (x y : float) :
  le 0 x = true → le 0 y = true → le 0 (x + y) = true.
Proof. rewrite !nonneg_spec, add_spec. apply SFadd_nonneg. Qed.

Lemma nonneg_mul_finite (x c : float) m e :
  Prim2SF c = S754_finite false m e →
  le 0 x = true → le 0 (x * c) = true.
Proof.
  intros Hc. rewrite !nonneg_spec, mul_spec, Hc. apply SFmul_nonneg.
Qed.

Lemma nonneg_of_uint63 (n : int) : le 0 (of_uint63 n) = true.
Proof.
  rewrite nonneg_spec, of_uint63_spec.
  apply has_sign_nonneg, binary_normalize_nonneg.
  apply Uint63.to_Z_bounded.
Qed.

Lemma nonneg_not_nan (x : float) : le 0 x = true → Py.is_nan x = false.
Proof. apply leb_not_nan_r. Qed.

(** [max(min(x, hi), lo)] with [lo <= hi] lands in [lo, hi] for every [x]
    that is a number. *)
Lemma clamp_in_range (lo hi x : float) :
  le lo hi = true → lt hi lo = false →
  Py.is_nan x = false →
  le lo (Py.max (Py.min x hi) lo) = true ∧
  le (Py.max (Py.min x hi) lo) hi = true.
Proof.
  intros Hle Hlt Hx.
  assert (Hlo : Py.is_nan lo = false).
  { apply not_nan_spec. intros Hn. unfold le in Hle.
    rewrite leb_spec, Hn in Hle. discriminate. }
  assert (Hhi : Py.is_nan hi = false) by (by eapply leb_not_nan_r).
  unfold Py.max, Py.min, gt, lt, le in *.
  destruct (PrimFloat.ltb hi x) eqn:H1.
  - rewrite Hlt. split; [done|].
    rewrite (ltb_negb_leb hi x) in H1 by done.
    pose proof (ltb_negb_leb hi hi Hhi Hhi) as Hr.
    destruct (PrimFloat.leb hi hi) eqn:E; [done|].
    simpl in Hr. apply ltb_leb in Hr. congruence.
  - destruct (PrimFloat.ltb x lo) eqn:H2.
    + split; [|done].
      pose proof (ltb_negb_leb lo lo Hlo Hlo) as Hr.
      destruct (PrimFloat.leb lo lo) eqn:E; [done|].
      simpl in Hr. apply ltb_leb in Hr. congruence.
    + rewrite (ltb_negb_leb x lo) in H2 by done.
      rewrite (ltb_negb_leb hi x) in H1 by done.
      split; by apply negb_false_iff.
Qed.

End FloatFacts.

(** ** Bounds on the exponent of binary64 sums and products, from the
     specification of rounding *)

Module FloatBounds.
Import FloatFacts.

#[local] Open Scope Z_scope.










Section Exponent.
Variables prec emax : Z.
Hypothesis Hprec : 0 < prec.

#[local] Abbreviation emin := (SpecFloat.emin prec emax).
#[local] Abbreviation fexp := (SpecFloat.fexp prec emax).


#[local] Abbreviation exp_bound m e :=
  (Z.max (Z.max e (Zdigits2 m + e - prec)) emin + 1).

Lemma sf_finite_mono k k' a : k ≤ k' → sf_finite k a = true → sf_finite k' a = true.
Proof. destruct a; simpl; try done. intros. lia. Qed.










End Exponent.

#[local] Close Scope Z_scope.

Lemma finite_below_mono k k' x :
  (k ≤ k')%Z → finite_below k x = true → finite_below k' x = true.
Proof. unfold finite_below. apply sf_finite_mono. Qed.








End FloatBounds.

(** ** Risk Model Service *)

Module RiskModelProps.
Import RiskModel.

(** Unfolds the scoring rule and splits on every test it makes. *)
Ltac split_rule_tests :=
  repeat match goal with
  | |- context [eq_str ?v ?s] => destruct (eq_str v s)
  | |- context [in_strs ?v ?l] => destruct (in_strs v l)
  | |- context [gt ?a ?b] => destruct (gt a b)
  end.

Ltac split_urgency cls :=
  unfold _calculate_rule_based_risk, table_get;
  destruct (get_or cls "urgency_level" (VStr "medium")) as [ |?|?|?|u|?|?];
  cbn [mbind exc_bind bind assoc urgency_weights default from_option id];
  repeat case_bool_decide.

(** Every score the rule computes is one of finitely many binary64 numbers,
    none of them NaN, all between the base risk 0.3 and the cap 1.0. *)
Lemma rule_based_risk_range fs sentiment classification :
  match _calculate_rule_based_risk fs sentiment classification with
  | Ok s => Py.is_nan s = false ∧ le 0.3 s = true ∧ le s 1.0 = true
  | Raise _ => True
  end.
Proof.
  split_urgency classification; try exact I;
    split_rule_tests; vm_compute; auto.
Qed.

(** Every score [predict_risk] reports is a non-negative number: the
    rule's scores are at least 0.3 and the default is 0.5. *)
Lemma predict_risk_score_nonneg fs sentiment classification :
  le 0 (risk_score (predict_risk fs sentiment classification)) = true.
Proof.
  unfold predict_risk. case_bool_decide; [by vm_compute|].
  unfold _calculate_rule_based_risk, table_get.
  destruct (get_or classification "urgency_level" (VStr "medium"))
    as [ |?|?|?|u|?|?];
    cbn [mbind exc_bind bind assoc urgency_weights default from_option id];
    repeat case_bool_decide; try (by vm_compute);
    split_rule_tests; by vm_compute.
Qed.

(** X21: Rounding never moves a score across a threshold: the category of the
    binary64 score is the category of the exact decimal score. *)
Lemma rounding_keeps_category fs sentiment classification :
  match _calculate_rule_based_risk fs sentiment classification with
  | Ok s =>
      categorize s
      = exact_categorize (exact_rule_based_risk fs sentiment classification)
  | Raise _ => True
  end.
Proof.
  unfold exact_rule_based_risk, exact_weight.
  split_urgency classification; try exact I;
    split_rule_tests; by vm_compute.
Qed.

(** 0.4 <= 0.7 <= s gives 0.4 <= s: the two constants have different binary
    exponents, so the comparison is decided before any mantissa is read. *)
Lemma ge_07_ge_04 (s : float) :
  ge s 0.7 = true → ge s 0.4 = true.
Proof.
  unfold ge. rewrite !leb_spec.
  replace (Prim2SF 0.7) with (S754_finite false 6305039478318694 (-53))
    by (vm_compute; reflexivity).
  replace (Prim2SF 0.4) with (S754_finite false 7205759403792794 (-54))
    by (vm_compute; reflexivity).
  unfold SFleb. destruct (Prim2SF s) as [[]|[]| |[] m e]; simpl; try done.
  destruct e as [ |e|e]; try done.
  destruct (Pos.compare_spec 53 e); destruct (Pos.compare_spec 54 e);
    simpl; try done; lia.
Qed.

Lemma categorize_thresholds (s : float) :
  Py.is_nan s = false →
  (categorize s = "high" ↔ ge s 0.7 = true) ∧
  (categorize s = "medium" ↔ ge s 0.4 = true ∧ lt s 0.7 = true) ∧
  (categorize s = "low" ↔ lt s 0.4 = true).
Proof.
  intros Hs. pose proof (ge_07_ge_04 s) as Htr.
  unfold categorize, lt, ge in *.
  rewrite !(FloatFacts.ltb_negb_leb s) by (assumption || reflexivity).
  destruct (PrimFloat.leb 0.7 s), (PrimFloat.leb 0.4 s); simpl;
    try (specialize (Htr eq_refl); discriminate);
    intuition (auto; discriminate).
Qed.

(** C3: [predict_risk] labels the score it computed "high" exactly when the
    score is at least 0.7, "medium" exactly when it is at least 0.4 and below
    0.7, and "low" exactly when it is below 0.4; a score of exactly 0.7 is
    "high" and a score of exactly 0.4 is "medium", while the binary64
    numbers just below them are "medium" and "low". *)
Theorem predict_risk_category_thresholds
    (fs : features) (sentiment classification : dict) :
  let a := predict_risk fs sentiment classification in
  (risk_category a = "high" ↔ ge (risk_score a) 0.7 = true) ∧
  (risk_category a = "medium" ↔
     ge (risk_score a) 0.4 = true ∧ lt (risk_score a) 0.7 = true) ∧
  (risk_category a = "low" ↔ lt (risk_score a) 0.4 = true) ∧
  categorize 0.7 = "high" ∧ categorize 0.4 = "medium" ∧
  categorize (PrimFloat.next_down 0.7) = "medium" ∧
  categorize (PrimFloat.next_down 0.4) = "low".
Proof.
  cbv zeta.
  assert (Hd : Py.is_nan (risk_score (predict_risk fs sentiment classification))
                 = false
               ∧ risk_category (predict_risk fs sentiment classification)
                 = categorize
                     (risk_score (predict_risk fs sentiment classification))).
  { unfold predict_risk. case_bool_decide; [by vm_compute|].
    pose proof (rule_based_risk_range fs sentiment classification) as Hr.
    destruct (_calculate_rule_based_risk fs sentiment classification) as [s|e];
      cbn [mbind exc_bind bind try_except risk_score risk_category].
    - by destruct Hr as (Hn & _).
    - by vm_compute. }
  destruct Hd as [Hn Hc]. rewrite Hc.
  destruct (categorize_thresholds _ Hn) as (H1 & H2 & H3).
  repeat split; try apply H1; try apply H2; try apply H3;
    try (by vm_compute); tauto.
Qed.

(** C4, as stated, fails where the cap applies: with negative and angry
    sentiment, a fraud issue, more than two earlier complaints and an amount,
    the score is 1.0 at every urgency level. *)
Lemma rule_based_risk_saturates :
  _calculate_rule_based_risk saturating_features saturating_sentiment
    (with_urgency saturating_classification "critical") = Ok 1.0%float ∧
  _calculate_rule_based_risk saturating_features saturating_sentiment
    (with_urgency saturating_classification "high") = Ok 1.0%float ∧
  _calculate_rule_based_risk saturating_features saturating_sentiment
    (with_urgency saturating_classification "medium") = Ok 1.0%float ∧
  _calculate_rule_based_risk saturating_features saturating_sentiment
    (with_urgency saturating_classification "low") = Ok 1.0%float ∧
  gt 1.0 1.0 = false.
Proof. vm_compute. repeat split; reflexivity. Qed.

Lemma with_urgency_level cls u :
  get_or (with_urgency cls u) "urgency_level" (VStr "medium") = VStr u.
Proof. unfold get_or, with_urgency. by rewrite lookup_insert_eq. Qed.

Lemma with_urgency_issue cls u :
  get (with_urgency cls u) "issue_category" = get cls "issue_category".
Proof. unfold get, with_urgency. by rewrite lookup_insert_ne. Qed.

(** C4, amended: with everything but the urgency level fixed, the score
    never decreases from low to medium to high to critical; at each step it
    strictly increases when the lower score is below the cap 1.0, and
    otherwise both scores are the cap; every score the rule returns lies in
    [0, 1]. *)
Theorem rule_based_risk_monotone_in_urgency
    (fs : features) (sentiment classification : dict) :
  (∃ l m h c : float,
     risk_at fs sentiment classification "low" = Ok l ∧
     risk_at fs sentiment classification "medium" = Ok m ∧
     risk_at fs sentiment classification "high" = Ok h ∧
     risk_at fs sentiment classification "critical" = Ok c ∧
     le l m = true ∧ le m h = true ∧ le h c = true ∧
     ((lt l 1.0 = true ∧ gt m l = true) ∨ (l = 1.0%float ∧ m = 1.0%float)) ∧
     ((lt m 1.0 = true ∧ gt h m = true) ∨ (m = 1.0%float ∧ h = 1.0%float)) ∧
     ((lt h 1.0 = true ∧ gt c h = true) ∨ (h = 1.0%float ∧ c = 1.0%float))) ∧
  match _calculate_rule_based_risk fs sentiment classification with
  | Ok s => le 0 s = true ∧ le s 1 = true
  | Raise _ => True
  end.
Proof.
  split.
  - unfold risk_at, _calculate_rule_based_risk.
    rewrite !with_urgency_level, !with_urgency_issue.
    cbn [table_get mbind exc_bind bind].
    split_rule_tests; vm_compute; do 4 eexists;
      repeat (split; [reflexivity|]);
      repeat (split; [first [left; split; reflexivity
                            |right; split; reflexivity]|]);
      first [left; split; reflexivity|right; split; reflexivity].
  - split_urgency classification; try exact I;
      split_rule_tests; vm_compute; auto.
Qed.

End RiskModelProps.

(** ** Risk Checker Agent *)

Module RiskCheckerProps.
Import Schemas RiskChecker FloatFacts FloatBounds.

Lemma float_of_len_nonneg n : le 0 (Builtins.float_of_len n) = true.
Proof. apply nonneg_of_uint63. Qed.

Lemma flags_adjustment_nonneg n : le 0 (flags_adjustment n) = true.
Proof.
  unfold flags_adjustment.
  eapply nonneg_mul_finite; [by vm_compute|apply float_of_len_nonneg].
Qed.

Ltac split_escalation_tests :=
  repeat match goal with
  | |- context [eq_str ?v ?s] => destruct (eq_str v s)
  | |- context [gt ?a ?b] => destruct (gt a b)
  | |- context [truthy ?v] => destruct (truthy v)
  | |- context [Builtins.parse_amount ?v] => destruct (Builtins.parse_amount v)
  | |- context [Builtins.len ?v] => destruct (Builtins.len v)
  end.

(** What the [try] block returns when nothing raises: the reported score
    times the multiplier plus a non-negative adjustment, clamped. *)
Lemma escalation_body_ok `{Builtins.t} rp st q :
  escalation_body rp st = Ok q →
  ∃ rs,
    reported_risk_score rp = Ok rs ∧
    q = escalation_formula rs (urgency_multiplier st)
          (sentiment_adjustment st) (amount_adjustment st)
          (flags_adjustment (active_flags st)) ∧
    le 0 (urgency_multiplier st) = true ∧
    le 0 (sentiment_adjustment st + amount_adjustment st
          + flags_adjustment (active_flags st)) = true.
Proof.
  unfold escalation_body, reported_risk_score, escalation_formula, clamp,
    urgency_multiplier, sentiment_adjustment, amount_adjustment,
    active_flags, table_get.
  destruct (get_or (classification st) "urgency_level" (VStr "medium"))
    as [ |?|?|?|u|?|?];
    cbn [mbind exc_bind bind assoc urgency_multipliers default from_option id];
    try discriminate.
  all: destruct (Builtins.as_float (get_or rp "risk_score" (VFloat 0.5)))
         as [rs|]; cbn [mbind exc_bind bind]; try discriminate.
  all: repeat case_bool_decide; subst; try congruence.
  all: split_escalation_tests; cbn [mbind exc_bind bind]; try discriminate.
  all: intros [= <-]; exists rs; split; [reflexivity|].
  all: split;
    [ unfold flags_adjustment; repeat f_equal; vm_compute; reflexivity
    | split; [by vm_compute|];
      apply nonneg_add; [by vm_compute|apply flags_adjustment_nonneg] ].
Qed.

Lemma urgency_multiplier_finite (st : ComplaintState) :
  ∃ m e, Prim2SF (urgency_multiplier st) = S754_finite false m e.
Proof.
  unfold urgency_multiplier.
  destruct (get_or (classification st) "urgency_level" (VStr "medium"))
    as [ |?|?|?|u|?|?]; repeat case_bool_decide; by vm_compute; eauto.
Qed.

(** The range and the formula, for a prediction whose score is a
    non-negative number. *)
Lemma escalation_in_range_of_nonneg `{Builtins.t}
    (risk_prediction : dict) (state : ComplaintState) :
  (∀ rs, reported_risk_score risk_prediction = Ok rs → le 0 rs = true) →
  let p := _calculate_escalation_probability risk_prediction state in
  le 0.05 p = true ∧ le p 0.95 = true ∧
  (∀ q, escalation_body risk_prediction state = Ok q →
     p = q ∧
     ∃ rs, reported_risk_score risk_prediction = Ok rs ∧
       q = escalation_formula rs (urgency_multiplier state)
             (sentiment_adjustment state) (amount_adjustment state)
             (flags_adjustment (active_flags state))).
Proof.
  intros Hrs p. subst p. unfold _calculate_escalation_probability.
  destruct (escalation_body risk_prediction state) as [q|e] eqn:Hq;
    cbn [try_except].
  - destruct (escalation_body_ok _ _ _ Hq) as (rs & Hr & -> & Hm & Ha).
    destruct (urgency_multiplier_finite state) as (m & e & Hfin).
    assert (Hx : Py.is_nan (rs * urgency_multiplier state
                  + (sentiment_adjustment state + amount_adjustment state
                     + flags_adjustment (active_flags state))) = false).
    { apply nonneg_not_nan, nonneg_add; [|done].
      eapply nonneg_mul_finite; eauto. }
    unfold escalation_formula, clamp.
    destruct (clamp_in_range 0.05 0.95 _ eq_refl eq_refl Hx) as [H1 H2].
    split; [done|split; [done|]].
    intros q' [= <-]. split; [done|]. by exists rs.
  - split; [by vm_compute|split; [by vm_compute|]]. intros q' [=].
Qed.

(** Every prediction the agent computes is a non-negative number, so in
    the agent the range holds for every model input and every state. *)
Lemma predicted_score_nonneg
    (fs : RiskModel.features) (model_sentiment model_classification : dict)
    (enhancements : exc (value * value * value)) :
  ∃ rs,
    reported_risk_score
      (_predict_risk
         (RiskModel.predict_risk fs model_sentiment model_classification)
         enhancements) = Ok rs ∧
    le 0 rs = true.
Proof.
  unfold _predict_risk, reported_risk_score.
  destruct enhancements as [[[fi rd] hc]|e];
    cbn [mbind exc_bind bind try_except].
  - eexists. split; [reflexivity|].
    apply RiskModelProps.predict_risk_score_nonneg.
  - eexists. split; [reflexivity|]. by vm_compute.
Qed.

(** X20: Inside the agent, where the prediction is what [_predict_risk] builds
    from the risk model's assessment (or the default assessment), the
    escalation probability lies in [0.05, 0.95] for every model input,
    every outcome of the enhancements and every state. *)
Lemma escalation_in_range_in_agent `{Builtins.t}
    (fs : RiskModel.features) (model_sentiment model_classification : dict)
    (enhancements : exc (value * value * value)) (state : ComplaintState) :
  let p :=
    _calculate_escalation_probability
      (_predict_risk
         (RiskModel.predict_risk fs model_sentiment model_classification)
         enhancements) state in
  le 0.05 p = true ∧ le p 0.95 = true.
Proof.
  destruct (predicted_score_nonneg fs model_sentiment model_classification
              enhancements) as (rs & Hrs & Hnn).
  destruct (escalation_in_range_of_nonneg
              (_predict_risk
                 (RiskModel.predict_risk fs model_sentiment
                    model_classification) enhancements) state)
    as (H1 & H2 & _); [|by split].
  intros rs' Hrs'. congruence.
Qed.








End RiskCheckerProps.

(** ** Complaint Sorter Agent *)

Module ComplaintSorterProps.
Import ComplaintSorter.





End ComplaintSorterProps.

(** ** Authentication *)

Module AuthProps.
Import Database Auth.

(** *** [str.split] and [in] *)

Lemma split_nonempty c s : PyStr.split c s ≠ [].
Proof.
  destruct s as [ |a s]; simpl; [done|].
  case_bool_decide; [done|]. by destruct (PyStr.split c s).
Qed.

Lemma contains_char_app c x y :
  PyStr.contains_char c (x +:+ y)
  = PyStr.contains_char c x || PyStr.contains_char c y.
Proof.
  induction x as [ |a x IH]; simpl; [done|].
  by case_bool_decide.
Qed.

Lemma split_no_sep c s :
  PyStr.contains_char c s = false → PyStr.split c s = [s].
Proof.
  induction s as [ |a s IH]; simpl; [done|].
  case_bool_decide; [done|]. intros Hs. by rewrite (IH Hs).
Qed.

Lemma split_app_sep c x y :
  PyStr.contains_char c x = false →
  PyStr.split c (x +:+ String c y) = x :: PyStr.split c y.
Proof.
  induction x as [ |a x IH]; simpl.
  - intros _. by rewrite bool_decide_eq_true_2.
  - case_bool_decide; [done|]. intros Hx. by rewrite (IH Hx).
Qed.

Lemma split_sep_two c x y :
  ∃ h h' t, PyStr.split c (x +:+ String c y) = h :: h' :: t.
Proof.
  induction x as [ |a x (h & h' & t & IH)]; simpl.
  - rewrite bool_decide_eq_true_2 by done.
    destruct (PyStr.split c y) as [ |h' t] eqn:E; [by apply split_nonempty in E|].
    eauto.
  - case_bool_decide; rewrite IH; eauto.
Qed.

Lemma last_split_app c x y :
  List.last (PyStr.split c (x +:+ String c y)) "" = List.last (PyStr.split c y) "".
Proof.
  induction x as [ |a x IH]; simpl.
  - rewrite bool_decide_eq_true_2 by done.
    destruct (PyStr.split c y) as [ |h t] eqn:E; [by apply split_nonempty in E|].
    done.
  - destruct (split_sep_two c x y) as (h & h' & t & E).
    rewrite E in IH. case_bool_decide; rewrite E; simpl in *; done.
Qed.

Lemma split_at c local domain :
  PyStr.contains_char c local = false →
  PyStr.contains_char c domain = false →
  PyStr.split c (local +:+ String c domain) = [local; domain].
Proof.
  intros Hl Hd. by rewrite split_app_sep, (split_no_sep c domain).
Qed.

(** C10, as stated, fails for a username with a second "@": the segment
    after the first "@" has no underscore, and the login is answered with
    the validation error of the guard on the number of parts instead of
    being tried against tenant "default". *)
Lemma split_username_rejects_second_at :
  PyStr.split "@" "user@example.com@acme" = ["user"; "example.com"; "acme"] ∧
  PyStr.contains_char "_" "example.com" = false ∧
  split_username "user@example.com@acme"
  = Raise (HTTPException 400 "Invalid username format" []) ∧
  @login_for_access_token plain_env
    {| username := "user@example.com@acme"; password := "correct horse" |}
    one_tenant_db
  = Raise (HTTPException 400 "Invalid username format" []).
Proof. repeat split; by vm_compute. Qed.

Lemma split_length c s :
  length (PyStr.split c s) = S (PyStr.count_char c s).
Proof.
  induction s as [ |a s IH]; simpl; [done|].
  case_bool_decide; simpl; [by rewrite IH|].
  destruct (PyStr.split c s); simpl in *; done.
Qed.

Lemma count_char_none c s :
  PyStr.count_char c s = 0 → PyStr.contains_char c s = false.
Proof.
  induction s as [ |a s IH]; simpl; [done|]. by case_bool_decide.
Qed.

Lemma count_char_app c x y :
  PyStr.count_char c (x +:+ y)
  = PyStr.count_char c x + PyStr.count_char c y.
Proof.
  induction x as [ |a x IH]; simpl; [done|].
  case_bool_decide; simpl; by rewrite IH.
Qed.

Lemma count_char_absent c s :
  PyStr.contains_char c s = false → PyStr.count_char c s = 0.
Proof.
  induction s as [ |a s IH]; simpl; [done|]. by case_bool_decide.
Qed.

(** A string with exactly one [c] is [x c y] with no [c] in [x] and [y]. *)
Lemma count_char_one c s :
  PyStr.count_char c s = 1 →
  ∃ x y, s = x +:+ String c y ∧ PyStr.contains_char c x = false
         ∧ PyStr.contains_char c y = false.
Proof.
  induction s as [ |a s IH]; simpl; [done|].
  case_bool_decide as Ha.
  - intros [= Hs]. subst a. exists "", s. split; [done|].
    split; [done|]. by apply count_char_none.
  - intros (x & y & -> & Hx & Hy)%IH. exists (String a x), y.
    split; [done|]. split; [|done]. simpl. by rewrite bool_decide_eq_false_2.
Qed.

Lemma split_username_invalid name :
  PyStr.count_char "@" name ≠ 1 →
  split_username name = Raise (HTTPException 400 "Invalid username format" []).
Proof.
  intros Hcount. unfold split_username.
  destruct (PyStr.contains_char "@" name); cbn [negb]; [|done].
  pose proof (split_length "@" name) as Hlen.
  destruct (PyStr.split "@" name) as [ |h [ |h' [ |h'' t]]]; try done.
  simpl in Hlen. lia.
Qed.

(** C10, amended: a username is rejected with 400 "Invalid username
    format", before any tenant is derived, exactly when its number of "@"
    is not one.  A username with one "@" is [local@domain]; a domain
    without underscore gives the unchanged email and the tenant id
    "default", with no validation error, and the login is the
    authentication of that email against tenant "default"; with underscores
    the email keeps the domain text before the first underscore and the
    tenant id is the text after the last one. *)
Theorem split_username_default_tenant (local domain : string) :
  PyStr.contains_char "@" local = false →
  PyStr.contains_char "@" domain = false →
  PyStr.count_char "@" (local +:+ "@" +:+ domain) = 1 ∧
  (PyStr.contains_char "_" domain = false →
     split_username (local +:+ "@" +:+ domain)
     = Ok (local +:+ "@" +:+ domain, "default") ∧
     ∀ (E : Env) (db : Database.t) (pw : string),
       login_for_access_token
         {| username := local +:+ "@" +:+ domain; password := pw |} db
       = reraise_as_500 "Login failed"
           (user ← authenticate_user db (local +:+ "@" +:+ domain) pw
                     "default";
            match user with
            | None =>
                Raise (HTTPException 401 "Incorrect email or password"
                         [("WWW-Authenticate", "Bearer")])
            | Some u => token_response u
            end)) ∧
  (∀ pre rest init post,
     domain = pre +:+ "_" +:+ rest →
     PyStr.contains_char "_" pre = false →
     domain = init +:+ "_" +:+ post →
     PyStr.contains_char "_" post = false →
     split_username (local +:+ "@" +:+ domain)
     = Ok (local +:+ "@" +:+ pre, post)) ∧
  split_username "user@example.com" = Ok ("user@example.com", "default") ∧
  (∀ name,
     (PyStr.count_char "@" name = 1 →
      ∃ l d, name = l +:+ "@" +:+ d ∧ PyStr.contains_char "@" l = false
             ∧ PyStr.contains_char "@" d = false) ∧
     (PyStr.count_char "@" name ≠ 1 →
      split_username name
      = Raise (HTTPException 400 "Invalid username format" []) ∧
      ∀ (E : Env) (db : Database.t) (pw : string),
        login_for_access_token {| username := name; password := pw |} db
        = Raise (HTTPException 400 "Invalid username format" []))).
Proof.
  intros Hl Hd.
  assert (Hat : PyStr.contains_char "@" (local +:+ "@" +:+ domain) = true).
  { rewrite contains_char_app. simpl. apply orb_true_r. }
  assert (Hdefault : PyStr.contains_char "_" domain = false →
            split_username (local +:+ "@" +:+ domain)
            = Ok (local +:+ "@" +:+ domain, "default")).
  { intros Hu. unfold split_username. rewrite Hat. cbn [negb].
    change (local +:+ "@" +:+ domain) with (local +:+ String "@" domain).
    rewrite (split_at _ _ _ Hl Hd), Hu, (split_no_sep _ _ Hu). reflexivity. }
  split; [|split; [|split; [|split]]].
  - change (local +:+ "@" +:+ domain) with (local +:+ String "@" domain).
    rewrite count_char_app. simpl.
    rewrite (count_char_absent _ _ Hl), (count_char_absent _ _ Hd). done.
  - intros Hu. split; [by apply Hdefault|].
    intros E db pw. unfold login_for_access_token. cbn [username password].
    by rewrite (Hdefault Hu).
  - intros pre rest init post Hpre Hnpre Hpost Hnpost.
    unfold split_username. rewrite Hat. cbn [negb].
    change (local +:+ "@" +:+ domain) with (local +:+ String "@" domain).
    rewrite (split_at _ _ _ Hl Hd).
    assert (Hu : PyStr.contains_char "_" domain = true).
    { rewrite Hpre, contains_char_app. simpl. apply orb_true_r. }
    rewrite Hu.
    assert (Hfirst : PyStr.first (PyStr.split "_" domain) = Ok pre).
    { rewrite Hpre. change (pre +:+ "_" +:+ rest) with (pre +:+ String "_" rest).
      by rewrite split_app_sep. }
    assert (Hlast : PyStr.last (PyStr.split "_" domain) = Ok post).
    { unfold PyStr.last.
      destruct (PyStr.split "_" domain) as [ |h t] eqn:E;
        [by apply split_nonempty in E|].
      rewrite <- E, Hpost.
      change (init +:+ "_" +:+ post) with (init +:+ String "_" post).
      by rewrite last_split_app, (split_no_sep _ _ Hnpost). }
    rewrite Hfirst, Hlast. reflexivity.
  - reflexivity.
  - intros name. split.
    + intros (x & y & -> & Hx & Hy)%count_char_one. by exists x, y.
    + intros Hcount. split; [by apply split_username_invalid|].
      intros E db pw. unfold login_for_access_token. cbn [username password].
      by rewrite (split_username_invalid _ Hcount).
Qed.

Lemma split_username_default_tenant_witness :
  split_username "alice@example.com" = Ok ("alice@example.com", "default") ∧
  split_username "alice@example.com_eu_acme" = Ok ("alice@example.com", "acme") ∧
  split_username "alice" = Raise (HTTPException 400 "Invalid username format" []) ∧
  split_username "alice@example.com@acme"
  = Raise (HTTPException 400 "Invalid username format" []).
Proof.
  destruct (split_username_default_tenant "alice" "example.com"
              eq_refl eq_refl) as (_ & H1 & _ & _ & H4).
  destruct (split_username_default_tenant "alice" "example.com_eu_acme"
              eq_refl eq_refl) as (_ & _ & H2 & _).
  split; [|split; [|split]].
  - apply H1. reflexivity.
  - apply (H2 "example.com" "eu_acme" "example.com_eu" "acme");
      reflexivity.
  - apply (H4 "alice"). discriminate.
  - apply (H4 "alice@example.com@acme"). discriminate.
Defined.

(** *** Authentication *)

Lemma get_user_by_email_none db email tenant_id :
  (∀ u, u ∈ users db → u_email u = email → u_tenant_id u = tenant_id →
        u_is_active u = false) →
  get_user_by_email db email tenant_id = Ok None.
Proof.
  intros Hno. unfold get_user_by_email.
  replace (filter _ (users db)) with (@nil User); [done|].
  symmetry. induction (users db) as [ |v l IH]; [done|].
  rewrite filter_cons, decide_False.
  - apply IH. intros u Hu. apply Hno. by right.
  - intros (He & Ht & Ha).
    specialize (Hno v (list_elem_of_here _ _) He Ht). congruence.
Qed.

(** C6: a lookup that finds no active user of that email in the tenant and
    a lookup that finds one whose password does not verify both make
    [authenticate_user] return no match, and both login endpoints answer
    the two cases with the same 401 error. *)
Theorem authenticate_user_no_enumeration `{Env}
    (db_missing db_wrong : Database.t) (email pw tenant_id : string)
    (u : User) :
  (∀ v, v ∈ users db_missing → u_email v = email →
        u_tenant_id v = tenant_id → u_is_active v = false) →
  get_user_by_email db_wrong email tenant_id = Ok (Some u) →
  verify_password pw (u_hashed_password u) = Ok false →
  authenticate_user db_missing email pw tenant_id = Ok None ∧
  authenticate_user db_wrong email pw tenant_id = Ok None ∧
  login_user {| login_email := email; login_password := pw;
                login_tenant_id := tenant_id |} db_missing
  = Raise (HTTPException 401 "Incorrect credentials" []) ∧
  login_user {| login_email := email; login_password := pw;
                login_tenant_id := tenant_id |} db_wrong
  = Raise (HTTPException 401 "Incorrect credentials" []) ∧
  (∀ name, split_username name = Ok (email, tenant_id) →
     login_for_access_token {| username := name; password := pw |} db_missing
     = login_for_access_token {| username := name; password := pw |} db_wrong
     ∧ login_for_access_token {| username := name; password := pw |} db_wrong
       = Raise (HTTPException 401 "Incorrect email or password"
                  [("WWW-Authenticate", "Bearer")])).
Proof.
  intros Hmissing Hfound Hverify.
  assert (A1 : authenticate_user db_missing email pw tenant_id = Ok None).
  { unfold authenticate_user.
    by rewrite (get_user_by_email_none _ _ _ Hmissing). }
  assert (A2 : authenticate_user db_wrong email pw tenant_id = Ok None).
  { unfold authenticate_user. rewrite Hfound.
    cbn [mbind exc_bind bind]. by rewrite Hverify. }
  split; [done|]. split; [done|].
  unfold login_user, login_for_access_token.
  cbn [login_email login_password login_tenant_id username password].
  rewrite A1, A2. split; [done|]. split; [done|].
  intros name ->. cbn [mbind exc_bind bind]. by rewrite A1, A2.
Qed.

Lemma authenticate_user_no_enumeration_witness :
  @login_user plain_env
     {| login_email := "alice@example.com"; login_password := "guess";
        login_tenant_id := "acme" |} empty_db
  = @login_user plain_env
      {| login_email := "alice@example.com"; login_password := "guess";
         login_tenant_id := "acme" |} one_tenant_db.
Proof.
  destruct (@authenticate_user_no_enumeration plain_env
              empty_db one_tenant_db "alice@example.com" "guess" "acme" alice)
    as (_ & _ & H1 & H2 & _).
  - intros v Hv. inversion Hv.
  - reflexivity.
  - reflexivity.
  - by rewrite H1, H2.
Defined.

End AuthProps.

(** ** Admin endpoints *)

Module AdminProps.
Import Database Admin.

Lemma lookup_by_id_absent (us : list User) (uid tenant : string) :
  uid ∉ u_id <$> us →
  filter (fun u => u_id u = uid ∧ u_tenant_id u = tenant) us = [].
Proof.
  induction us as [ |v l IH]; [done|].
  rewrite fmap_cons, not_elem_of_cons. intros [Hne Hl].
  rewrite filter_cons, decide_False; [by apply IH|].
  intros [Hid _]. congruence.
Qed.

(** With unique primary keys, the lookup by id and tenant returns exactly
    the row. *)
Lemma lookup_by_id_unique (us : list User) (x : User) (tenant : string) :
  NoDup (u_id <$> us) → x ∈ us → u_tenant_id x = tenant →
  filter (fun u => u_id u = u_id x ∧ u_tenant_id u = tenant) us = [x].
Proof.
  induction us as [ |v l IH]; intros Hnd Hx Ht; [by inversion Hx|].
  rewrite fmap_cons in Hnd. apply NoDup_cons in Hnd as [Hv Hl].
  rewrite filter_cons. apply elem_of_cons in Hx as [->|Hx].
  - rewrite decide_True by done. f_equal. by apply lookup_by_id_absent.
  - rewrite decide_False; [by apply IH|].
    intros [Hid _]. apply Hv. rewrite Hid.
    by apply list_elem_of_fmap_2.
Qed.

Lemma set_inactive_target (us : list User) (x : User) :
  x ∈ us → deactivated x ∈ set_inactive (u_id x) us.
Proof.
  intros Hx. unfold set_inactive.
  apply (list_elem_of_fmap_2
           (fun u => if bool_decide (u_id u = u_id x) then deactivated u else u))
    in Hx.
  by rewrite bool_decide_eq_true_2 in Hx.
Qed.

Lemma set_inactive_others (us : list User) (uid : string) (v : User) :
  v ∈ us → u_id v ≠ uid → v ∈ set_inactive uid us.
Proof.
  intros Hv Hne. unfold set_inactive.
  apply (list_elem_of_fmap_2
           (fun u => if bool_decide (u_id u = uid) then deactivated u else u))
    in Hv.
  by rewrite bool_decide_eq_false_2 in Hv.
Qed.

(** C9: an admin or regulator who names their own id gets a 400 error and
    the tables are left as they were (the caller stays active, no audit row
    is added); naming another user of the same tenant marks that user
    inactive, leaves every other user as it was and appends one
    "user_deactivated" audit row. *)
Theorem deactivate_user_self_rejected
    (db : Database.t) (caller : User) :
  NoDup (u_id <$> users db) →
  caller ∈ users db →
  u_is_active caller = true →
  u_role caller ∈ ["admin"; "regulator"] →
  delete_user_endpoint (u_id caller) db caller
  = (Raise (HTTPException 400 "Cannot deactivate your own account" []), db) ∧
  (∀ target,
     target ∈ users db →
     u_tenant_id target = u_tenant_id caller →
     u_id target ≠ u_id caller →
     ∃ db',
       delete_user_endpoint (u_id target) db caller
       = (Ok {| message := "User deactivated successfully";
                deactivated_user_id := u_id target |}, db') ∧
       users db' = set_inactive (u_id target) (users db) ∧
       deactivated target ∈ users db' ∧
       caller ∈ users db' ∧
       (∀ v, v ∈ users db → u_id v ≠ u_id target → v ∈ users db') ∧
       audit_logs db'
       = audit_logs db ++
         [{| a_tenant_id := u_tenant_id caller;
             a_user_id := Some (u_id caller);
             a_action := "user_deactivated";
             a_payload := [("user_id", u_id target);
                           ("email", u_email target)] |}]).
Proof.
  intros Hnd Hc Hact Hrole.
  assert (Hadmin : require_admin_role caller = Ok caller).
  { unfold require_admin_role. by rewrite bool_decide_eq_true_2. }
  unfold delete_user_endpoint. rewrite Hadmin. split.
  - unfold deactivate_user.
    rewrite (lookup_by_id_unique _ caller _ Hnd Hc eq_refl).
    cbn [scalar_one_or_none]. by rewrite bool_decide_eq_true_2.
  - intros target Ht Hten Hne. unfold deactivate_user.
    rewrite (lookup_by_id_unique _ target _ Hnd Ht Hten).
    cbn [scalar_one_or_none]. rewrite bool_decide_eq_false_2 by done.
    eexists. split; [reflexivity|]. cbn [users audit_logs add_audit_log with_users].
    split; [done|]. split; [by apply set_inactive_target|].
    split; [apply set_inactive_others; [done|congruence]|].
    split; [|done]. intros v Hv Hvne. by apply set_inactive_others.
Qed.

Lemma deactivate_user_self_rejected_witness :
  delete_user_endpoint "u-1" Auth.one_tenant_db Auth.alice
  = (Raise (HTTPException 400 "Cannot deactivate your own account" []),
     Auth.one_tenant_db) ∧
  u_is_active <$> users (delete_user_endpoint "u-2" Auth.one_tenant_db Auth.alice).2
  = [true; false].
Proof.
  destruct (deactivate_user_self_rejected Auth.one_tenant_db Auth.alice)
    as [H1 H2].
  - apply (bool_decide_unpack _). by vm_compute.
  - vm_compute. apply list_elem_of_here.
  - reflexivity.
  - vm_compute. apply list_elem_of_here.
  - split; [exact H1|reflexivity].
Defined.

End AdminProps.

(** ** Embedding Service *)

Module EmbeddingsProps.
Import Database Embeddings.

Lemma insert_desc_perm x l : insert_desc x l ≡ₚ x :: l.
Proof.
  induction l as [ |y l IH]; simpl; [done|].
  destruct (c_created_at y.1 <=? c_created_at x.1)%Z; [done|].
  rewrite IH. apply Permutation_swap.
Qed.

Lemma order_by_perm rows : order_by_created_at_desc rows ≡ₚ rows.
Proof.
  induction rows as [ |x l IH]; simpl; [done|].
  by rewrite insert_desc_perm, IH.
Qed.

Lemma insert_desc_sorted x l :
  StronglySorted joined_desc l → StronglySorted joined_desc (insert_desc x l).
Proof.
  induction 1 as [ |y l Hs IH Hy]; simpl.
  - repeat constructor.
  - destruct (Z.leb_spec (c_created_at y.1) (c_created_at x.1)) as [Hle|Hlt].
    + constructor; [by constructor|].
      constructor; [done|].
      eapply Forall_impl; [exact Hy|]. unfold joined_desc. intros z Hz. lia.
    + constructor; [done|].
      rewrite insert_desc_perm. constructor; [|done].
      unfold joined_desc. lia.
Qed.

Lemma order_by_sorted rows :
  StronglySorted joined_desc (order_by_created_at_desc rows).
Proof.
  induction rows as [ |x l IH]; simpl; [constructor|].
  by apply insert_desc_sorted.
Qed.

Lemma take_sorted {A} (R : relation A) n (l : list A) :
  StronglySorted R l → StronglySorted R (take n l).
Proof.
  intros Hs. revert n. induction Hs as [ |x l Hs IH Hx]; intros [ |n]; simpl;
    try constructor; [apply IH|].
  eapply Forall_forall. intros y Hy. eapply Forall_forall; [exact Hx|].
  eapply subseteq_take, Hy.
Qed.

Lemma fmap_sorted rows :
  StronglySorted joined_desc rows →
  StronglySorted created_desc (to_row <$> rows).
Proof.
  induction 1 as [ |x l Hs IH Hx]; simpl; constructor; [done|].
  apply Forall_fmap. eapply Forall_impl; [exact Hx|]. done.
Qed.

(** Where each joined row comes from. *)
Lemma left_join_origin cs rs (row : joined) :
  row ∈ left_join cs rs →
  row.1 ∈ cs ∧
  match row.2 with
  | Some r => r ∈ rs ∧ r_complaint_id r = c_id row.1
  | None => ∀ r, r ∈ rs → r_complaint_id r ≠ c_id row.1
  end.
Proof.
  unfold left_join. intros Hrow.
  apply list_elem_of_bind in Hrow as (c & Hrow & Hc).
  destruct (filter _ rs) as [ |m ms] eqn:Hf.
  - apply list_elem_of_singleton in Hrow as ->. simpl. split; [done|].
    intros r Hr Heq.
    assert (Hin : r ∈ filter (fun r => r_complaint_id r = c_id c) rs)
      by (by apply list_elem_of_filter).
    rewrite Hf in Hin. inversion Hin.
  - apply list_elem_of_fmap in Hrow as (r & -> & Hr). simpl.
    rewrite <- Hf in Hr. apply list_elem_of_filter in Hr as [Heq Hr]. done.
Qed.

Lemma float_neq_02_09 : Some 0.2%float ≠ Some 0.9%float.
Proof.
  intros H.
  apply (f_equal (fun o => match o with
                           | Some f => PrimFloat.ltb f 0.5
                           | None => false
                           end)) in H.
  vm_compute in H. discriminate.
Qed.

(** C7, as stated, fails on a complaint that was scored twice: the join
    returns one row per risk score, so the older score 0.2 is returned
    next to the most recent one, 0.9. *)
Lemma find_similar_returns_every_risk_row :
  @find_similar_complaints constant_embedder scored_twice_db
     "card charged twice" "acme" 10
  = [scored_twice_row 0.2 "low"; scored_twice_row 0.9 "high"] ∧
  r_risk <$> latest_risk scored_twice_db 1 = Some 0.9%float ∧
  ¬ Forall (joined_with_latest_risk scored_twice_db)
      (@find_similar_complaints constant_embedder scored_twice_db
         "card charged twice" "acme" 10).
Proof.
  assert (Hrows : @find_similar_complaints constant_embedder scored_twice_db
                    "card charged twice" "acme" 10
                  = [scored_twice_row 0.2 "low"; scored_twice_row 0.9 "high"])
    by (by vm_compute).
  assert (Hlatest : r_risk <$> latest_risk scored_twice_db 1 = Some 0.9%float)
    by (by vm_compute).
  split; [done|]. split; [done|].
  rewrite Hrows. intros [Hfirst _]%Forall_cons.
  unfold joined_with_latest_risk in Hfirst.
  cbn [scored_twice_row s_id s_risk_score] in Hfirst.
  rewrite Hlatest in Hfirst. by apply float_neq_02_09.
Qed.

Lemma filter_fmap {A B} (f : A → B) (P : B → Prop) `{∀ y, Decision (P y)}
    (l : list A) :
  filter P (f <$> l) = f <$> filter (fun x => P (f x)) l.
Proof.
  induction l as [ |a l IH]; [done|].
  rewrite fmap_cons, !filter_cons, IH. by destruct (decide (P (f a))).
Qed.

Lemma filter_all {A} (P : A → Prop) `{∀ x, Decision (P x)} (l : list A) :
  (∀ x, x ∈ l → P x) → filter P l = l.
Proof.
  induction l as [ |a l IH]; intros Hall; [done|].
  rewrite filter_cons, decide_True by (apply Hall; by left).
  f_equal. apply IH. intros x Hx. apply Hall. by right.
Qed.

Lemma filter_nothing {A} (P : A → Prop) `{∀ x, Decision (P x)} (l : list A) :
  (∀ x, x ∈ l → ¬ P x) → filter P l = [].
Proof.
  induction l as [ |a l IH]; intros Hno; [done|].
  rewrite filter_cons, decide_False by (apply Hno; by left).
  apply IH. intros x Hx. apply Hno. by right.
Qed.

(** The joined rows of one complaint. *)
Lemma joined_rows_first (c : ComplaintRaw) rs (j : joined) :
  j ∈ match filter (fun r => r_complaint_id r = c_id c) rs with
      | [] => [(c, None)]
      | ms => (fun r => (c, Some r)) <$> ms
      end →
  j.1 = c.
Proof.
  destruct (filter _ rs) as [ |m ms].
  - by intros ->%list_elem_of_singleton.
  - by intros (r & -> & _)%list_elem_of_fmap.
Qed.

(** With unique complaint ids, the joined rows that carry the id of a stored
    complaint are the rows the join makes for that complaint. *)
Lemma left_join_of_complaint cs rs (c : ComplaintRaw) :
  NoDup (c_id <$> cs) → c ∈ cs →
  filter (fun j : joined => c_id j.1 = c_id c) (left_join cs rs)
  = match filter (fun r => r_complaint_id r = c_id c) rs with
    | [] => [(c, None)]
    | ms => (fun r => (c, Some r)) <$> ms
    end.
Proof.
  unfold left_join.
  induction cs as [ |a cs IH]; intros Hnd Hc; [by inversion Hc|].
  rewrite fmap_cons in Hnd. apply NoDup_cons in Hnd as [Ha Hnd].
  rewrite bind_cons, filter_app.
  apply elem_of_cons in Hc as [Heq|Hc].
  - subst a. rewrite (filter_all (fun j : joined => c_id j.1 = c_id c))
      by (by intros j ->%joined_rows_first).
    rewrite (filter_nothing (fun j : joined => c_id j.1 = c_id c));
      [by rewrite app_nil_r|].
    intros j Hj Hid. apply Ha. rewrite <- Hid.
    apply left_join_origin in Hj as [Hj _]. by apply list_elem_of_fmap_2.
  - rewrite (filter_nothing (fun j : joined => c_id j.1 = c_id c));
      [by apply IH|].
    intros j ->%joined_rows_first Hid. apply Ha. rewrite Hid.
    by apply list_elem_of_fmap_2.
Qed.

Lemma filter_swap {A} (P Q : A → Prop)
    `{!∀ x, Decision (P x), !∀ x, Decision (Q x)} (l : list A) :
  filter P (filter Q l) = filter Q (filter P l).
Proof. rewrite !list_filter_filter. apply list_filter_iff. tauto. Qed.

Lemma rows_of_complaint cs rs tenant_id (c : ComplaintRaw) :
  NoDup (c_id <$> cs) → c ∈ cs →
  c_tenant_id c = tenant_id → c_embedding c ≠ None →
  filter (fun j : joined => c_id j.1 = c_id c)
    (where_tenant_embedded tenant_id (left_join cs rs))
  = match filter (fun r => r_complaint_id r = c_id c) rs with
    | [] => [(c, None)]
    | ms => (fun r => (c, Some r)) <$> ms
    end.
Proof.
  intros Hnd Hc Hten Hemb. unfold where_tenant_embedded.
  rewrite filter_swap, (left_join_of_complaint _ _ c Hnd Hc).
  apply filter_all. by intros j ->%joined_rows_first.
Qed.

(** C7, amended: the query embedding is computed and not used.  With unique
    complaint ids, the result is the first [limit] rows of a list that is
    ordered newest complaint first, holds only complaints of the tenant
    that have a stored embedding, each with similarity score 0.85, and
    holds every such complaint once per risk-score row it has, with that
    row's score and category, and once with null risk fields when it has
    none. *)
Theorem find_similar_recency_rows `{Embedder}
    (db : Database.t) (query_text tenant_id : string) (limit : Z) :
  NoDup (c_id <$> complaints_raw db) →
  let rows := find_similar_complaints db query_text tenant_id limit in
  (∀ other_text,
     match create_embedding query_text, create_embedding other_text with
     | Ok _, Ok _ =>
         find_similar_complaints db other_text tenant_id limit = rows
     | _, _ => True
     end) ∧
  match create_embedding query_text with
  | Raise _ => rows = []
  | Ok _ =>
      if (limit <? 0)%Z then rows = []
      else
        ∃ full,
          rows = take (Z.to_nat limit) full ∧
          StronglySorted created_desc full ∧
          (∀ row, row ∈ full →
             s_similarity_score row = 0.85%float ∧
             ∃ c, c ∈ complaints_raw db ∧ c_tenant_id c = tenant_id ∧
                  c_embedding c ≠ None ∧
                  s_id row = c_id c ∧ s_narrative row = c_narrative c ∧
                  s_product row = c_product c ∧ s_issue row = c_issue c ∧
                  s_company row = c_company c ∧
                  s_created_at row = c_created_at c) ∧
          (∀ c, c ∈ complaints_raw db → c_tenant_id c = tenant_id →
                c_embedding c ≠ None →
             let scores :=
               filter (fun r => r_complaint_id r = c_id c) (risk_scores db) in
             let of_c := filter (fun row => s_id row = c_id c) full in
             (scores = [] →
                ∃ row, of_c = [row] ∧ s_risk_score row = None
                       ∧ s_risk_category row = None) ∧
             (scores ≠ [] →
                (fun row => (s_risk_score row, s_risk_category row)) <$> of_c
                ≡ₚ (fun r => (Some (r_risk r), Some (r_category r)))
                     <$> scores))
  end.
Proof.
  intros Hnd. cbv zeta. unfold find_similar_complaints, select_recent.
  split.
  { intros other. destruct (create_embedding query_text); [|done].
    by destruct (create_embedding other). }
  destruct (create_embedding query_text) as [e| ];
    cbn [mbind exc_bind bind try_except]; [|done].
  destruct (limit <? 0)%Z; cbn [mbind exc_bind bind try_except]; [done|].
  set (joined_rows :=
         where_tenant_embedded tenant_id
           (left_join (complaints_raw db) (risk_scores db))).
  exists (to_row <$> order_by_created_at_desc joined_rows).
  split; [by rewrite fmap_take|]. split; [apply fmap_sorted, order_by_sorted|].
  split.
  - intros row Hrow.
    apply list_elem_of_fmap in Hrow as (j & -> & Hj).
    rewrite order_by_perm in Hj.
    apply list_elem_of_filter in Hj as [[Hten Hemb] Hj].
    apply left_join_origin in Hj as [Hc _].
    split; [done|]. by exists j.1.
  - intros c Hc Hten Hemb. cbv zeta.
    assert (Hof :
      filter (fun row => s_id row = c_id c)
        (to_row <$> order_by_created_at_desc joined_rows)
      ≡ₚ to_row <$>
           match filter (fun r => r_complaint_id r = c_id c) (risk_scores db)
           with
           | [] => [(c, None)]
           | ms => (fun r => (c, Some r)) <$> ms
           end).
    { rewrite filter_fmap. apply fmap_Permutation.
      rewrite order_by_perm. subst joined_rows.
      by rewrite (rows_of_complaint _ _ tenant_id c Hnd Hc Hten Hemb). }
    split.
    + intros Hnone. rewrite Hnone in Hof.
      apply Permutation_singleton_r in Hof. eexists. split; [exact Hof|done].
    + intros Hsome. rewrite Hof.
      destruct (filter _ (risk_scores db)) as [ |m ms]; [done|].
      by rewrite <- !list_fmap_compose.
Qed.

Lemma find_similar_recency_rows_witness :
  length (@find_similar_complaints constant_embedder scored_twice_db
            "card charged twice" "acme" 1) = 1%nat ∧
  (fun row => (s_risk_score row, s_risk_category row)) <$>
    @find_similar_complaints constant_embedder scored_twice_db
      "card charged twice" "acme" 10
  ≡ₚ [(Some 0.2%float, Some "low"); (Some 0.9%float, Some "high")].
Proof.
  assert (Hnd : NoDup (c_id <$> complaints_raw scored_twice_db)).
  { apply (bool_decide_unpack _). by vm_compute. }
  destruct (@find_similar_recency_rows constant_embedder scored_twice_db
              "card charged twice" "acme" 10 Hnd) as [_ H10].
  split; [by vm_compute|].
  cbn [constant_embedder create_embedding Z.ltb Z.compare] in H10.
  destruct H10 as (full & Hrows & _ & _ & Hper).
  destruct (Hper scored_twice_complaint) as [_ Hscored];
    [apply list_elem_of_here|reflexivity|discriminate|].
  assert (Hfull : full = @find_similar_complaints constant_embedder
                           scored_twice_db "card charged twice" "acme" 10).
  { rewrite Hrows. symmetry. apply take_ge.
    assert (Hlen : length (take (Z.to_nat 10) full) = 2%nat)
      by (by rewrite <- Hrows).
    rewrite length_take in Hlen. lia. }
  rewrite <- Hfull.
  rewrite <- (filter_all (fun row => s_id row = 1%Z) full).
  - apply Hscored. discriminate.
  - intros row Hrow. rewrite Hfull in Hrow. vm_compute in Hrow.
    apply elem_of_cons in Hrow as [->|Hrow]; [done|].
    apply elem_of_cons in Hrow as [->|Hrow]; [done|].
    by apply elem_of_nil in Hrow.
Defined.

End EmbeddingsProps.

(** ** Workflow Orchestrator *)

Module WorkflowProps.
Import Schemas Workflow.

(** [time] is neither imported by [workflow.py] nor a builtin. *)
Lemma time_is_unbound : load_global "time" = Raise (NameError "time").
Proof. by vm_compute. Qed.

Lemma send_agent_message_raises `{Runtime} from_agent to_agent message r :
  _send_agent_message from_agent to_agent message r
  = Raise (NameError "time").
Proof. unfold _send_agent_message. by rewrite time_is_unbound. Qed.

Lemma with_communication_raises `{Runtime} agent next receives r :
  ∃ e, with_communication agent next receives r = Raise e.
Proof.
  unfold with_communication.
  destruct acquire_session as [[]|e]; cbn [mbind exc_bind bind]; [|eauto].
  destruct (handoff_summary agent _) as [m|e];
    cbn [mbind exc_bind bind]; [|eauto].
  rewrite send_agent_message_raises. eauto.
Qed.

Lemma ainvoke_raises `{Runtime} r : ∃ e, ainvoke r = Raise e.
Proof.
  unfold ainvoke, _complaint_reader_with_communication.
  destruct (with_communication_raises
              "complaint_reader" "complaint_sorter" false r) as [e ->].
  cbn [mbind exc_bind bind]. eauto.
Qed.

(** A provider outage never reaches an agent as an exception: every
    operation of the LLM service answers with the empty dictionary. *)
Lemma llm_outage_is_absorbed `{LLM.Provider} (text : string) :
  (∀ op, ∃ e, LLM.complete_json op text = Raise e) →
  LLM.extract_entities text = ∅ ∧ LLM.classify_complaint text = ∅ ∧
  LLM.generate_solution text = ∅ ∧ LLM.analyze_sentiment text = ∅.
Proof.
  intros Hdown.
  unfold LLM.extract_entities, LLM.classify_complaint,
    LLM.generate_solution, LLM.analyze_sentiment.
  repeat split;
    match goal with
    | |- context [LLM.complete_json ?op text] =>
        by destruct (Hdown op) as [e ->]
    end.
Qed.

(** X22: By itself an agent's [process] never raises and records exactly
    what happened.  When the work raised, one "failed" step with the
    message of the exception and one entry in [errors]; when the work and
    the progress message both succeed, one "success" step and no error;
    when the work succeeds and the progress message (formatted after the
    success step was recorded) raises, that "success" step followed by a
    "failed" step, and one entry in [errors]. *)
Lemma agent_process_records_step `{Runtime} agent st :
  let work := agent_work agent st in
  let succeeded :=
    {| step_agent := agent; step_status := "success"; step_error := None |} in
  let failed e :=
    {| step_agent := agent; step_status := "failed";
       step_error := Some (exn_message e) |} in
  let recorded :=
    set_steps_errors work.1 (processing_steps work.1 ++ [succeeded])
      (errors work.1) in
  processing_steps (agent_process agent st)
  = processing_steps work.1 ++
      match work.2, agent_announce agent recorded with
      | Some e, _ => [failed e]
      | None, Ok _ => [succeeded]
      | None, Raise e => [succeeded; failed e]
      end ∧
  errors (agent_process agent st)
  = errors work.1 ++
      match work.2, agent_announce agent recorded with
      | Some e, _ | None, Raise e => [agent +:+ ": " +:+ exn_message e]
      | None, Ok _ => []
      end.
Proof.
  cbv zeta. unfold agent_process.
  destruct (agent_work agent st) as [st' [e| ]]; cbn [fst snd].
  - done.
  - destruct (agent_announce agent _) as [m|e].
    + cbn [set_messages set_steps_errors processing_steps errors].
      by rewrite app_nil_r.
    + cbn [record_failure set_steps_errors processing_steps errors].
      by rewrite <- app_assoc.
Qed.

(** C1 (what the code does): whatever the session factory, the agents and
    the formatters do, [process_complaint] returns, and what it returns is
    the failure dictionary: status "failed", an empty list of processing
    steps and no [errors] entry, because the first node ends in a
    [NameError] on [time]. *)
Theorem process_complaint_always_fails `{Runtime}
    (complaint_id : Z) (narrative tenant_id user_id : string) :
  let result := process_complaint complaint_id narrative tenant_id user_id in
  (∃ e, result = failure_dict complaint_id e) ∧
  result !! "workflow_status" = Some (VStr "failed") ∧
  result !! "processing_steps" = Some (VList []) ∧
  result !! "errors" = None ∧
  @process_complaint healthy_runtime complaint_id narrative tenant_id user_id
  = failure_dict complaint_id (NameError "time").
Proof.
  cbv zeta. unfold process_complaint.
  destruct (ainvoke_raises
              (initial_state complaint_id narrative tenant_id user_id, []))
    as [e ->].
  cbn [mbind exc_bind bind try_except].
  split; [by exists e|]. repeat split.
Qed.

End WorkflowProps.

(** ** Complaint endpoints *)

Module ComplaintsProps.
Import Database Schemas Workflow Complaints.

(** [process_complaint] hands back the final state or the failure
    dictionary, never the summary it compiles in between. *)
Lemma process_complaint_cases `{Runtime} cid narrative tenant user :
  (∃ st, process_complaint cid narrative tenant user = state_dict st) ∨
  (∃ e, process_complaint cid narrative tenant user = failure_dict cid e).
Proof.
  unfold process_complaint.
  destruct (ainvoke _) as [[st log]|e]; cbn [mbind exc_bind bind try_except];
    eauto.
Qed.

Lemma state_dict_has_no_results (st : ComplaintState) :
  state_dict st !! "results" = None.
Proof. reflexivity. Qed.

Lemma analysis_of_state_dict cid (st : ComplaintState) :
  analysis_of_workflow_result cid (state_dict st) = Ok (empty_analysis cid).
Proof.
  unfold analysis_of_workflow_result, get_or.
  by rewrite state_dict_has_no_results.
Qed.

(** Read from the summary that [process_complaint] compiles and does not
    return, the same expression yields the run's five fields. *)
Lemma analysis_of_result_summary :
  analysis_of_workflow_result 7 (result_summary 7 populated_state)
  = Ok {| an_complaint_id := 7;
          an_entities := VDict (entities populated_state);
          an_classification := VDict (classification populated_state);
          an_risk_assessment := VDict (risk_assessment populated_state);
          an_similar_complaints :=
            VList (VDict <$> similar_complaints populated_state);
          an_benchmarks := VDict (benchmarks populated_state) |}.
Proof. by vm_compute. Qed.

Lemma analysis_of_failure_dict cid cid' e :
  analysis_of_workflow_result cid (failure_dict cid' e)
  = Ok (empty_analysis cid).
Proof. reflexivity. Qed.

(** Reading a relationship of a row loaded through the request's session
    raises. *)
Lemma labels_not_loaded (db : Database.t) (c : ComplaintRaw) :
  read_relationship AsyncSessionLocal labels_loading (labels_of db c)
  = Raise (OtherError "MissingGreenlet").
Proof. reflexivity. Qed.

Lemma analysis_of_found_complaint `{Runtime}
    (complaint_id : Z) (db : Database.t) (current_user : User)
    (complaint : ComplaintRaw) :
  scalar_one_or_none
    (filter (fun c => c_id c = complaint_id
                      ∧ c_tenant_id c = u_tenant_id current_user)
            (complaints_raw db)) = Ok (Some complaint) →
  get_complaint_analysis complaint_id db current_user
  = Raise (HTTPException 500 "Failed to retrieve complaint analysis" []).
Proof.
  intros Hfound. unfold get_complaint_analysis, analysis_of_complaint.
  rewrite Hfound. cbn [mbind exc_bind bind]. by rewrite labels_not_loaded.
Qed.

(** C2 (what the code does): for a complaint of the caller's tenant (with
    no label and no risk score, or with any), the endpoint answers 500
    "Failed to retrieve complaint analysis" and the workflow is not run:
    [complaint.labels] is a lazily loaded relationship read from a row of
    an [AsyncSession].  Were the two relationships loaded, the endpoint
    would run the workflow for a complaint without label or without risk
    score and answer with empty placeholders in all five fields, whatever
    the workflow produced: the analysis is read from a ["results"] entry
    that the final state does not have and that the failure dictionary
    leaves empty. *)
Theorem get_complaint_analysis_fails `{Runtime}
    (complaint_id : Z) (db : Database.t) (current_user : User)
    (complaint : ComplaintRaw) :
  scalar_one_or_none
    (filter (fun c => c_id c = complaint_id
                      ∧ c_tenant_id c = u_tenant_id current_user)
            (complaints_raw db)) = Ok (Some complaint) →
  get_complaint_analysis complaint_id db current_user
  = Raise (HTTPException 500 "Failed to retrieve complaint analysis" []) ∧
  (labels_of db complaint = [] ∨ risk_scores_of db complaint = [] →
   analysis_of_complaint complaint_id current_user complaint
     (Ok (labels_of db complaint)) (Ok (risk_scores_of db complaint))
   = Ok (empty_analysis complaint_id)) ∧
  (∀ st, analysis_of_workflow_result complaint_id (state_dict st)
         = Ok (empty_analysis complaint_id)) ∧
  analysis_of_workflow_result 7 (state_dict populated_state)
  = Ok (empty_analysis 7) ∧
  entities populated_state !! "product" = Some (VStr "credit_card").
Proof.
  intros Hfound.
  split; [by apply (analysis_of_found_complaint _ _ _ complaint)|].
  split; [|split; [apply analysis_of_state_dict|by split]].
  intros Hnone. unfold analysis_of_complaint. cbn [mbind exc_bind bind].
  assert (Hrun :
    (if bool_decide (labels_of db complaint = []) then Ok true
     else Ok (bool_decide (risk_scores_of db complaint = [])))
    = Ok true).
  { destruct Hnone as [-> | ->]; [done|]. by case_bool_decide. }
  rewrite Hrun.
  destruct (process_complaint_cases complaint_id (c_narrative complaint)
              (u_tenant_id current_user) (u_id current_user))
    as [[st ->]|[e ->]].
  - by rewrite analysis_of_state_dict.
  - by rewrite analysis_of_failure_dict.
Qed.

Lemma get_complaint_analysis_fails_witness :
  @get_complaint_analysis healthy_runtime 7 unanalysed_db Auth.alice
  = Raise (HTTPException 500 "Failed to retrieve complaint analysis" []).
Proof.
  eapply (@get_complaint_analysis_fails healthy_runtime
            7 unanalysed_db Auth.alice). reflexivity.
Defined.

End ComplaintsProps.

(** ** User administration *)

Module AdminUsersProps.
Import Database Admin AdminUsers.

Lemma set_role_target (us : list User) (x : User) (role : string) :
  x ∈ us → with_role x role ∈ set_role (u_id x) role us.
Proof.
  intros Hx. unfold set_role.
  apply (list_elem_of_fmap_2
           (fun u => if bool_decide (u_id u = u_id x) then with_role u role
                     else u)) in Hx.
  by rewrite bool_decide_eq_true_2 in Hx.
Qed.


Lemma filter_none {A} (P : A → Prop) `{∀ x, Decision (P x)} (l : list A) :
  (∀ x, x ∈ l → ¬ P x) → filter P l = [].
Proof.
  induction l as [ |a l IH]; intros Hno; [done|].
  rewrite filter_cons, decide_False by (apply Hno; by left).
  apply IH. intros x Hx. apply Hno. by right.
Qed.

Lemma key_injective {A K} (f : A → K) (l : list A) (x y : A) :
  NoDup (f <$> l) → x ∈ l → y ∈ l → f x = f y → x = y.
Proof.
  induction l as [ |a l IH]; intros Hnd Hx Hy Hf; [by inversion Hx|].
  rewrite fmap_cons in Hnd. apply NoDup_cons in Hnd as [Ha Hl].
  apply elem_of_cons in Hx as [->|Hx]; apply elem_of_cons in Hy as [->|Hy];
    try done.
  - exfalso. apply Ha. rewrite Hf. by apply list_elem_of_fmap_2.
  - exfalso. apply Ha. rewrite <- Hf. by apply list_elem_of_fmap_2.
  - by apply IH.
Qed.

(** With unique primary keys, a user id of another tenant is not found by
    the tenant-scoped lookup. *)
Lemma lookup_other_tenant (us : list User) (x : User) (tenant : string) :
  NoDup (u_id <$> us) → x ∈ us → u_tenant_id x ≠ tenant →
  filter (fun u => u_id u = u_id x ∧ u_tenant_id u = tenant) us = [].
Proof.
  intros Hnd Hx Ht. apply filter_none. intros u Hu [Hid Hten].
  apply Ht. by rewrite <- (key_injective u_id us u x Hnd Hu Hx Hid).
Qed.

(** X1: Tenant isolation of user management: naming the id of a user of another
    tenant is answered like an unknown id, with 404 "User not found" (403
    when the caller is no admin or regulator), by both the deactivation and
    the role endpoint, and the tables are left as they were. *)
Theorem user_management_tenant_isolation
    (db : Database.t) (caller target : User) (role : string) :
  NoDup (u_id <$> users db) →
  target ∈ users db →
  u_tenant_id target ≠ u_tenant_id caller →
  let answer :=
    if bool_decide (u_role caller ∈ ["admin"; "regulator"])
    then HTTPException 404 "User not found" []
    else HTTPException 403 "Admin access required" [] in
  delete_user_endpoint (u_id target) db caller = (Raise answer, db) ∧
  update_user_role_endpoint (u_id target) role db caller = (Raise answer, db) ∧
  (∀ unknown, unknown ∉ u_id <$> users db →
     delete_user_endpoint unknown db caller = (Raise answer, db) ∧
     update_user_role_endpoint unknown role db caller = (Raise answer, db)).
Proof.
  intros Hnd Ht Hten. cbv zeta.
  unfold delete_user_endpoint, update_user_role_endpoint, require_admin_role.
  case_bool_decide; cbn [negb].
  - unfold deactivate_user, update_user_role.
    rewrite (lookup_other_tenant _ target _ Hnd Ht Hten).
    cbn [scalar_one_or_none]. split; [done|]. split; [done|].
    intros unknown Hun.
    by rewrite (AdminProps.lookup_by_id_absent _ _ _ Hun).
  - done.
Qed.

Lemma user_management_tenant_isolation_witness :
  let outsider :=
    {| u_id := "u-9"; u_email := "eve@example.org";
       u_hashed_password := "x"; u_tenant_id := "globex";
       u_role := "admin"; u_is_active := true |} in
  delete_user_endpoint "u-2" Auth.one_tenant_db outsider
  = (Raise (HTTPException 404 "User not found" []), Auth.one_tenant_db) ∧
  update_user_role_endpoint "u-2" "admin" Auth.one_tenant_db outsider
  = (Raise (HTTPException 404 "User not found" []), Auth.one_tenant_db).
Proof.
  cbv zeta.
  destruct (user_management_tenant_isolation Auth.one_tenant_db
              {| u_id := "u-9"; u_email := "eve@example.org";
                 u_hashed_password := "x"; u_tenant_id := "globex";
                 u_role := "admin"; u_is_active := true |}
              Auth.bob "admin") as (H1 & H2 & _).
  - apply (bool_decide_unpack _). by vm_compute.
  - vm_compute. apply list_elem_of_further, list_elem_of_here.
  - discriminate.
  - split; [exact H1|exact H2].
Defined.



(** X3: Unlike deactivation, the role endpoint has no guard against the caller
    naming their own id: an admin or regulator can set their own role to
    consumer or analyst, and the row stored afterwards no longer passes
    [require_admin_role]. *)
Theorem update_user_role_self_demotion
    (db : Database.t) (caller : User) (new_role : string) :
  NoDup (u_id <$> users db) →
  caller ∈ users db →
  u_role caller ∈ ["admin"; "regulator"] →
  new_role ∈ ["consumer"; "analyst"] →
  ∃ db',
    update_user_role_endpoint (u_id caller) new_role db caller
    = (Ok {| role_message := "User role updated successfully";
             role_user_id := u_id caller; new_role_set := new_role |}, db') ∧
    with_role caller new_role ∈ users db' ∧
    Forall (fun v => u_id v = u_id caller → u_role v = new_role) (users db') ∧
    require_admin_role (with_role caller new_role)
    = Raise (HTTPException 403 "Admin access required" []) ∧
    delete_user_endpoint (u_id caller) db caller
    = (Raise (HTTPException 400 "Cannot deactivate your own account" []), db).
Proof.
  intros Hnd Hc Hrole Hnew.
  assert (Hcases : new_role = "consumer" ∨ new_role = "analyst").
  { apply elem_of_cons in Hnew as [?|Hnew]; [by left|].
    apply elem_of_cons in Hnew as [?|Hnew]; [by right|].
    by apply elem_of_nil in Hnew. }
  assert (Hvalid : new_role ∈ valid_roles).
  { destruct Hcases as [-> | ->]; apply (bool_decide_unpack _); by vm_compute. }
  assert (Hnot : new_role ∉ ["admin"; "regulator"]).
  { destruct Hcases as [-> | ->]; apply (bool_decide_unpack _); by vm_compute. }
  unfold update_user_role_endpoint, delete_user_endpoint, require_admin_role.
  rewrite (bool_decide_eq_true_2 _ Hrole). cbn [negb].
  unfold update_user_role, deactivate_user.
  rewrite (AdminProps.lookup_by_id_unique _ caller _ Hnd Hc eq_refl).
  cbn [scalar_one_or_none].
  rewrite (bool_decide_eq_true_2 _ Hvalid). cbn [negb].
  eexists. split; [reflexivity|].
  cbn [users add_audit_log with_users with_role u_role].
  split; [by apply set_role_target|]. split.
  - unfold set_role. apply Forall_fmap, Forall_forall. intros v _. simpl.
    case_bool_decide; [done|]. intros. done.
  - rewrite (bool_decide_eq_false_2 _ Hnot).
    by rewrite bool_decide_eq_true_2.
Qed.

Lemma update_user_role_self_demotion_witness :
  (update_user_role_endpoint "u-1" "consumer" Auth.one_tenant_db Auth.alice).1
  = Ok {| role_message := "User role updated successfully";
          role_user_id := "u-1"; new_role_set := "consumer" |} ∧
  u_role <$> users
    (update_user_role_endpoint "u-1" "consumer" Auth.one_tenant_db
       Auth.alice).2
  = ["consumer"; "consumer"].
Proof.
  destruct (update_user_role_self_demotion Auth.one_tenant_db Auth.alice
              "consumer") as (db' & H1 & _).
  - apply (bool_decide_unpack _). by vm_compute.
  - vm_compute. apply list_elem_of_here.
  - vm_compute. apply list_elem_of_here.
  - apply list_elem_of_here.
  - change (u_id Auth.alice) with "u-1" in H1.
    split; [by rewrite H1|reflexivity].
Defined.

End AdminUsersProps.

(** ** Sessions and registration *)

Module AuthSessionProps.
Import Database Auth Admin AuthSession.

(** A lookup whose condition determines a unique key returns exactly the
    row that satisfies it. *)
Lemma filter_unique_key {A K} (f : A → K) (P : A → Prop)
    `{∀ x, Decision (P x)} (l : list A) (x : A) :
  NoDup (f <$> l) → x ∈ l → P x → (∀ y, y ∈ l → P y → f y = f x) →
  filter P l = [x].
Proof.
  induction l as [ |a l IH]; intros Hnd Hx HP Hkey; [by inversion Hx|].
  rewrite fmap_cons in Hnd. apply NoDup_cons in Hnd as [Ha Hl].
  rewrite filter_cons. apply elem_of_cons in Hx as [->|Hx].
  - rewrite decide_True by done. f_equal.
    apply AdminUsersProps.filter_none. intros y Hy HPy. apply Ha.
    rewrite <- (Hkey y) by (by try right). by apply list_elem_of_fmap_2.
  - rewrite decide_False.
    + apply IH; try done. intros y Hy. apply Hkey. by right.
    + intros HPa. apply Ha. rewrite (Hkey a) by (by try left).
      by apply list_elem_of_fmap_2.
Qed.

Lemma get_user_by_email_found db (u : User) :
  NoDup (u_email <$> users db) → u ∈ users db → u_is_active u = true →
  get_user_by_email db (u_email u) (u_tenant_id u) = Ok (Some u).
Proof.
  intros Hnd Hu Hact. unfold get_user_by_email.
  rewrite (filter_unique_key u_email _ (users db) u); try done.
  by intros y _ (? & _).
Qed.

Lemma get_user_by_email_inv db email tenant_id (u : User) :
  get_user_by_email db email tenant_id = Ok (Some u) →
  u ∈ users db ∧ u_email u = email ∧ u_tenant_id u = tenant_id
  ∧ u_is_active u = true.
Proof.
  unfold get_user_by_email. intros H.
  assert (Hx : u ∈ filter (fun u => u_email u = email
                                     ∧ u_tenant_id u = tenant_id
                                     ∧ u_is_active u = true) (users db)).
  { destruct (filter _ (users db)) as [ |y [ |z l]]; simplify_eq/=.
    apply list_elem_of_here. }
  apply list_elem_of_filter in Hx as [(? & ? & ?) ?]. done.
Qed.

Lemma login_user_inv `{Env} (data : UserLogin) db (tok : Token) :
  login_user data db = Ok tok →
  ∃ u, tok = issue_token u ∧
       get_user_by_email db (login_email data) (login_tenant_id data)
       = Ok (Some u).
Proof.
  unfold login_user, authenticate_user. intros Hlog.
  destruct (get_user_by_email db _ _) as [[u| ]|e];
    cbn [mbind exc_bind bind reraise_as_500] in Hlog;
    [|done|by destruct e].
  exists u. split; [|done].
  destruct (verify_password _ _) as [[]|e];
    cbn [mbind exc_bind bind reraise_as_500 negb] in Hlog;
    [|done|by destruct e].
  unfold token_response in Hlog.
  case_bool_decide; cbn [reraise_as_500] in Hlog; [congruence|done].
Qed.

(** X5: The successful login: with unique emails, an active user whose
    stored role is a value of [UserRole] and who presents a password that
    verifies against the stored hash receives a bearer token that names
    their own id, tenant and role and expires after the configured number
    of minutes; when the stored role is not a value of [UserRole], the
    token fails validation and the answer is 500 "Login failed".  The same
    email and password presented for any other tenant are refused with
    401. *)
Theorem login_token_carries_identity `{Env}
    (db : Database.t) (u : User) (pw : string) :
  NoDup (u_email <$> users db) →
  u ∈ users db →
  u_is_active u = true →
  verify_password pw (u_hashed_password u) = Ok true →
  (u_role u ∈ user_roles →
   ∃ tok,
     login_user {| login_email := u_email u; login_password := pw;
                   login_tenant_id := u_tenant_id u |} db = Ok tok ∧
     token_user_id tok = u_id u ∧ token_tenant_id tok = u_tenant_id u ∧
     token_role tok = u_role u ∧ token_type tok = "bearer" ∧
     expires_in tok = (ACCESS_TOKEN_EXPIRE_MINUTES * 60)%Z ∧
     access_token tok
     = jwt_encode [("sub", u_id u); ("tenant_id", u_tenant_id u);
                   ("role", u_role u)] ACCESS_TOKEN_EXPIRE_MINUTES) ∧
  (u_role u ∉ user_roles →
   login_user {| login_email := u_email u; login_password := pw;
                 login_tenant_id := u_tenant_id u |} db
   = Raise (HTTPException 500 "Login failed" [])) ∧
  (∀ other, other ≠ u_tenant_id u →
     login_user {| login_email := u_email u; login_password := pw;
                   login_tenant_id := other |} db
     = Raise (HTTPException 401 "Incorrect credentials" [])).
Proof.
  intros Hnd Hu Hact Hpw.
  assert (Hlogin :
    login_user {| login_email := u_email u; login_password := pw;
                  login_tenant_id := u_tenant_id u |} db
    = reraise_as_500 "Login failed" (token_response u)).
  { unfold login_user, authenticate_user.
    cbn [login_email login_password login_tenant_id].
    rewrite (get_user_by_email_found db u Hnd Hu Hact).
    cbn [mbind exc_bind bind]. by rewrite Hpw. }
  split; [|split].
  - intros Hrole. exists (issue_token u). split; [|done].
    rewrite Hlogin. unfold token_response.
    by rewrite (bool_decide_eq_true_2 _ Hrole).
  - intros Hrole. rewrite Hlogin. unfold token_response.
    by rewrite (bool_decide_eq_false_2 _ Hrole).
  - intros other Hother. unfold login_user, authenticate_user.
    cbn [login_email login_password login_tenant_id].
    rewrite AuthProps.get_user_by_email_none; [done|].
    intros v Hv Hemail Hten. exfalso. apply Hother.
    by rewrite <- (AdminUsersProps.key_injective u_email _ v u Hnd Hv Hu Hemail).
Qed.

Lemma login_token_carries_identity_witness :
  @login_user plain_env
    {| login_email := "alice@example.com";
       login_password := "correct horse"; login_tenant_id := "acme" |}
    one_tenant_db
  = Ok (@issue_token plain_env alice) ∧
  @login_user plain_env
    {| login_email := "alice@example.com";
       login_password := "correct horse"; login_tenant_id := "globex" |}
    one_tenant_db
  = Raise (HTTPException 401 "Incorrect credentials" []) ∧
  @login_user plain_env
    {| login_email := "mallory@example.com";
       login_password := "hunter2"; login_tenant_id := "acme" |}
    odd_role_db
  = Raise (HTTPException 500 "Login failed" []).
Proof.
  destruct (@login_token_carries_identity plain_env one_tenant_db alice
              "correct horse") as (_ & _ & H2).
  - apply (bool_decide_unpack _). by vm_compute.
  - apply list_elem_of_here.
  - reflexivity.
  - reflexivity.
  - destruct (@login_token_carries_identity plain_env odd_role_db mallory
                "hunter2") as (_ & H3 & _).
    + apply (bool_decide_unpack _). by vm_compute.
    + apply list_elem_of_further, list_elem_of_here.
    + reflexivity.
    + reflexivity.
    + split; [reflexivity|]. split; [apply (H2 "globex"); discriminate|].
      apply H3. apply (bool_decide_unpack _). by vm_compute.
Defined.

(** X6: Login followed by an authenticated request: when the decoder reads back
    the two claims the encoder was given, [get_current_user] resolves the
    token issued by [login_user] to the user who logged in, a row of the
    users table with the id, tenant and role the token response names. *)
Theorem login_then_current_user `{Env} `{Codec}
    (db : Database.t) (data : UserLogin) (tok : Token) :
  NoDup (u_id <$> users db) →
  login_user data db = Ok tok →
  jwt_decode (access_token tok)
  = Some {| sub := Some (token_user_id tok);
            claimed_tenant_id := Some (token_tenant_id tok) |} →
  ∃ u,
    get_current_user (access_token tok) db = Ok u ∧
    u ∈ users db ∧ u_is_active u = true ∧
    u_email u = login_email data ∧ u_tenant_id u = login_tenant_id data ∧
    u_id u = token_user_id tok ∧ u_tenant_id u = token_tenant_id tok ∧
    u_role u = token_role tok.
Proof.
  intros Hnd Hlog Hdec.
  apply login_user_inv in Hlog as (u & -> & Hget).
  apply get_user_by_email_inv in Hget as (Hu & Hemail & Hten & Hact).
  exists u. split; [|done].
  unfold get_current_user. rewrite Hdec.
  cbn [sub claimed_tenant_id issue_token token_user_id token_tenant_id].
  rewrite (filter_unique_key u_id _ (users db) u); try done.
  by intros y _ (? & _).
Qed.

Lemma login_then_current_user_witness :
  (tok ← @login_user plain_env
           {| login_email := "alice@example.com";
              login_password := "correct horse";
              login_tenant_id := "acme" |} one_tenant_db;
   @get_current_user plain_codec (access_token tok) one_tenant_db)
  = Ok alice.
Proof.
  destruct (@login_then_current_user plain_env plain_codec one_tenant_db
              {| login_email := "alice@example.com";
                 login_password := "correct horse";
                 login_tenant_id := "acme" |}
              (@issue_token plain_env alice)) as (u & Hu & _).
  - apply (bool_decide_unpack _). by vm_compute.
  - reflexivity.
  - reflexivity.
  - reflexivity.
Defined.

(** X7: What [get_current_user] accepts: it answers with a user only for a
    token that decodes to both claims, and then with an active row of the
    users table that has exactly that id and tenant; a token that does not
    decode, or that lacks a claim, is answered with 401. *)
Theorem get_current_user_accepts_only_active `{Codec}
    (token : string) (db : Database.t) :
  match get_current_user token db with
  | Ok u =>
      u ∈ users db ∧ u_is_active u = true ∧
      ∃ payload, jwt_decode token = Some payload ∧
                 sub payload = Some (u_id u) ∧
                 claimed_tenant_id payload = Some (u_tenant_id u)
  | Raise e =>
      e = credentials_exception ∨
      (e = MultipleResultsFound ∧ ∃ payload, jwt_decode token = Some payload)
  end ∧
  (jwt_decode token = None ∨
   (∃ payload, jwt_decode token = Some payload ∧
               (sub payload = None ∨ claimed_tenant_id payload = None)) →
   get_current_user token db = Raise credentials_exception).
Proof.
  unfold get_current_user. split.
  - destruct (jwt_decode token) as [[[uid| ] [ten| ]]| ];
      cbn [sub claimed_tenant_id]; auto.
    destruct (filter _ (users db)) as [ |y [ |z l]] eqn:E;
      cbn [scalar_one_or_none mbind exc_bind bind]; eauto.
    assert (Hy : y ∈ filter (fun u => u_id u = uid ∧ u_tenant_id u = ten
                                       ∧ u_is_active u = true) (users db))
      by (rewrite E; apply list_elem_of_here).
    apply list_elem_of_filter in Hy as [(<- & <- & ?) ?].
    repeat (split; [done|]). eexists. split; [reflexivity|]. done.
  - intros [->|(payload & -> & [Hs|Ht])]; [done| |].
    + by rewrite Hs.
    + rewrite Ht. by destruct (sub payload).
Qed.

(** X8: Deactivation locks the account out: after an admin or regulator has
    deactivated a user of their tenant, every login with that user's email
    and tenant is refused with 401 whatever the password, and every token
    whose subject is that user's id is refused with 401 by
    [get_current_user]. *)
Theorem deactivated_user_locked_out
    (db : Database.t) (caller target : User) :
  NoDup (u_id <$> users db) →
  NoDup (u_email <$> users db) →
  caller ∈ users db →
  u_role caller ∈ ["admin"; "regulator"] →
  target ∈ users db →
  u_tenant_id target = u_tenant_id caller →
  u_id target ≠ u_id caller →
  let db' := (delete_user_endpoint (u_id target) db caller).2 in
  (∀ (E : Env) pw,
     login_user {| login_email := u_email target; login_password := pw;
                   login_tenant_id := u_tenant_id target |} db'
     = Raise (HTTPException 401 "Incorrect credentials" [])) ∧
  (∀ (C : Codec) token tenant,
     jwt_decode token
     = Some {| sub := Some (u_id target); claimed_tenant_id := tenant |} →
     get_current_user token db' = Raise credentials_exception).
Proof.
  intros Hids Hemails Hc Hrole Ht Hten Hne. cbv zeta.
  unfold delete_user_endpoint, require_admin_role.
  rewrite (bool_decide_eq_true_2 _ Hrole). cbn [negb].
  unfold deactivate_user.
  rewrite (AdminProps.lookup_by_id_unique _ target _ Hids Ht Hten).
  cbn [scalar_one_or_none]. rewrite bool_decide_eq_false_2 by done.
  cbn [snd add_audit_log with_users].
  assert (Hoff : ∀ v, v ∈ set_inactive (u_id target) (users db) →
                      u_id v = u_id target → u_is_active v = false).
  { intros v Hv Hid. unfold set_inactive in Hv.
    apply list_elem_of_fmap in Hv as (w & -> & Hw).
    case_bool_decide as Hw'; [done|]. by destruct Hw'. }
  split.
  - intros E pw. unfold login_user, authenticate_user.
    cbn [login_email login_password login_tenant_id].
    rewrite AuthProps.get_user_by_email_none; [done|].
    cbn [users]. intros v Hv Hemail _.
    pose proof Hv as Hv'. unfold set_inactive in Hv'.
    apply list_elem_of_fmap in Hv' as (w & Hvw & Hw).
    case_bool_decide as Hid; [by rewrite Hvw|]. subst v.
    destruct Hid.
    by rewrite (AdminUsersProps.key_injective u_email _ w target
                  Hemails Hw Ht Hemail).
  - intros C token tenant Hdec. unfold get_current_user. rewrite Hdec.
    cbn [sub claimed_tenant_id users]. destruct tenant as [ten| ]; [|done].
    rewrite AdminUsersProps.filter_none; [done|].
    intros v Hv (Hid & _ & Hact). rewrite (Hoff v Hv Hid) in Hact. done.
Qed.

Lemma deactivated_user_locked_out_witness :
  @login_user plain_env
    {| login_email := "bob@example.com"; login_password := "battery staple";
       login_tenant_id := "acme" |}
    (delete_user_endpoint "u-2" one_tenant_db alice).2
  = Raise (HTTPException 401 "Incorrect credentials" []).
Proof.
  destruct (deactivated_user_locked_out one_tenant_db alice bob) as [H1 _].
  - apply (bool_decide_unpack _). by vm_compute.
  - apply (bool_decide_unpack _). by vm_compute.
  - apply list_elem_of_here.
  - apply list_elem_of_here.
  - apply list_elem_of_further, list_elem_of_here.
  - reflexivity.
  - discriminate.
  - apply (H1 plain_env "battery staple").
Defined.

(** X9: Registration followed by login: when [register_user] succeeds, the
    stored account has the role the request asked for (the endpoint takes
    no caller, so an admin account is created for whoever asks), and a
    login with the registered email, password and tenant yields a token of
    that role, provided the password verifies against its own hash. *)
Theorem register_then_login `{Env} `{Codec}
    (user_data : UserCreate) (tenants : list Tenant) (db db' : Database.t)
    (response : UserSchema) (hashed : string) :
  register_user user_data tenants db = (Ok response, db') →
  get_password_hash (new_password user_data) = Ok hashed →
  verify_password (new_password user_data) hashed = Ok true →
  schema_role response = role_value (new_role user_data) ∧
  schema_is_active response = true ∧
  (∃ tenant, tenant ∈ tenants ∧ t_id tenant = new_tenant_id user_data
             ∧ t_is_active tenant = true) ∧
  (∃ u, users db' = users db ++ [u] ∧ u_id u = schema_id response ∧
        u_email u = new_email user_data ∧
        u_role u = role_value (new_role user_data) ∧
        (new_role user_data = ADMIN ∨ new_role user_data = REGULATOR →
         require_admin_role u = Ok u)) ∧
  ∃ tok,
    login_user {| login_email := new_email user_data;
                  login_password := new_password user_data;
                  login_tenant_id := new_tenant_id user_data |} db' = Ok tok ∧
    token_user_id tok = schema_id response ∧
    token_role tok = role_value (new_role user_data).
Proof.
  intros Hreg Hhash Hver. unfold register_user, register_body in Hreg.
  destruct (get_user_by_email db _ _) as [[x| ]|e] eqn:Hget;
    cbn [mbind exc_bind bind reraise_as_500] in Hreg;
    [done| |by destruct e].
  destruct (scalar_one_or_none (filter _ tenants)) as [[t| ]|e] eqn:Hten;
    cbn [mbind exc_bind bind reraise_as_500] in Hreg;
    [ |done|by destruct e].
  rewrite Hhash in Hreg. cbn [mbind exc_bind bind] in Hreg.
  unfold add_user in Hreg.
  destruct (bool_decide (_ ∈ u_id <$> users db)
            || bool_decide (_ ∈ u_email <$> users db)) eqn:Hfresh;
    cbn [mbind exc_bind bind reraise_as_500 u_id u_email] in Hreg; [done|].
  apply orb_false_iff in Hfresh as [_ Hemail%bool_decide_eq_false].
  cbn [u_email] in Hemail.
  injection Hreg as <- <-.
  cbn [schema_role schema_is_active schema_id u_role u_is_active u_id
       with_users users].
  split; [done|]. split; [done|]. split.
  { assert (Ht : t ∈ filter (fun t => t_id t = new_tenant_id user_data
                                      ∧ t_is_active t = true) tenants).
    { destruct (filter _ tenants) as [ |y [ |z l]]; simplify_eq/=.
      apply list_elem_of_here. }
    apply list_elem_of_filter in Ht as [[? ?] ?]. by exists t. }
  split.
  { eexists. split; [reflexivity|]. cbn [u_id u_email u_role].
    repeat (split; [done|]).
    intros Hrole. unfold require_admin_role. cbn [u_role].
    by destruct Hrole as [-> | ->]. }
  exists (issue_token
            {| u_id := uuid4; u_email := new_email user_data;
               u_hashed_password := hashed;
               u_tenant_id := new_tenant_id user_data;
               u_role := role_value (new_role user_data);
               u_is_active := true |}).
  split; [|split; reflexivity].
  unfold login_user, authenticate_user, get_user_by_email.
  cbn [login_email login_password login_tenant_id].
  unfold with_users. cbn [users].
  rewrite filter_app, filter_cons, filter_nil.
  rewrite AdminUsersProps.filter_none.
  2:{ intros v Hv (He & _). apply Hemail. rewrite <- He.
      by apply list_elem_of_fmap_2. }
  rewrite decide_True by done.
  cbn [app scalar_one_or_none mbind exc_bind bind u_hashed_password].
  rewrite Hver. cbn [negb mbind exc_bind bind]. unfold token_response.
  cbn [u_role].
  rewrite bool_decide_eq_true_2; [reflexivity|].
  destruct (new_role user_data); apply (bool_decide_unpack _); by vm_compute.
Qed.

Lemma register_then_login_witness :
  ∃ tok,
    @login_user plain_env
      {| login_email := "carol@example.com";
         login_password := "tr0ub4dor&3"; login_tenant_id := "acme" |}
      (@register_user plain_codec carol_request [acme] one_tenant_db).2
    = Ok tok ∧ token_role tok = "admin".
Proof.
  destruct (@register_then_login plain_env plain_codec carol_request [acme]
              one_tenant_db
              (@register_user plain_codec carol_request [acme]
                 one_tenant_db).2
              {| schema_id := "u-3"; schema_email := "carol@example.com";
                 schema_first_name := "Carol"; schema_last_name := "C";
                 schema_tenant_id := "acme"; schema_role := "admin";
                 schema_is_active := true |}
              "tr0ub4dor&3") as (_ & _ & _ & _ & tok & Htok & _ & Hrole).
  - reflexivity.
  - reflexivity.
  - reflexivity.
  - exists tok. split; [exact Htok|exact Hrole].
Defined.

(** X10: The duplicate check of [register_user] looks only at active users of
    the requested tenant, while the email column is unique across the whole
    table: an email held by a deactivated user or by a user of another
    tenant passes the check, the insert violates the unique index, and the
    answer is 500 "Failed to register user" instead of 400 "Email already
    registered"; nothing is stored. *)
Theorem register_email_taken_elsewhere `{Codec}
    (user_data : UserCreate) (tenants : list Tenant) (db : Database.t)
    (holder : User) (tenant : Tenant) (hashed : string) :
  holder ∈ users db →
  u_email holder = new_email user_data →
  (∀ v, v ∈ users db → u_email v = new_email user_data →
        u_tenant_id v ≠ new_tenant_id user_data ∨ u_is_active v = false) →
  NoDup (t_id <$> tenants) →
  tenant ∈ tenants →
  t_id tenant = new_tenant_id user_data →
  t_is_active tenant = true →
  get_password_hash (new_password user_data) = Ok hashed →
  register_user user_data tenants db
  = (Raise (HTTPException 500 "Failed to register user" []), db).
Proof.
  intros Hin Hemail Hother Hnd Htin Htid Htact Hhash.
  unfold register_user, register_body.
  rewrite AuthProps.get_user_by_email_none.
  2:{ intros v Hv He Ht. by destruct (Hother v Hv He). }
  cbn [mbind exc_bind bind].
  rewrite (filter_unique_key t_id _ tenants tenant); try done.
  2:{ intros y _ [? _]. congruence. }
  cbn [scalar_one_or_none mbind exc_bind bind]. rewrite Hhash.
  cbn [mbind exc_bind bind]. unfold add_user. cbn [u_id u_email].
  rewrite (bool_decide_eq_true_2 (new_email user_data ∈ _)).
  2:{ rewrite <- Hemail. by apply list_elem_of_fmap_2. }
  by rewrite orb_true_r.
Qed.

Lemma register_email_taken_elsewhere_witness :
  @register_user plain_codec
    {| new_email := "bob@example.com"; new_password := "tr0ub4dor&3";
       new_first_name := "Bob"; new_last_name := "B";
       new_tenant_id := "acme"; new_role := CONSUMER |}
    [acme] (delete_user_endpoint "u-2" one_tenant_db alice).2
  = (Raise (HTTPException 500 "Failed to register user" []),
     (delete_user_endpoint "u-2" one_tenant_db alice).2).
Proof.
  apply (@register_email_taken_elsewhere plain_codec _ _ _
           (deactivated bob) acme "tr0ub4dor&3").
  - vm_compute. apply list_elem_of_further, list_elem_of_here.
  - reflexivity.
  - intros v Hv He. vm_compute in Hv.
    apply elem_of_cons in Hv as [->|Hv]; [discriminate|].
    apply elem_of_cons in Hv as [->|Hv]; [by right|].
    by apply elem_of_nil in Hv.
  - apply (bool_decide_unpack _). by vm_compute.
  - apply list_elem_of_here.
  - reflexivity.
  - reflexivity.
  - reflexivity.
Defined.

End AuthSessionProps.

(** ** Text operations *)

Module PyTextProps.
Import PyText.

Lemma append_cons (a : ascii) (s t : string) :
  String a s +:+ t = String a (s +:+ t).
Proof. reflexivity. Qed.

Lemma append_assoc (a b c : string) : (a +:+ b) +:+ c = a +:+ (b +:+ c).
Proof.
  induction a as [ |x a IH]; [done|]. by rewrite !append_cons, IH.
Qed.

Lemma starts_with_app (p r : string) : starts_with p (p +:+ r) = true.
Proof.
  induction p as [ |a p IH]; [done|].
  rewrite append_cons. simpl. by rewrite bool_decide_eq_true_2, IH.
Qed.

Lemma starts_with_inv (p s : string) :
  starts_with p s = true → ∃ r, s = p +:+ r.
Proof.
  revert s. induction p as [ |a p IH]; intros s; simpl.
  - intros _. by exists s.
  - destruct s as [ |b s]; [done|].
    intros [Hab%bool_decide_eq_true Hp]%andb_true_iff.
    destruct (IH s Hp) as [r ->]. exists r. by rewrite Hab.
Qed.

Lemma contains_of_starts_with (needle haystack : string) :
  starts_with needle haystack = true → contains needle haystack = true.
Proof. destruct haystack; simpl; by intros ->. Qed.

Lemma contains_here (needle r : string) :
  contains needle (needle +:+ r) = true.
Proof. apply contains_of_starts_with, starts_with_app. Qed.

Lemma contains_intro (needle l r : string) :
  contains needle (l +:+ needle +:+ r) = true.
Proof.
  induction l as [ |a l IH].
  - change ("" +:+ needle +:+ r) with (needle +:+ r). apply contains_here.
  - rewrite append_cons. simpl. rewrite IH. apply orb_true_r.
Qed.

Lemma contains_inv (needle haystack : string) :
  contains needle haystack = true → ∃ l r, haystack = l +:+ needle +:+ r.
Proof.
  induction haystack as [ |a h IH]; simpl.
  - rewrite orb_false_r. intros [r Hr]%starts_with_inv.
    by exists EmptyString, r.
  - intros [[r Hr]%starts_with_inv|Hc]%orb_true_iff.
    + by exists EmptyString, r.
    + destruct (IH Hc) as (l & r & ->). by exists (String a l), r.
Qed.

(** A keyword that occurs inside a word occurs in every text that contains
    the word. *)
Lemma contains_trans (a b c : string) :
  contains a b = true → contains b c = true → contains a c = true.
Proof.
  intros (l & r & ->)%contains_inv (l' & r' & ->)%contains_inv.
  replace (l' +:+ (l +:+ a +:+ r) +:+ r')
    with ((l' +:+ l) +:+ a +:+ (r +:+ r'))
    by (by rewrite !append_assoc).
  apply contains_intro.
Qed.

End PyTextProps.

(** ** Complaint Sorter Agent, classification helpers *)

Module SorterEnrichmentProps.
Import PyText SorterEnrichment.

(** X15: The confidence score: the only exception is the [AttributeError] of a
    non-string product or issue value; every score returned is a number
    between the base 0.5 and 0.9999999999999999, the binary64 sum of all
    three boosts, so the cap [min(confidence, 1.0)] never applies. *)
Theorem confidence_below_cap `{Ops} (classification entities : dict) :
  match _calculate_confidence classification entities with
  | Ok c =>
      le 0.5 c = true ∧ le c 0.9999999999999999 = true ∧ lt c 1.0 = true
      ∧ Py.min c 1.0 = c
  | Raise e => ∃ msg, e = AttributeError msg
  end.
Proof.
  unfold _calculate_confidence, any_word_in, lower_of.
  destruct (truthy (get entities "product")
            && truthy (get classification "product_category"));
  destruct (truthy (get entities "issue")
            && truthy (get classification "issue_category"));
  destruct (in_strs _ ["high"; "critical"]);
  repeat match goal with
  | |- context [match ?v with VNone => _ | _ => _ end] =>
      destruct v; cbn [mbind exc_bind bind]; try (by eexists)
  | |- context [match str_split ?s with [] => _ | _ => _ end] =>
      destruct (str_split s); cbn [mbind exc_bind bind]
  | |- context [if contains ?a ?b then _ else _] => destruct (contains a b)
  | |- context [if existsb ?f ?l then _ else _] => destruct (existsb f l)
  end;
  cbn [mbind exc_bind bind]; try (by eexists); by vm_compute.
Qed.

(** X16: Keywords are matched as substrings of the lowered narrative, not as
    words: a narrative containing any text in which a keyword of a
    regulation occurs is flagged with that regulation.  So "treatment",
    which contains "atm", flags electronic_fund_transfer. *)
Theorem regulatory_flags_match_inside_words `{Ops}
    (narrative : string) (entities : dict)
    (regulation keyword word : string) (keywords : list string) :
  (regulation, keywords) ∈ regulatory_keywords →
  keyword ∈ keywords →
  contains keyword word = true →
  contains word (str_lower narrative) = true →
  regulation ∈ _check_regulatory_flags narrative entities.
Proof.
  intros Hreg Hkw Hin Hword. unfold _check_regulatory_flags.
  apply list_elem_of_fmap. exists (regulation, keywords). split; [done|].
  apply list_elem_of_filter. split; [|done].
  apply existsb_exists. exists keyword. split.
  - by apply list_elem_of_In.
  - by apply (PyTextProps.contains_trans keyword word).
Qed.

Lemma regulatory_flags_match_inside_words_witness :
  "electronic_fund_transfer"
  ∈ @_check_regulatory_flags ascii_ops
      "i received unfair treatment from the bank" ∅ ∧
  @_check_regulatory_flags ascii_ops
    "i received unfair treatment from the bank" ∅
  = ["equal_credit_opportunity"; "electronic_fund_transfer"].
Proof.
  split; [|reflexivity].
  apply (@regulatory_flags_match_inside_words ascii_ops _ _
           "electronic_fund_transfer" "atm" "treatment"
           ["atm"; "debit card"; "electronic transfer"]).
  - apply (bool_decide_unpack _). by vm_compute.
  - apply list_elem_of_here.
  - reflexivity.
  - reflexivity.
Defined.

End SorterEnrichmentProps.

(** ** Embedding Service, storing *)

Module EmbeddingStoreProps.
Import Database Embeddings EmbeddingStore.

Lemma store_raises `{Embedder} `{Json}
    (db : Database.t) (complaint_id : Z) (text : string) :
  ∃ e, store_complaint_embedding db complaint_id text = (Raise e, db) ∧
       match create_embedding text with
       | Ok _ => e = TypeError "'str' object is not callable"
       | Raise e' => e = e'
       end.
Proof.
  unfold store_complaint_embedding.
  destruct (create_embedding text) as [v|e];
    cbn [mbind exc_bind bind]; eauto.
Qed.

(** X12: [store_complaint_embedding] never stores anything: for every embedder,
    database, complaint and text it raises and leaves the tables as they
    were.  When the embedding call itself succeeds the error is the
    [TypeError] of calling the string parameter [text]; the same name
    called in [find_similar_complaints] is the module-level function.  So a
    tenant none of whose complaints has an embedding still gets no similar
    complaints after the call. *)
Theorem store_complaint_embedding_never_stores `{Embedder} `{Json}
    (db : Database.t) (complaint_id : Z) (text : string) :
  (∃ e, store_complaint_embedding db complaint_id text = (Raise e, db) ∧
        match create_embedding text with
        | Ok _ => e = TypeError "'str' object is not callable"
        | Raise e' => e = e'
        end) ∧
  (∃ statement, find_similar_statement = Ok statement) ∧
  (∀ query_text tenant_id limit,
     Forall (fun c => c_tenant_id c = tenant_id → c_embedding c = None)
            (complaints_raw db) →
     find_similar_complaints
       (store_complaint_embedding db complaint_id text).2
       query_text tenant_id limit = []).
Proof.
  split; [|split].
  - apply store_raises.
  - by eexists.
  - intros query_text tenant_id limit Hnone.
    assert (Hdb : (store_complaint_embedding db complaint_id text).2 = db).
    { by destruct (store_raises db complaint_id text) as (e & -> & _). }
    rewrite Hdb.
    unfold find_similar_complaints, select_recent.
    destruct (create_embedding query_text); [|done].
    cbn [mbind exc_bind bind]. destruct (limit <? 0)%Z; [done|].
    cbn [mbind exc_bind bind try_except].
    assert (Hempty : where_tenant_embedded tenant_id
                       (left_join (complaints_raw db) (risk_scores db)) = []).
    { unfold where_tenant_embedded. apply AdminUsersProps.filter_none.
      intros row Hrow [Hten Hemb].
      apply EmbeddingsProps.left_join_origin in Hrow as [Hc _].
      rewrite Forall_forall in Hnone. by apply Hemb, Hnone. }
    rewrite Hempty. simpl. by rewrite take_nil.
Qed.

End EmbeddingStoreProps.

(** ** Complaint Reader Agent *)

Module ComplaintReaderProps.
Import Schemas PyText ComplaintReader.

(** X13: Given a database session, the reader always fails: its embedding step
    raises, so for every analyzer, provider, embedder and state the
    returned state carries one more processing step, with status "failed",
    and one more error, while entities, sentiment, metadata, the redacted
    narrative and the messages are what they were; the tables are
    unchanged. *)
Theorem reader_fails_with_session `{Presidio} `{Ops} `{LLM.Provider}
    `{Embeddings.Embedder} `{EmbeddingStore.Json}
    (st : ComplaintState) (db : Database.t) :
  ∃ e,
    process st (Some db)
    = (Workflow.record_failure "complaint_reader" e st, Some db) ∧
    processing_steps (process st (Some db)).1
    = processing_steps st ++
        [{| step_agent := "complaint_reader"; step_status := "failed";
            step_error := Some (Workflow.exn_message e) |}] ∧
    errors (process st (Some db)).1
    = errors st ++ ["complaint_reader: " +:+ Workflow.exn_message e] ∧
    entities (process st (Some db)).1 = entities st ∧
    sentiment (process st (Some db)).1 = sentiment st ∧
    metadata (process st (Some db)).1 = metadata st ∧
    redacted_narrative (process st (Some db)).1 = redacted_narrative st ∧
    messages (process st (Some db)).1 = messages st.
Proof.
  assert (Hp : ∃ e, process st (Some db)
               = (Workflow.record_failure "complaint_reader" e st, Some db)).
  { unfold process.
    destruct (analyze (narrative st)) as [pii|e];
      cbn [mbind exc_bind bind]; [|by eexists].
    destruct (anonymize (narrative st) pii) as [red|e];
      cbn [mbind exc_bind bind]; [|by eexists].
    destruct (EmbeddingStoreProps.store_raises db (complaint_id st) red)
      as (e & -> & _).
    by eexists. }
  destruct Hp as [e ->]. exists e. done.
Qed.

(** X14: The complexity score is one of finitely many binary64 sums, each a
    number in [0, 1]; it is at least 0.3 whenever an amount was extracted,
    and it is 0 exactly when the narrative has at most 200 characters and
    neither "and" nor "also" in it and at most one entity, none of them an
    amount, was extracted. *)
Theorem complexity_score_range `{Ops} (narrative : string) (entities : dict) :
  let score := _calculate_complexity_score narrative entities in
  le 0 score = true ∧ le score 1.0 = true ∧
  (truthy (get entities "amount") = true → le 0.3 score = true) ∧
  (score = 0%float ↔
     (str_len narrative ≤ 200)%nat ∧ (entity_count entities ≤ 1)%nat ∧
     contains "and" (str_lower narrative) = false ∧
     contains "also" (str_lower narrative) = false ∧
     truthy (get entities "amount") = false).
Proof.
  cbv zeta. unfold _calculate_complexity_score.
  destruct (Nat.ltb_spec 500 (str_len narrative));
  destruct (Nat.ltb_spec 200 (str_len narrative));
  destruct (Nat.ltb_spec 3 (entity_count entities));
  destruct (Nat.ltb_spec 1 (entity_count entities));
  destruct (contains "and" (str_lower narrative));
  destruct (contains "also" (str_lower narrative));
  destruct (truthy (get entities "amount")); cbn [orb];
  try lia;
  (split; [by vm_compute|]); (split; [by vm_compute|]);
  (split; [intros; by vm_compute|]);
  (split; [intros Hz; try (by vm_compute in Hz); repeat split; (lia || done)
          |intros (? & ? & ? & ? & ?); try lia; try done]).
Qed.

End ComplaintReaderProps.

(** ** Risk Checker Agent, drivers, mitigation and monitoring *)

Module RiskAdviceProps.
Import Schemas PyNum RiskAdvice.

(** X19: The sentiment score [extract_features] writes is 1, 2 or 3 (positive,
    neutral or unknown, negative), and [_identify_risk_drivers] tests it
    with [>= 0.7]: whenever the drivers are computed from such a feature,
    "Negative sentiment" is among them, whatever the sentiment was. *)
Theorem negative_sentiment_driver_for_every_sentiment
    (features sentiment : dict) (risk_score : value) (z : Z) :
  RiskFeatures.sentiment_score sentiment = Ok z →
  features !! "sentiment_score" = Some (VInt z) →
  (1 ≤ z ≤ 3)%Z ∧
  ge_float (VInt z) 0.7 = Ok true ∧
  match _identify_risk_drivers features risk_score with
  | Ok drivers => "Negative sentiment" ∈ drivers
  | Raise e => ∃ msg, e = TypeError msg
  end.
Proof.
  intros Hz Hf.
  assert (Hcases : z = 1%Z ∨ z = 2%Z ∨ z = 3%Z).
  { unfold RiskFeatures.sentiment_score, table_get in Hz.
    destruct (get_or sentiment "sentiment" (VStr "neutral"))
      as [ |?|?|?|s|?|?]; simplify_eq/=; auto.
    repeat case_bool_decide; auto. }
  split; [lia|]. split; [by destruct Hcases as [->|[->| ->]]|].
  unfold _identify_risk_drivers.
  replace (get_or features "sentiment_score" (VInt 0)) with (VInt z)
    by (unfold get_or; by rewrite Hf).
  assert (Hge : ge_float (VInt z) 0.7 = Ok true)
    by (by destruct Hcases as [->|[->| ->]]).
  rewrite Hge.
  destruct (ge_float (get_or features "urgency_score" (VInt 0)) 3)
    as [[]|e] eqn:E1; cbn [mbind exc_bind bind];
    [| |destruct (get_or features "urgency_score" (VInt 0));
        simplify_eq/=; by eexists];
  (destruct (gt_float (get_or features "historical_complaints" (VInt 0)) 2)
     as [[]|e'] eqn:E2; cbn [mbind exc_bind bind];
     [| |destruct (get_or features "historical_complaints" (VInt 0));
         simplify_eq/=; by eexists]);
  destruct (eq_float _ 1); apply (bool_decide_unpack _); by vm_compute.
Qed.

Lemma negative_sentiment_driver_for_every_sentiment_witness :
  _identify_risk_drivers (<["sentiment_score" := VInt 1]> ∅) (VFloat 0.3)
  = Ok ["Negative sentiment"] ∧
  RiskFeatures.sentiment_score (<["sentiment" := VStr "positive"]> ∅) = Ok 1%Z.
Proof.
  destruct (negative_sentiment_driver_for_every_sentiment
              (<["sentiment_score" := VInt 1]> ∅)
              (<["sentiment" := VStr "positive"]> ∅) (VFloat 0.3) 1)
    as (_ & _ & H).
  - reflexivity.
  - reflexivity.
  - split; reflexivity.
Defined.

(** X17: The list of mitigation strategies is never empty, whatever the
    prediction and the state, also when the score is not a number: it
    holds between one and six entries, each filed under one of the seven
    known names, no name twice, and "standard_processing" only as the
    single entry of the list. *)
Theorem mitigation_strategies_never_empty
    (risk_prediction : dict) (state : ComplaintState) :
  let names :=
    strategy_names (_generate_mitigation_strategies risk_prediction state) in
  (1 ≤ List.length names ≤ 6)%nat ∧
  Forall (fun name => name ∈ known_strategies) names ∧
  NoDup names ∧
  ("standard_processing" ∈ names ↔ names = ["standard_processing"]).
Proof.
  cbv zeta. unfold _generate_mitigation_strategies, ge_float.
  destruct (get_or risk_prediction "risk_score" (VFloat 0.5));
    cbn [mbind exc_bind bind try_except];
    repeat match goal with
    | |- context [if ?b then _ else _] =>
        lazymatch b with
        | bool_decide _ => fail
        | _ => destruct b
        end
    end;
    cbn [app bool_decide];
    (split; [vm_compute; lia|]);
    (split; [apply (bool_decide_unpack _); by vm_compute|]);
    (split; [apply (bool_decide_unpack _); by vm_compute|]);
    apply (bool_decide_unpack _); by vm_compute.
Qed.

(** Category and score of a prediction of the risk model always agree, and
    the score is a number. *)
Lemma predicted_category (fs : RiskModel.features) (sentiment cls : dict) :
  let a := RiskModel.predict_risk fs sentiment cls in
  Py.is_nan (RiskModel.risk_score a) = false ∧
  RiskModel.risk_category a = RiskModel.categorize (RiskModel.risk_score a).
Proof.
  cbv zeta. unfold RiskModel.predict_risk. case_bool_decide; [by vm_compute|].
  pose proof (RiskModelProps.rule_based_risk_range fs sentiment cls) as Hr.
  destruct (RiskModel._calculate_rule_based_risk fs sentiment cls) as [s|e];
    cbn [mbind exc_bind bind try_except RiskModel.risk_score
         RiskModel.risk_category].
  - by destruct Hr as (Hn & _).
  - by vm_compute.
Qed.

(** X18: Inside the agent, monitoring (chosen by category) and mitigation
    (chosen by score) agree for every model input and state: the
    monitoring configuration escalates automatically and requires review
    exactly when the score is at least 0.7, which is exactly when the
    strategies start with immediate escalation; the expedited track is
    proposed exactly when the score is at least 0.4, and monitoring is
    weekly exactly when it is not. *)
Theorem monitoring_agrees_with_strategies
    (fs : RiskModel.features) (model_sentiment model_classification : dict)
    (enhancements : exc (value * value * value)) (state : ComplaintState) :
  let prediction :=
    RiskChecker._predict_risk
      (RiskModel.predict_risk fs model_sentiment model_classification)
      enhancements in
  let names :=
    strategy_names (_generate_mitigation_strategies prediction state) in
  ∃ score config,
    prediction !! "risk_score" = Some (VFloat score) ∧
    _setup_risk_monitoring prediction = Ok config ∧
    (config !! "auto_escalate" = Some (VBool true) ↔ ge score 0.7 = true) ∧
    (config !! "review_required" = Some (VBool true) ↔ ge score 0.7 = true) ∧
    ("immediate_escalation" ∈ names ↔ ge score 0.7 = true) ∧
    ("expedited_processing" ∈ names ↔ ge score 0.4 = true) ∧
    (config !! "check_frequency" = Some (VStr "weekly") ↔ ge score 0.4 = false).
Proof.
  cbv zeta.
  destruct (predicted_category fs model_sentiment model_classification)
    as [Hn Hc].
  set (a := RiskModel.predict_risk fs model_sentiment model_classification)
    in *.
  unfold RiskChecker._predict_risk.
  destruct enhancements as [[[fi rd] hc]|e];
    cbn [mbind exc_bind bind try_except].
  - exists (RiskModel.risk_score a).
    unfold _setup_risk_monitoring, _generate_mitigation_strategies.
    match goal with
    | |- context [get_or ?d "risk_category" ?x] =>
        replace (get_or d "risk_category" x)
          with (VStr (RiskModel.risk_category a)) by reflexivity
    end.
    match goal with
    | |- context [get_or ?d "risk_score" ?x] =>
        replace (get_or d "risk_score" x)
          with (VFloat (RiskModel.risk_score a)) by reflexivity
    end.
    rewrite Hc. unfold RiskModel.categorize, ge_float.
    pose proof (RiskModelProps.ge_07_ge_04 (RiskModel.risk_score a)) as Htr.
    destruct (ge (RiskModel.risk_score a) 0.7) eqn:E7;
      destruct (ge (RiskModel.risk_score a) 0.4) eqn:E4;
      try (specialize (Htr eq_refl); discriminate);
      cbn [mbind exc_bind bind try_except];
      (eexists; split; [reflexivity|]; split; [reflexivity|]);
      destruct (eq_str (get (sentiment state) "emotion") "angry");
      destruct (truthy (get (entities state) "amount"));
      cbn [app bool_decide];
      repeat split; intros; try done;
      try (apply (bool_decide_unpack _); by vm_compute);
      try (match goal with
           | H : _ ∈ _ |- _ =>
               apply (bool_decide_pack _) in H; by vm_compute in H
           end).
  - exists 0.5%float. eexists. split; [reflexivity|]. split; [reflexivity|].
    unfold _generate_mitigation_strategies.
    replace (get_or RiskChecker._get_default_risk_assessment "risk_score"
               (VFloat 0.5)) with (VFloat 0.5) by reflexivity.
    cbn [ge_float mbind exc_bind bind try_except].
    replace (ge 0.5 0.7) with false by (by vm_compute).
    replace (ge 0.5 0.4) with true by (by vm_compute).
    destruct (eq_str (get (sentiment state) "emotion") "angry");
      destruct (truthy (get (entities state) "amount"));
      cbn [app bool_decide mbind exc_bind bind try_except];
      repeat split; intros; try done;
      try (apply (bool_decide_unpack _); by vm_compute);
      try (match goal with
           | H : _ ∈ _ |- _ =>
               apply (bool_decide_pack _) in H; by vm_compute in H
           end).
Qed.

End RiskAdviceProps.

(** ** Complaint endpoints, reading *)

Module ComplaintQueriesProps.
Import Database ComplaintQueries.

Lemma insert_newest_perm x l : insert_newest x l ≡ₚ x :: l.
Proof.
  induction l as [ |y l IH]; simpl; [done|].
  destruct (c_created_at y <=? c_created_at x)%Z; [done|].
  rewrite IH. apply Permutation_swap.
Qed.

Lemma newest_first_perm rows : newest_first rows ≡ₚ rows.
Proof.
  induction rows as [ |x l IH]; simpl; [done|].
  by rewrite insert_newest_perm, IH.
Qed.

Lemma insert_newest_sorted x l :
  StronglySorted newer l → StronglySorted newer (insert_newest x l).
Proof.
  induction 1 as [ |y l Hs IH Hy]; simpl.
  - repeat constructor.
  - destruct (Z.leb_spec (c_created_at y) (c_created_at x)) as [Hle|Hlt].
    + constructor; [by constructor|].
      constructor; [done|].
      eapply Forall_impl; [exact Hy|]. unfold newer. intros z Hz. lia.
    + constructor; [done|].
      rewrite insert_newest_perm. constructor; [|done].
      unfold newer. lia.
Qed.

Lemma newest_first_sorted rows : StronglySorted newer (newest_first rows).
Proof.
  induction rows as [ |x l IH]; simpl; [constructor|].
  by apply insert_newest_sorted.
Qed.

Lemma drop_sorted {A} (R : relation A) n (l : list A) :
  StronglySorted R l → StronglySorted R (drop n l).
Proof.
  intros Hs. revert n. induction Hs as [ |x l Hs IH Hx]; intros [ |n]; simpl;
    try constructor; done.
Qed.

Lemma where_optional_subset column value rows c :
  c ∈ where_optional column value rows →
  c ∈ rows ∧
  match value with
  | Some v => v = "" ∨ column c = Some v
  | None => True
  end.
Proof.
  unfold where_optional. destruct value as [v| ]; [|done].
  case_bool_decide; [by auto|].
  intros [? ?]%list_elem_of_filter. auto.
Qed.

Lemma to_response_fields c row :
  to_response c = Ok row →
  c_user_id c = Some (resp_user_id row) ∧
  resp_id row = c_id c ∧ resp_tenant_id row = c_tenant_id c ∧
  resp_narrative row = c_narrative c ∧ resp_product row = c_product c ∧
  resp_issue row = c_issue c ∧ resp_company row = c_company c ∧
  resp_created_at row = c_created_at c.
Proof.
  unfold to_response. destruct (c_user_id c); [|done]. by intros [= <-].
Qed.

Lemma to_responses_ok complaints rows :
  to_responses complaints = Ok rows →
  Forall2 (fun c row => to_response c = Ok row) complaints rows.
Proof.
  revert rows. induction complaints as [ |c l IH]; intros rows; simpl.
  - intros [= <-]. constructor.
  - destruct (to_response c) as [row|e] eqn:Hc;
      cbn [mbind exc_bind bind]; [|done].
    destruct (to_responses l) as [rows'|e];
      cbn [mbind exc_bind bind]; [|done].
    intros [= <-]. constructor; [done|by apply IH].
Qed.

Lemma to_responses_complete complaints :
  Forall (fun c => c_user_id c ≠ None) complaints →
  ∃ rows, to_responses complaints = Ok rows.
Proof.
  induction 1 as [ |c l Hc _ [rows IH]]; simpl; [by eexists|].
  unfold to_response. destruct (c_user_id c); [|done].
  cbn [mbind exc_bind bind]. rewrite IH. by eexists.
Qed.

Lemma to_responses_null complaints :
  Exists (fun c => c_user_id c = None) complaints →
  ∃ e, to_responses complaints = Raise e.
Proof.
  induction 1 as [c l Hc|c l _ [e IH]]; simpl.
  - unfold to_response. rewrite Hc. by eexists.
  - destruct (to_response c); cbn [mbind exc_bind bind]; [|by eexists].
    rewrite IH. by eexists.
Qed.

Lemma to_responses_raise complaints e :
  to_responses complaints = Raise e →
  Exists (fun c => c_user_id c = None) complaints.
Proof.
  induction complaints as [ |c l IH]; simpl; [done|].
  unfold to_response at 1. destruct (c_user_id c) eqn:Hc;
    cbn [mbind exc_bind bind]; [|intros _; by left].
  destruct (to_responses l); cbn [mbind exc_bind bind]; [done|].
  intros Hl. right. by apply IH.
Qed.

Lemma responses_sorted page rows :
  Forall2 (fun c row => to_response c = Ok row) page rows →
  StronglySorted newer page → StronglySorted newer_first rows.
Proof.
  induction 1 as [ |c row page rows Hc Hrest IH]; intros Hs;
    [constructor|].
  apply StronglySorted_inv in Hs as [Hs Hall].
  constructor; [by apply IH|].
  apply to_response_fields in Hc as (_ & _ & _ & _ & _ & _ & _ & Hat).
  clear IH Hs. induction Hrest as [ |c' row' page rows Hc' _ IH];
    [constructor|].
  apply Forall_cons in Hall as [Hnew Hall].
  apply to_response_fields in Hc' as (_ & _ & _ & _ & _ & _ & _ & Hat').
  constructor; [|by apply IH].
  unfold newer_first, newer in *. lia.
Qed.

(** What the [SELECT] of the listing returns. *)
Lemma select_page_rows db tenant skip limit product issue page :
  select_page db tenant skip limit product issue = Ok page →
  (0 ≤ skip)%Z ∧ (0 ≤ limit)%Z ∧
  (List.length page ≤ Z.to_nat limit)%nat ∧
  StronglySorted newer page ∧
  Forall (fun c =>
            c ∈ complaints_raw db ∧ c_tenant_id c = tenant ∧
            match product with
            | Some p => p = "" ∨ c_product c = Some p
            | None => True
            end ∧
            match issue with
            | Some i => i = "" ∨ c_issue c = Some i
            | None => True
            end) page.
Proof.
  unfold select_page.
  destruct (Z.ltb_spec skip 0); [done|].
  destruct (Z.ltb_spec limit 0); [done|].
  cbn [orb]. intros [= <-]. split; [done|]. split; [done|]. split; [|split].
  - rewrite length_take. lia.
  - apply EmbeddingsProps.take_sorted, drop_sorted, newest_first_sorted.
  - apply Forall_forall. intros c Hc.
    apply subseteq_take, subseteq_drop in Hc.
    rewrite newest_first_perm in Hc.
    apply where_optional_subset in Hc as [Hc Hi].
    apply where_optional_subset in Hc as [Hc Hp].
    apply list_elem_of_filter in Hc as [Hten Hc]. done.
Qed.

Lemma select_page_raises db tenant skip limit product issue e :
  select_page db tenant skip limit product issue = Raise e →
  (skip < 0)%Z ∨ (limit < 0)%Z.
Proof.
  unfold select_page.
  destruct (Z.ltb_spec skip 0); [by left|].
  destruct (Z.ltb_spec limit 0); [by right|]. done.
Qed.

(** X23: The listing endpoint never leaves the caller's tenant: every row it
    returns is the response built from a stored complaint of the caller's
    tenant that matches the product and issue filters given (an empty
    filter string does not filter), there are at most [limit] rows, newest
    first.  The only error is a 500, for a negative [skip] or [limit] or
    when a complaint of the selected page was stored without user id (the
    response model requires one): the page is answered iff every complaint
    on it has a user id. *)
Theorem get_complaints_tenant_scoped
    (skip limit : Z) (product issue : option string)
    (db : Database.t) (current_user : User) :
  match get_complaints skip limit product issue db current_user with
  | Ok rows =>
      (0 ≤ skip)%Z ∧ (0 ≤ limit)%Z ∧
      (List.length rows ≤ Z.to_nat limit)%nat ∧
      StronglySorted newer_first rows ∧
      Forall (fun row =>
                resp_tenant_id row = u_tenant_id current_user ∧
                (∃ c, c ∈ complaints_raw db ∧ to_response c = Ok row) ∧
                match product with
                | Some p => p = "" ∨ resp_product row = Some p
                | None => True
                end ∧
                match issue with
                | Some i => i = "" ∨ resp_issue row = Some i
                | None => True
                end) rows
  | Raise e =>
      e = HTTPException 500 "Failed to retrieve complaints" [] ∧
      ((skip < 0)%Z ∨ (limit < 0)%Z ∨
       ∃ c, c ∈ complaints_raw db ∧
            c_tenant_id c = u_tenant_id current_user ∧ c_user_id c = None)
  end ∧
  (∀ page,
     select_page db (u_tenant_id current_user) skip limit product issue
     = Ok page →
     (Forall (fun c => c_user_id c ≠ None) page →
      ∃ rows,
        get_complaints skip limit product issue db current_user = Ok rows ∧
        Forall2 (fun c row => to_response c = Ok row) page rows) ∧
     (Exists (fun c => c_user_id c = None) page →
      get_complaints skip limit product issue db current_user
      = Raise (HTTPException 500 "Failed to retrieve complaints" []))).
Proof.
  unfold get_complaints. split.
  - destruct (select_page _ _ _ _ _ _) as [page|e] eqn:Hpage;
      cbn [mbind exc_bind bind].
    2:{ split; [done|]. apply select_page_raises in Hpage. tauto. }
    apply select_page_rows in Hpage as (Hskip & Hlimit & Hlen & Hs & Hall).
    destruct (to_responses page) as [rows|e] eqn:Hrows.
    + apply to_responses_ok in Hrows.
      split; [done|]. split; [done|]. split; [|split].
      * by rewrite <- (Forall2_length _ _ _ Hrows).
      * by eapply responses_sorted.
      * clear Hlen Hs. induction Hrows as [ |c row page rows Hc _ IH];
          [constructor|].
        apply Forall_cons in Hall as [(Hin & Hten & Hp & Hi) Hall].
        constructor; [|by apply IH].
        pose proof (to_response_fields _ _ Hc)
          as (_ & _ & Ht & _ & Hprod & Hiss & _).
        rewrite Ht, Hprod, Hiss. split; [done|]. split; [by exists c|]. done.
    + split; [done|]. right. right.
      apply to_responses_raise in Hrows.
      apply Exists_exists in Hrows as (c & Hc & Hnull).
      rewrite Forall_forall in Hall.
      destruct (Hall c) as (Hin & Hten & _); [done|].
      by exists c.
  - intros page ->. cbn [mbind exc_bind bind]. split.
    + intros Hall. destruct (to_responses_complete _ Hall) as [rows Hrows].
      rewrite Hrows. exists rows. split; [done|]. by apply to_responses_ok.
    + intros Hnull. by destruct (to_responses_null _ Hnull) as [e ->].
Qed.

Lemma get_complaints_tenant_scoped_witness :
  get_complaints 0 10 None None anonymous_db Auth.alice
  = Raise (HTTPException 500 "Failed to retrieve complaints" []) ∧
  (∃ row, get_complaints 0 1 None None anonymous_db Auth.alice = Ok [row]
          ∧ resp_id row = 7%Z ∧ resp_user_id row = "u-1").
Proof.
  destruct (get_complaints_tenant_scoped 0 10 None None anonymous_db
              Auth.alice) as [_ H10].
  destruct (H10 [signed_complaint; anonymous_complaint] eq_refl) as [_ Hnull].
  split.
  - apply Hnull. right. by left.
  - destruct (get_complaints_tenant_scoped 0 1 None None anonymous_db
                Auth.alice) as [_ H1].
    destruct (H1 [signed_complaint] eq_refl) as [Hok _].
    destruct Hok as (rows & Hrows & Hrel); [by repeat constructor|].
    apply Forall2_cons_inv_l in Hrel as (row & rows' & Hrow & Hrest & ->).
    apply Forall2_nil_inv_l in Hrest as ->.
    exists row. split; [exact Hrows|].
    by injection Hrow as <-.
Defined.

(** X24: The single-complaint endpoint: with unique ids, a stored complaint
    that has a user id is returned to a caller of its own tenant; one that
    was stored without user id is answered with 500 "Failed to retrieve
    complaint", because the response model requires the field.  To a caller
    of any other tenant the answer is 404 "Complaint not found", the same
    as for an id that is not stored, and the analysis endpoint answers that
    caller with the same 404 whatever the workflow would do. *)
Theorem get_complaint_hides_other_tenants
    (db : Database.t) (c : ComplaintRaw) (current_user : User) :
  NoDup (c_id <$> complaints_raw db) →
  c ∈ complaints_raw db →
  (c_tenant_id c = u_tenant_id current_user →
     (∀ user_id, c_user_id c = Some user_id →
        ∃ row,
          get_complaint (c_id c) db current_user = Ok row ∧
          resp_id row = c_id c ∧ resp_tenant_id row = c_tenant_id c ∧
          resp_user_id row = user_id ∧
          resp_narrative row = c_narrative c ∧
          resp_product row = c_product c ∧ resp_issue row = c_issue c ∧
          resp_company row = c_company c ∧
          resp_created_at row = c_created_at c) ∧
     (c_user_id c = None →
        get_complaint (c_id c) db current_user
        = Raise (HTTPException 500 "Failed to retrieve complaint" []))) ∧
  (c_tenant_id c ≠ u_tenant_id current_user →
     get_complaint (c_id c) db current_user
     = Raise (HTTPException 404 "Complaint not found" []) ∧
     (∀ R : Workflow.Runtime,
        Complaints.get_complaint_analysis (c_id c) db current_user
        = Raise (HTTPException 404 "Complaint not found" []))) ∧
  (∀ missing, missing ∉ c_id <$> complaints_raw db →
     get_complaint missing db current_user
     = Raise (HTTPException 404 "Complaint not found" [])).
Proof.
  intros Hnd Hc. split; [|split].
  - intros Hten.
    assert (Hget : get_complaint (c_id c) db current_user
                   = Auth.reraise_as_500 "Failed to retrieve complaint"
                       (to_response c)).
    { unfold get_complaint.
      rewrite (AuthSessionProps.filter_unique_key c_id _ (complaints_raw db) c);
        try done.
      by intros y _ [? _]. }
    rewrite Hget. unfold to_response. split.
    + intros user_id ->. eexists. split; [reflexivity|]. done.
    + by intros ->.
  - intros Hten.
    assert (Hnone : filter (fun x => c_id x = c_id c
                                     ∧ c_tenant_id x = u_tenant_id current_user)
                      (complaints_raw db) = []).
    { apply AdminUsersProps.filter_none. intros x Hx [Hid Hx'].
      apply Hten.
      by rewrite <- (AdminUsersProps.key_injective c_id _ x c Hnd Hx Hc Hid). }
    unfold get_complaint, Complaints.get_complaint_analysis.
    by rewrite Hnone.
  - intros missing Hmiss. unfold get_complaint.
    rewrite AdminUsersProps.filter_none; [done|].
    intros x Hx [Hid _]. apply Hmiss. rewrite <- Hid.
    by apply list_elem_of_fmap_2.
Qed.

Lemma get_complaint_hides_other_tenants_witness :
  (∃ row, get_complaint 7 anonymous_db Auth.alice = Ok row
          ∧ resp_user_id row = "u-1") ∧
  get_complaint 9 anonymous_db Auth.alice
  = Raise (HTTPException 500 "Failed to retrieve complaint" []) ∧
  get_complaint 8 anonymous_db Auth.alice
  = Raise (HTTPException 404 "Complaint not found" []).
Proof.
  assert (Hnd : NoDup (c_id <$> complaints_raw anonymous_db)).
  { apply (bool_decide_unpack _). by vm_compute. }
  destruct (get_complaint_hides_other_tenants anonymous_db signed_complaint
              Auth.alice Hnd) as ([H1 _] & _ & H3);
    [apply list_elem_of_further, list_elem_of_here|reflexivity|].
  destruct (get_complaint_hides_other_tenants anonymous_db anonymous_complaint
              Auth.alice Hnd) as ([_ H2] & _);
    [apply list_elem_of_here|reflexivity|].
  split; [|split].
  - destruct (H1 "u-1" eq_refl) as (row & Hrow & _ & _ & Huser & _).
    by exists row.
  - by apply H2.
  - apply H3. apply (bool_decide_unpack _). by vm_compute.
Defined.

End ComplaintQueriesProps.

(** ** The form login and the stored analysis *)

Module LoginFormProps.
Import Database Auth.

Lemma split_pieces_no_sep c s :
  Forall (fun piece => PyStr.contains_char c piece = false) (PyStr.split c s).
Proof.
  induction s as [ |a s IH]; simpl; [by repeat constructor|].
  case_bool_decide as Hc; [by constructor|].
  destruct (PyStr.split c s) as [ |h t]; [repeat constructor|].
  - simpl. by rewrite bool_decide_eq_false_2.
  - apply Forall_cons in IH as [Hh Ht]. constructor; [|done].
    simpl. by rewrite bool_decide_eq_false_2.
Qed.

Lemma first_elem l x : PyStr.first l = Ok x → x ∈ l.
Proof. destruct l; intros; simplify_eq/=. apply list_elem_of_here. Qed.

Lemma last_elem l x : PyStr.last l = Ok x → x ∈ l.
Proof.
  destruct l as [ |h t]; intros H; simplify_eq/=.
  revert h. induction t as [ |y t IH]; intros h; simpl.
  - apply list_elem_of_here.
  - apply list_elem_of_further, IH.
Qed.

(** What [split_username] can return: the tenant id never contains an
    underscore, and the email is [local@host] with no "@" in [local] and no
    underscore in [host]. *)
Lemma split_username_shape (name email tenant_id : string) :
  split_username name = Ok (email, tenant_id) →
  PyStr.contains_char "_" tenant_id = false ∧
  ∃ local host, email = local +:+ "@" +:+ host ∧
                PyStr.contains_char "@" local = false ∧
                PyStr.contains_char "_" host = false.
Proof.
  unfold split_username.
  destruct (PyStr.contains_char "@" name); cbn [negb]; [|done].
  pose proof (split_pieces_no_sep "@" name) as Hat.
  destruct (PyStr.split "@" name) as [ |local [ |domain [ |? ?]]]; try done.
  apply Forall_cons in Hat as [Hlocal _].
  pose proof (split_pieces_no_sep "_" domain) as Hus.
  rewrite Forall_forall in Hus.
  destruct (PyStr.first (PyStr.split "_" domain)) as [d| ] eqn:Hd;
    cbn [mbind exc_bind bind]; [|done].
  apply first_elem in Hd.
  destruct (PyStr.contains_char "_" domain).
  - destruct (PyStr.last (PyStr.split "_" domain)) as [t| ] eqn:Ht;
      cbn [mbind exc_bind bind]; [|done].
    apply last_elem in Ht. intros [= <- <-].
    split; [by apply Hus|]. exists local, d. auto.
  - cbn [mbind exc_bind bind]. intros [= <- <-].
    split; [done|]. exists local, d. auto.
Qed.

(** X11: The form login can only ever authenticate against a tenant id without
    underscore: every token it issues belongs to an active user of such a
    tenant, whose email is [local@host] with no underscore in [host].  A
    user of a tenant whose id contains an underscore cannot obtain a token
    from this endpoint. *)
Theorem token_login_reaches_no_underscore_tenant `{Env}
    (form_data : OAuth2PasswordRequestForm) (db : Database.t) (tok : Token) :
  login_for_access_token form_data db = Ok tok →
  PyStr.contains_char "_" (token_tenant_id tok) = false ∧
  ∃ u local host,
    u ∈ users db ∧ u_is_active u = true ∧ tok = issue_token u ∧
    u_email u = local +:+ "@" +:+ host ∧
    PyStr.contains_char "@" local = false ∧
    PyStr.contains_char "_" host = false.
Proof.
  unfold login_for_access_token, authenticate_user. intros Hlog.
  destruct (split_username (username form_data)) as [[email tenant]|e] eqn:Hs;
    cbn [mbind exc_bind bind reraise_as_500] in Hlog; [|by destruct e].
  apply split_username_shape in Hs as (Hten & local & host & -> & Hl & Hh).
  destruct (get_user_by_email db _ tenant) as [[u| ]|e] eqn:Hget;
    cbn [mbind exc_bind bind reraise_as_500] in Hlog;
    [|done|by destruct e].
  apply AuthSessionProps.get_user_by_email_inv in Hget
    as (Hu & Hemail & Hut & Hact).
  destruct (verify_password _ _) as [[]|e];
    cbn [mbind exc_bind bind reraise_as_500 negb] in Hlog;
    [|done|by destruct e].
  unfold token_response in Hlog.
  case_bool_decide; cbn [reraise_as_500] in Hlog; [|done].
  injection Hlog as <-. cbn [issue_token token_tenant_id].
  split; [by rewrite Hut|]. exists u, local, host. done.
Qed.

Lemma token_login_reaches_no_underscore_tenant_witness :
  @login_for_access_token plain_env
    {| username := "alice@example.com_acme"; password := "correct horse" |}
    one_tenant_db
  = Ok (@issue_token plain_env alice) ∧
  PyStr.contains_char "_" "acme" = false.
Proof.
  destruct (@token_login_reaches_no_underscore_tenant plain_env
              {| username := "alice@example.com_acme";
                 password := "correct horse" |}
              one_tenant_db (@issue_token plain_env alice)) as [H1 _].
  - reflexivity.
  - split; [reflexivity|exact H1].
Defined.

End LoginFormProps.

Module StoredAnalysisProps.
Import Database Complaints.

Lemma last_app_singleton {A} (l : list A) (x d : A) :
  List.last (l ++ [x]) d = x.
Proof. induction l as [ |a [ |b l] IH]; simpl in *; done. Qed.

(** X25: A complaint that already has a label and a risk score.  Through
    the endpoint the answer is 500 "Failed to retrieve complaint analysis",
    as for every complaint that is found: the relationships are read from
    a row of an [AsyncSession].  With the two relationships loaded, the
    workflow is not run and the analysis is built from the label that comes
    last and the risk score that comes last; it fails validation when that
    label has no product or no issue (the classification is a
    [Dict[str, str]]), and otherwise carries the product and issue of that
    label, the score and category of that risk score, no similar complaints
    and no benchmarks. *)
Theorem stored_analysis_uses_last_rows `{Workflow.Runtime}
    (db : Database.t) (c : ComplaintRaw) (current_user : User)
    (labels : list ComplaintLabel) (label : ComplaintLabel)
    (scores : list RiskScore) (score : RiskScore) :
  NoDup (c_id <$> complaints_raw db) →
  c ∈ complaints_raw db →
  c_tenant_id c = u_tenant_id current_user →
  labels_of db c = labels ++ [label] →
  risk_scores_of db c = scores ++ [score] →
  get_complaint_analysis (c_id c) db current_user
  = Raise (HTTPException 500 "Failed to retrieve complaint analysis" []) ∧
  analysis_of_complaint (c_id c) current_user c
    (Ok (labels_of db c)) (Ok (risk_scores_of db c))
  = analysis_of_history (c_id c) (Some label) (Some score) ∧
  (l_product label = None ∨ l_issue label = None →
   analysis_of_history (c_id c) (Some label) (Some score)
   = Raise (OtherError "ValidationError")) ∧
  (∀ product issue,
     l_product label = Some product → l_issue label = Some issue →
     ∃ analysis,
       analysis_of_history (c_id c) (Some label) (Some score) = Ok analysis ∧
       an_complaint_id analysis = c_id c ∧
       an_similar_complaints analysis = VList [] ∧
       an_benchmarks analysis = VDict ∅ ∧
       vget (an_risk_assessment analysis) "risk_score" VNone
       = Ok (VFloat (r_risk score)) ∧
       vget (an_risk_assessment analysis) "risk_category" VNone
       = Ok (VStr (r_category score)) ∧
       vget (an_classification analysis) "product_category" VNone
       = Ok (VStr product) ∧
       vget (an_classification analysis) "issue_category" VNone
       = Ok (VStr issue)).
Proof.
  intros Hnd Hc Hten Hlabels Hscores. split; [|split; [|split]].
  - apply (ComplaintsProps.analysis_of_found_complaint _ _ _ c).
    rewrite (AuthSessionProps.filter_unique_key c_id _ (complaints_raw db) c);
      try done.
    by intros y _ [? _].
  - unfold analysis_of_complaint. cbn [mbind exc_bind bind].
    rewrite Hlabels, Hscores.
    rewrite !bool_decide_eq_false_2 by (by destruct labels, scores).
    cbn [mbind exc_bind bind].
    by rewrite !fmap_app, !fmap_cons, !fmap_nil, !last_app_singleton.
  - destruct label as [lid lp li lco]. cbn [l_product l_issue].
    intros [-> | ->]; [destruct li|destruct lp]; by vm_compute.
  - intros product issue. destruct label as [lid lp li lco].
    cbn [l_product l_issue]. intros -> ->.
    unfold analysis_of_history, validate. cbv zeta.
    cbn [an_entities an_classification an_risk_assessment
         an_similar_complaints an_benchmarks from_option opt_str
         l_product l_issue l_company].
    match goal with
    | |- context [if ?b then _ else _] =>
        replace b with true by (by vm_compute)
    end.
    eexists. split; [reflexivity|]. repeat split.
Qed.

Lemma stored_analysis_uses_last_rows_witness :
  @get_complaint_analysis Workflow.healthy_runtime 1 Examples.analysed_db
    Auth.alice
  = Raise (HTTPException 500 "Failed to retrieve complaint analysis" []) ∧
  ∃ analysis,
    @analysis_of_complaint Workflow.healthy_runtime 1 Auth.alice
      Embeddings.scored_twice_complaint
      (Ok (labels_of Examples.analysed_db Embeddings.scored_twice_complaint))
      (Ok (risk_scores_of Examples.analysed_db
             Embeddings.scored_twice_complaint))
    = Ok analysis ∧
    vget (an_risk_assessment analysis) "risk_category" VNone
    = Ok (VStr "high") ∧
    vget (an_classification analysis) "issue_category" VNone
    = Ok (VStr "unauthorized_charges").
Proof.
  destruct (@stored_analysis_uses_last_rows Workflow.healthy_runtime
              Examples.analysed_db Embeddings.scored_twice_complaint
              Auth.alice
              [{| l_complaint_id := 1; l_product := Some "loan";
                  l_issue := Some "billing_dispute"; l_company := None |}]
              {| l_complaint_id := 1; l_product := Some "credit_card";
                 l_issue := Some "unauthorized_charges"; l_company := None |}
              [{| r_complaint_id := 1; r_risk := 0.2; r_category := "low";
                  r_factors := ∅; r_created_at := 110 |}]
              {| r_complaint_id := 1; r_risk := 0.9; r_category := "high";
                 r_factors := ∅; r_created_at := 120 |})
    as (H500 & Hblock & _ & Hfields).
  - apply (bool_decide_unpack _). by vm_compute.
  - apply list_elem_of_here.
  - reflexivity.
  - reflexivity.
  - reflexivity.
  - split; [exact H500|].
    destruct (Hfields "credit_card" "unauthorized_charges" eq_refl eq_refl)
      as (analysis & Ha & _ & _ & _ & _ & Hcat & _ & Hissue).
    exists analysis. split; [exact (eq_trans Hblock Ha)|]. by split.
Defined.

End StoredAnalysisProps.

(** ** User administration, creating users *)

Module AdminCreateProps.
Import Database Admin AuthSession AdminCreate.

(** X4: Every outcome of [create_tenant_user], a failing commit included.
    On success the caller is an admin or regulator and exactly one user row
    was appended, in the caller's tenant whatever tenant the request named,
    active, with the requested role (regulator included) and an email that
    no other row holds, together with one "user_created" audit row of the
    caller's tenant.  The errors 403 and 400 "User already exists" leave
    the tables as they were.  A 500 leaves them as they were unless it is
    the refresh or the second commit that failed: the user row is committed
    before the audit row is added, so then the user exists and no audit row
    does.  When the refresh and every commit are accepted the endpoint is
    [AdminCreate.create_tenant_user]. *)
Theorem create_tenant_user_outcomes `{Codec} `{AdminSession.Commits}
    (user_data : UserCreate) (db : Database.t) (caller : User) :
  let result := AdminSession.create_tenant_user user_data db caller in
  match result with
  | (Ok response, db') =>
      AdminSession.commit_accepted 0 = true ∧
      AdminSession.refresh_accepted = true ∧
      AdminSession.commit_accepted 1 = true ∧
      u_role caller ∈ ["admin"; "regulator"] ∧
      schema_tenant_id response = u_tenant_id caller ∧
      schema_role response = role_value (new_role user_data) ∧
      schema_email response = new_email user_data ∧
      (new_email user_data ∉ u_email <$> users db) ∧
      (∃ u, users db' = users db ++ [u] ∧
            u_id u = schema_id response ∧
            u_tenant_id u = u_tenant_id caller ∧
            u_email u = new_email user_data ∧
            u_role u = role_value (new_role user_data) ∧
            u_is_active u = true) ∧
      (∃ entry, audit_logs db' = audit_logs db ++ [entry] ∧
                a_action entry = "user_created" ∧
                a_tenant_id entry = u_tenant_id caller ∧
                a_user_id entry = Some (u_id caller)) ∧
      complaints_raw db' = complaints_raw db ∧
      risk_scores db' = risk_scores db
  | (Raise e, db') =>
      (e = HTTPException 403 "Admin access required" []
       ∨ e = HTTPException 400 "User already exists" [] → db' = db) ∧
      (db' = db ∨
       (e = HTTPException 500 "Failed to create user" [] ∧
        AdminSession.commit_accepted 0 = true ∧
        (AdminSession.refresh_accepted = false
         ∨ AdminSession.commit_accepted 1 = false) ∧
        (∃ u, users db' = users db ++ [u] ∧
              u_tenant_id u = u_tenant_id caller ∧
              u_email u = new_email user_data ∧
              u_role u = role_value (new_role user_data)) ∧
        audit_logs db' = audit_logs db))
  end ∧
  ((∀ n, AdminSession.commit_accepted n = true) →
   AdminSession.refresh_accepted = true →
   result = create_tenant_user user_data db caller) ∧
  (∀ hashed,
     u_role caller ∈ ["admin"; "regulator"] →
     new_email user_data ∉ u_email <$> users db →
     uuid4 ∉ u_id <$> users db →
     get_password_hash (new_password user_data) = Ok hashed →
     AdminSession.commit_accepted 0 = true →
     AdminSession.refresh_accepted = false
     ∨ AdminSession.commit_accepted 1 = false →
     result
     = (Raise (HTTPException 500 "Failed to create user" []),
        with_users db
          (users db ++
             [{| u_id := uuid4; u_email := new_email user_data;
                 u_hashed_password := hashed;
                 u_tenant_id := u_tenant_id caller;
                 u_role := role_value (new_role user_data);
                 u_is_active := true |}]))).
Proof.
  cbv zeta.
  unfold AdminSession.create_tenant_user, create_tenant_user,
    require_admin_role.
  split; [|split].
  - case_bool_decide as Hrole; cbn [negb]; [|by split; [|left]].
    destruct (scalar_one_or_none _) as [[x| ]|e];
      [by split; [|left]| |by split; [|left]].
    destruct (get_password_hash _) as [h|e]; [|by split; [|left]].
    destruct (AdminSession.commit_accepted 0) eqn:C0; [|by split; [|left]].
    unfold add_user. cbn [u_id u_email].
    destruct (bool_decide (uuid4 ∈ _) || bool_decide (_ ∈ u_email <$> users db))
      eqn:Hfresh; cbn [mbind exc_bind bind]; [by split; [|left]|].
    apply orb_false_iff in Hfresh as [_ Hemail%bool_decide_eq_false].
    destruct (negb AdminSession.refresh_accepted
              || negb (AdminSession.commit_accepted 1)) eqn:Hlate.
    + apply orb_true_iff in Hlate.
      assert (Hcause : AdminSession.refresh_accepted = false
                       ∨ AdminSession.commit_accepted 1 = false).
      { destruct Hlate as [Hr%negb_true_iff|C1%negb_true_iff]; auto. }
      split; [by intros [?|?]|]. right.
      cbn [users audit_logs with_users]. repeat (split; [done|]).
      split; [|done]. eexists. split; [reflexivity|]. done.
    + apply orb_false_iff in Hlate
        as [Hr%negb_false_iff C1%negb_false_iff].
      cbn [schema_tenant_id schema_role schema_email schema_id
           u_tenant_id u_role u_email u_id u_is_active
           users audit_logs complaints_raw risk_scores add_audit_log
           with_users].
      repeat (split; [done|]). split; [|split; [|done]].
      * eexists. split; [reflexivity|]. done.
      * eexists. split; [reflexivity|]. done.
  - intros Hall Hrefresh. destruct (negb _); [done|].
    unfold create_body. rewrite !Hall, Hrefresh. cbn [negb orb].
    destruct (scalar_one_or_none _) as [[x| ]|e];
      cbn [mbind exc_bind bind Auth.reraise_as_500]; [done| |by destruct e].
    destruct (get_password_hash _) as [h|e];
      cbn [mbind exc_bind bind Auth.reraise_as_500]; [|by destruct e].
    destruct (add_user _ _) as [db1|e];
      cbn [mbind exc_bind bind Auth.reraise_as_500]; [done|by destruct e].
  - intros hashed Hrole Hemail Hid Hhash C0 C1.
    rewrite (bool_decide_eq_true_2 _ Hrole). cbn [negb].
    rewrite AdminUsersProps.filter_none.
    2:{ intros u Hu [He _]. apply Hemail. rewrite <- He.
        by apply list_elem_of_fmap_2. }
    cbn [scalar_one_or_none]. rewrite Hhash, C0.
    unfold add_user. cbn [u_id u_email].
    rewrite (bool_decide_eq_false_2 _ Hid), (bool_decide_eq_false_2 _ Hemail).
    cbn [orb mbind exc_bind bind].
    replace (negb AdminSession.refresh_accepted
             || negb (AdminSession.commit_accepted 1)) with true; [done|].
    symmetry. apply orb_true_iff.
    destruct C1 as [-> | ->]; [by left|by right].
Qed.

Lemma create_tenant_user_outcomes_witness :
  ∃ db',
    @AdminSession.create_tenant_user plain_codec
      AdminSession.second_commit_fails carol_request Auth.one_tenant_db
      Auth.alice
    = (Raise (HTTPException 500 "Failed to create user" []), db') ∧
    u_email <$> users db'
    = ["alice@example.com"; "bob@example.com"; "carol@example.com"] ∧
    audit_logs db' = [].
Proof.
  destruct (@create_tenant_user_outcomes plain_codec
              AdminSession.second_commit_fails carol_request
              Auth.one_tenant_db Auth.alice) as (_ & _ & H).
  eexists. split; [|split].
  - apply (H "tr0ub4dor&3"); try reflexivity.
    + apply (bool_decide_unpack _). by vm_compute.
    + apply (bool_decide_unpack _). by vm_compute.
    + apply (bool_decide_unpack _). by vm_compute.
    + by right.
  - reflexivity.
  - reflexivity.
Defined.

End AdminCreateProps.

(** ** Risk Checker Agent, the score breakdown of the explanation *)

Module RiskBreakdownProps.
Import RiskBreakdown.

(** X26: The breakdown shown in the explanation is not how the score was
    computed: for every classification the urgency adjustment it reports is
    strictly below the urgency weight the rule added to the score (both
    raise for an unhashable urgency level), and for every sentiment the
    sentiment adjustment it reports is at most what the rule added for
    sentiment and emotion, strictly less whenever the sentiment is
    negative. *)
Theorem breakdown_understates_rule (classification sentiment : dict) :
  match _calculate_urgency_adjustment classification,
        rule_urgency_weight classification with
  | Ok reported, Ok added => lt reported added = true
  | Raise _, Raise _ => True
  | _, _ => False
  end ∧
  le (_calculate_sentiment_adjustment sentiment)
     (rule_sentiment_increment sentiment) = true ∧
  (eq_str (get sentiment "sentiment") "negative" = true →
   lt (_calculate_sentiment_adjustment sentiment)
      (rule_sentiment_increment sentiment) = true) ∧
  (∀ fs s,
     RiskModel._calculate_rule_based_risk fs sentiment classification = Ok s →
     ∃ added, rule_urgency_weight classification = Ok added ∧
              (le (0.3 + added + rule_sentiment_increment sentiment) s = true
               ∨ s = 1.0%float)).
Proof.
  split; [|split; [|split]].
  - unfold _calculate_urgency_adjustment, rule_urgency_weight, table_get.
    destruct (get_or classification "urgency_level" (VStr "medium"))
      as [ |?|?|?|u|?|?]; try done; try (by vm_compute).
    cbn [assoc urgency_adjustments RiskModel.urgency_weights].
    repeat case_bool_decide; by vm_compute.
  - unfold _calculate_sentiment_adjustment, rule_sentiment_increment.
    pose proof (bool_decide_eq_true ("negative" = "positive")) as Hne.
    destruct (get sentiment "emotion") as [ |?|?|?|e|?|?];
      destruct (get sentiment "sentiment") as [ |?|?|?|t|?|?];
      cbn [eq_str]; repeat case_bool_decide; subst; try done;
      by vm_compute.
  - unfold _calculate_sentiment_adjustment, rule_sentiment_increment.
    intros ->.
    destruct (eq_str (get sentiment "emotion") "angry"); by vm_compute.
  - intros fs s. unfold RiskModel._calculate_rule_based_risk,
      rule_urgency_weight, rule_sentiment_increment, table_get.
    destruct (get_or classification "urgency_level" (VStr "medium"))
      as [ |?|?|?|u|?|?];
      cbn [mbind exc_bind bind assoc RiskModel.urgency_weights default
           from_option id];
      try done;
      repeat case_bool_decide;
      RiskModelProps.split_rule_tests;
      intros [= <-]; eexists; (split; [reflexivity|]);
      first [ left; by vm_compute | right; by vm_compute ].
Qed.

End RiskBreakdownProps.
